(** * AxonPuls Python client: connection-resilience core

    A shallow embedding of [apix_client/client.py], [types.py] and
    [errors.py], and the properties of the circuit breaker, the session
    operations, the liveness monitor and the reconnection loop.

    Conventions of the embedding.
    - Python [int] is [Z].  [datetime] values are [Z] microseconds (the
      resolution of [datetime]); a [timedelta] is a difference of two.
    - Python [float] seconds (the backoff delay, the event-loop clock) are
      exact rationals [Q].
    - [set[str]] is [gset string]; strings are byte strings (UTF-8).
    - The client object, the effects it performs on the transport, the
      logger and the asyncio task pool are threaded through a state and
      exception monad [M]. What the environment decides (the clock, the
      outcome of a transport call) is an argument of the operation. *)

From Stdlib Require Import ZArith QArith Qround Lia Lqa.
From stdpp Require Import gmap strings list pretty.

Local Open Scope Z_scope.

(** ** types.py *)

Inductive ConnectionState :=
| DISCONNECTED
| CONNECTING
| CONNECTED
| RECONNECTING.

Record AxonPulsClientConfig := mkConfig {
  url : string;
  token : string;
  client_type : option string;
  auto_reconnect : bool;
  heartbeat_interval : option Z;
  reconnect_attempts : option Z;
  debug : bool
}.

(** Python's [x or d] on an [Optional[int]]: [None] and [0] are falsy. *)
Definition or_default (x : option Z) (d : Z) : Z :=
  match x with
  | Some v => if v =? 0 then d else v
  | None => d
  end.

(** ** Time *)

(** A [datetime], in microseconds. *)
Definition time := Z.

(** [timedelta(seconds=s)], in microseconds. *)
Definition timedelta_seconds (s : Z) : Z := s * 1000000.

(** ** The circuit breaker *)

Inductive CircuitState :=
| CLOSED
| OPEN
| HALF_OPEN.

Record CircuitBreaker := mkBreaker {
  failure_threshold : Z;
  timeout_seconds : Z;
  failure_count : Z;
  state : CircuitState;
  last_failure_time : option time
}.

(** [CircuitBreaker()] with the dataclass defaults. *)
Definition default_breaker : CircuitBreaker :=
  mkBreaker 5 60 0 CLOSED None.

(** [CircuitBreaker(failure_threshold=th, timeout_seconds=cd)]. *)
Definition new_breaker (th cd : Z) : CircuitBreaker :=
  mkBreaker th cd 0 CLOSED None.

Definition record_success (cb : CircuitBreaker) : CircuitBreaker :=
  let cb1 := mkBreaker (failure_threshold cb) (timeout_seconds cb) 0
                       (state cb) (last_failure_time cb) in
  match state cb1 with
  | HALF_OPEN => mkBreaker (failure_threshold cb1) (timeout_seconds cb1)
                           (failure_count cb1) CLOSED (last_failure_time cb1)
  | _ => cb1
  end.

(** [now] is the value of [datetime.now()] inside the call. *)
Definition record_failure (now : time) (cb : CircuitBreaker) : CircuitBreaker :=
  let count := failure_count cb + 1 in
  mkBreaker (failure_threshold cb) (timeout_seconds cb) count
            (if failure_threshold cb <=? count then OPEN else state cb)
            (Some now).

(** Returns the answer and the breaker after the (possible) transition. *)
Definition can_attempt (now : time) (cb : CircuitBreaker) : bool * CircuitBreaker :=
  match state cb with
  | CLOSED => (true, cb)
  | OPEN =>
      match last_failure_time cb with
      | Some t =>
          if timedelta_seconds (timeout_seconds cb) <? now - t
          then (true, mkBreaker (failure_threshold cb) (timeout_seconds cb)
                                (failure_count cb) HALF_OPEN (Some t))
          else (false, cb)
      | None => (false, cb)
      end
  | HALF_OPEN => (true, cb)
  end.

(** [record_failure] called once per element of [ts], in order. *)
Definition record_failures (ts : list time) (cb : CircuitBreaker) : CircuitBreaker :=
  fold_left (fun b t => record_failure t b) ts cb.

(** ** errors.py *)

(** The exception classes of the package. *)
Inductive error_class :=
| AxonPulsError
| AxonPulsConnectionError
| AxonPulsAuthenticationError
| AxonPulsValidationError
| AxonPulsTenantIsolationError
| AxonPulsRateLimitError
| AxonPulsCircuitBreakerError.

(** [self.__class__.__name__], as [to_dict] reports it under ["type"]. *)
Definition class_name (c : error_class) : string :=
  match c with
  | AxonPulsError => "AxonPulsError"
  | AxonPulsConnectionError => "AxonPulsConnectionError"
  | AxonPulsAuthenticationError => "AxonPulsAuthenticationError"
  | AxonPulsValidationError => "AxonPulsValidationError"
  | AxonPulsTenantIsolationError => "AxonPulsTenantIsolationError"
  | AxonPulsRateLimitError => "AxonPulsRateLimitError"
  | AxonPulsCircuitBreakerError => "AxonPulsCircuitBreakerError"
  end.

(** The [code] each class passes to [AxonPulsError.__init__]. *)
Definition error_code (c : error_class) : string :=
  match c with
  | AxonPulsError => "AxonPuls_UNKNOWN_ERROR"
  | AxonPulsConnectionError => "AxonPuls_CONNECTION_ERROR"
  | AxonPulsAuthenticationError => "AxonPuls_AUTH_ERROR"
  | AxonPulsValidationError => "AxonPuls_VALIDATION_ERROR"
  | AxonPulsTenantIsolationError => "AxonPuls_TENANT_ISOLATION_ERROR"
  | AxonPulsRateLimitError => "AxonPuls_RATE_LIMIT_ERROR"
  | AxonPulsCircuitBreakerError => "AxonPuls_CIRCUIT_BREAKER_ERROR"
  end.

(** The error of kind [kind] in the taxonomy: the class of the package
    (prefix [AxonPuls]) with that name. *)
Definition is_error_kind (kind : string) (c : error_class) : bool :=
  String.eqb (class_name c) ("AxonPuls" +:+ kind).

(** The message of an exception: the f-string of the source, kept as its
    template and the values that fill it. *)
Inductive error_message :=
| MsgTokenWithoutOrg
    (* "Token must contain organizationId claim for multi-tenancy" *)
| MsgChannelNotInOrg (channel expected_prefix : string)
    (* "Channel '{channel}' not in your organization. Use format: ..." *)
| MsgPayloadSize (size max : Z)
    (* "Payload size ({size} bytes) exceeds maximum ({max} bytes)" *)
| MsgInvalidPayload (cause : string)
    (* "Invalid payload: {e}" *)
| MsgCircuitOpen (wait_time : Z)
    (* "Circuit breaker open. Retry after {wait_time}s" *)
| MsgConnectionFailed (cause : string)
    (* "Connection failed: {e}" *)
| MsgNotConnected
    (* "Not connected to AxonPuls gateway" *)
| MsgMaxChannels (max : Z)
    (* "Maximum channel subscriptions ({max}) exceeded" *)
| MsgSendFailed (cause : string).
    (* "Failed to send message: {e}" *)

Record exn := mkExn {
  exc_class : error_class;
  exc_message : error_message
}.

(** An exception that is not of the package, raised by the interpreter or
    by a library ([RecursionError], [RuntimeError], ...): its class name
    and its text. *)
Record py_exn := mkPyExn {
  py_class : string;
  py_text : string
}.

(** What [except Exception as e] binds: an exception of the package or
    another one. *)
Inductive raised :=
| Own (e : exn)
| Other (x : py_exn).

Coercion Own : exn >-> raised.

(** ** Wire messages and the environment *)

Record SubscribeOptions := mkSubscribeOptions {
  replay_from : option string;
  replay_count : option Z;
  filter : option string
}.

Record PublishOptions := mkPublishOptions {
  delivery_guarantee : option string;
  partition_key : option string
}.

(** What [json.dumps] does with a payload: the serialized text (ASCII, so
    its UTF-8 encoding has one byte per character), or [TypeError] /
    [ValueError] with its text, or any other exception, as the
    [RecursionError] of a payload nested too deep. *)
Inductive dumps_result :=
| Dumped (text : string)
| DumpError (cause : string)
| DumpRaised (x : py_exn).

(** The envelopes the client sends, by ["type"] and ["payload"]. The ["id"]
    (a fresh uuid4) and the ["timestamp"] are generated per message and are
    left out. *)
Inductive message :=
| Subscribe (channels : list string) (options : option SubscribeOptions)
| Unsubscribe (channels : list string)
| Publish (channel event_type payload_json : string)
          (correlation_id : option string) (options : option PublishOptions)
| Replay (channel : string) (since_id : option string) (count : Z)
| Ping.

(** Outcome of [websockets.connect]: a connection handle, or an exception
    with its text. *)
Inductive open_result :=
| Opened (ws : nat)
| OpenFailed (cause : string).

(** Outcome of [websocket.send]: sent, or an exception with its text; the
    time is what [datetime.now()] gives when the failure is recorded. *)
Inductive send_result :=
| Sent
| SendFailed (cause : string) (now : time).

(** The asyncio tasks the client creates. *)
Inductive task_kind :=
| MessageHandlerTask
| HeartbeatTask
| ReconnectTask.

(** A task is pending ([Active]: suspended at an [await] of its loop;
    [Running]: the one whose turn it is; [SelfAwaited]: it has cancelled
    and awaited itself, inside its own [disconnect()], and goes on) or
    done ([Cancelled], [Finished]). *)
Inductive task_status :=
| Active
| Cancelled
| Finished
| Running
| SelfAwaited.

Record task := mkTask {
  kind : task_kind;
  status : task_status
}.

(** Records written to the logger. *)
Inductive log_record :=
| LogInitialized (org : string)
| LogTokenExtractFailed
| LogConnected (org : string)
| LogConnectFailed (cause : string)
| LogDisconnected (org : string)
| LogSubscribed (channels : list string)
| LogUnsubscribed (channels : list string)
| LogPublished (event_type channel : string)
| LogReplayRequested (channel : string)
| LogSendFailed (cause : string)
| LogParseFailed
| LogConnectionClosed
| LogMessageHandlerError (cause : string)
| LogAck
| LogErrorReceived
| LogPong
| LogHeartbeatMissed
| LogHeartbeatError (e : raised)
| LogReconnectAttempt (n max : Z) (delay : Q)
| LogReconnected
| LogReconnectAttemptFailed (n : Z) (e : raised)
| LogReconnectExhausted.
    (* "Failed to reconnect after maximum retries" *)

(** What the client does to the world, in the order it does it. *)
Inductive effect :=
| EvLog (r : log_record)
| EvHttpSessionOpen
| EvHttpSessionClose
| EvTransportConnect (r : open_result)
| EvTransportClose (ws : nat)
| EvSend (m : message) (r : send_result)
| EvSleep (seconds : Q)
| EvCreateTask (k : task_kind) (id : nat)
| EvCancelTask (id : nat).

(** ** The client object *)

Record Client := mkClient {
  config : AxonPulsClientConfig;
  org_id : string;
  websocket : option nat;
  subscriptions : gset string;
  connection_state : ConnectionState;
  _heartbeat_task : option nat;
  _reconnect_task : option nat;
  circuit_breaker : CircuitBreaker;
  reconnect_attempt : Z;
  last_pong_time : time;
  missed_pongs : Z;
  last_stream_ids : gmap string string;
  http_session : bool
}.

(** Class constants. *)
Definition MAX_PAYLOAD_BYTES : Z := 1048576.
Definition MAX_CHANNELS : Z := 200.
Definition HEARTBEAT_INTERVAL : Z := 30.
Definition BACKOFF_BASE_MS : Z := 250.
Definition BACKOFF_FACTOR : Z := 2.
Definition BACKOFF_MAX_MS : Z := 30000.
Definition BACKOFF_JITTER : Q := 2 # 10.

(** Attribute assignments [self.x = v]. *)
Definition set_websocket (v : option nat) (c : Client) : Client :=
  mkClient (config c) (org_id c) v (subscriptions c) (connection_state c)
    (_heartbeat_task c) (_reconnect_task c) (circuit_breaker c)
    (reconnect_attempt c) (last_pong_time c) (missed_pongs c)
    (last_stream_ids c) (http_session c).

Definition set_subscriptions (v : gset string) (c : Client) : Client :=
  mkClient (config c) (org_id c) (websocket c) v (connection_state c)
    (_heartbeat_task c) (_reconnect_task c) (circuit_breaker c)
    (reconnect_attempt c) (last_pong_time c) (missed_pongs c)
    (last_stream_ids c) (http_session c).

Definition set_connection_state (v : ConnectionState) (c : Client) : Client :=
  mkClient (config c) (org_id c) (websocket c) (subscriptions c) v
    (_heartbeat_task c) (_reconnect_task c) (circuit_breaker c)
    (reconnect_attempt c) (last_pong_time c) (missed_pongs c)
    (last_stream_ids c) (http_session c).

Definition set_heartbeat_task (v : option nat) (c : Client) : Client :=
  mkClient (config c) (org_id c) (websocket c) (subscriptions c)
    (connection_state c) v (_reconnect_task c) (circuit_breaker c)
    (reconnect_attempt c) (last_pong_time c) (missed_pongs c)
    (last_stream_ids c) (http_session c).

Definition set_reconnect_task (v : option nat) (c : Client) : Client :=
  mkClient (config c) (org_id c) (websocket c) (subscriptions c)
    (connection_state c) (_heartbeat_task c) v (circuit_breaker c)
    (reconnect_attempt c) (last_pong_time c) (missed_pongs c)
    (last_stream_ids c) (http_session c).

Definition set_circuit_breaker (v : CircuitBreaker) (c : Client) : Client :=
  mkClient (config c) (org_id c) (websocket c) (subscriptions c)
    (connection_state c) (_heartbeat_task c) (_reconnect_task c) v
    (reconnect_attempt c) (last_pong_time c) (missed_pongs c)
    (last_stream_ids c) (http_session c).

Definition set_reconnect_attempt (v : Z) (c : Client) : Client :=
  mkClient (config c) (org_id c) (websocket c) (subscriptions c)
    (connection_state c) (_heartbeat_task c) (_reconnect_task c)
    (circuit_breaker c) v (last_pong_time c) (missed_pongs c)
    (last_stream_ids c) (http_session c).

Definition set_pong (t : time) (c : Client) : Client :=
  mkClient (config c) (org_id c) (websocket c) (subscriptions c)
    (connection_state c) (_heartbeat_task c) (_reconnect_task c)
    (circuit_breaker c) (reconnect_attempt c) t 0
    (last_stream_ids c) (http_session c).

Definition set_last_stream_ids (v : gmap string string) (c : Client) : Client :=
  mkClient (config c) (org_id c) (websocket c) (subscriptions c)
    (connection_state c) (_heartbeat_task c) (_reconnect_task c)
    (circuit_breaker c) (reconnect_attempt c) (last_pong_time c)
    (missed_pongs c) v (http_session c).

Definition set_http_session (v : bool) (c : Client) : Client :=
  mkClient (config c) (org_id c) (websocket c) (subscriptions c)
    (connection_state c) (_heartbeat_task c) (_reconnect_task c)
    (circuit_breaker c) (reconnect_attempt c) (last_pong_time c)
    (missed_pongs c) (last_stream_ids c) v.

(** ** The monad: the client, the effects so far, the task pool *)

Record Sys := mkSys {
  self : Client;
  trace : list effect;
  tasks : list task
}.

(** How a call ends: it returns, raises an exception of the package, or
    lets another exception through. *)
Inductive outcome (A : Type) :=
| Return (a : A)
| Raise (e : exn)
| RaisePy (x : py_exn).
Arguments Return {A} a.
Arguments Raise {A} e.
Arguments RaisePy {A} x.

Definition M (A : Type) : Type := Sys -> outcome A * Sys.

Definition ret {A} (a : A) : M A := fun s => (Return a, s).

Definition raise {A} (e : exn) : M A := fun s => (Raise e, s).

Definition raise_py {A} (x : py_exn) : M A := fun s => (RaisePy x, s).

Definition bind {A B} (m : M A) (k : A -> M B) : M B :=
  fun s =>
    match m s with
    | (Return a, s') => k a s'
    | (Raise e, s') => (Raise e, s')
    | (RaisePy x, s') => (RaisePy x, s')
    end.

(** [try: m except Exception as e: h e] *)
Definition try_except {A} (m : M A) (h : raised -> M A) : M A :=
  fun s =>
    match m s with
    | (Return a, s') => (Return a, s')
    | (Raise e, s') => h (Own e) s'
    | (RaisePy x, s') => h (Other x) s'
    end.

Declare Scope monad_scope.
Delimit Scope monad_scope with M.
Notation "x <- m ;; k" := (bind m (fun x => k))
  (at level 100, m at next level, k at level 200, right associativity)
  : monad_scope.
Notation "m ;; k" := (bind m (fun _ => k))
  (at level 100, k at level 200, right associativity) : monad_scope.
Local Open Scope monad_scope.

Definition get_self : M Client := fun s => (Return (self s), s).

Definition modify_self (f : Client -> Client) : M unit :=
  fun s => (Return tt, mkSys (f (self s)) (trace s) (tasks s)).

Definition emit (e : effect) : M unit :=
  fun s => (Return tt, mkSys (self s) (trace s ++ [e]) (tasks s)).

Definition log (r : log_record) : M unit := emit (EvLog r).

Definition when (b : bool) (m : M unit) : M unit :=
  if b then m else ret tt.

(** [asyncio.create_task(...)]: the new task joins the pool; its handle is
    its position there. *)
Definition create_task (k : task_kind) : M nat :=
  fun s =>
    let id := length (tasks s) in
    (Return id,
     mkSys (self s) (trace s ++ [EvCreateTask k id])
           (tasks s ++ [mkTask k Active])).

(** What [task.cancel()] and the [await task] that follows do to the
    task. A task suspended in its loop gets [CancelledError] there, which
    no [except Exception] of the loops catches: it ends cancelled. When
    the caller is the task itself, the [CancelledError] is delivered to it
    at that [await] and swallowed there: it runs on. A task that is done
    is left as it is. *)
Definition cancel_status (t : task) : task :=
  match status t with
  | Active => mkTask (kind t) Cancelled
  | Running => mkTask (kind t) SelfAwaited
  | _ => t
  end.

(** [RuntimeError("await wasn't used with future")]: what [await task]
    raises in CPython when the task is pending and has awaited itself
    before, which leaves its blocking flag set. *)
Definition await_error : py_exn :=
  mkPyExn "RuntimeError" "await wasn't used with future".

(** [task.cancel()], then [try: await task except asyncio.CancelledError:
    pass]. Only [CancelledError] is swallowed: the [RuntimeError] of
    awaiting a task that has awaited itself and is not done goes to the
    caller, after the cancellation was requested. *)
Definition cancel_and_await (id : nat) : M unit :=
  fun s =>
    match status <$> tasks s !! id with
    | Some SelfAwaited =>
        (RaisePy await_error,
         mkSys (self s) (trace s ++ [EvCancelTask id]) (tasks s))
    | _ =>
        (Return tt,
         mkSys (self s) (trace s ++ [EvCancelTask id])
               (alter cancel_status id (tasks s)))
    end.

(** ** AxonPulsClient *)

(** [jwt.decode(token, options={"verify_signature": False})] is PyJWT's: it
    is a parameter, [None] standing for any exception it raises. Claims are
    strings, as [_extract_org_id_from_token -> Optional[str]] declares. *)
Definition jwt_decoder := string -> option (gmap string string).

Definition _extract_org_id_from_token (jwt_decode : jwt_decoder) (token : string)
  : option string * list effect :=
  match jwt_decode token with
  | Some payload => (payload !! "organizationId", [])
  | None => (None, [EvLog LogTokenExtractFailed])
  end.

(** Python truthiness of an [Optional[str]]. *)
Definition truthy (o : option string) : bool :=
  match o with
  | Some s => negb (String.eqb s "")
  | None => false
  end.

(** [AxonPulsClient(config)]; [now] is [datetime.now()] for
    [last_pong_time]. The second component is what was logged. *)
Definition __init__ (jwt_decode : jwt_decoder) (now : time)
    (cfg : AxonPulsClientConfig) : outcome Client * list effect :=
  let (org, logged) := _extract_org_id_from_token jwt_decode (token cfg) in
  match org with
  | Some o =>
      if truthy org
      then (Return (mkClient cfg o None ∅ DISCONNECTED None None
                             default_breaker 0 now 0 ∅ false),
            logged ++ [EvLog (LogInitialized o)])
      else (Raise (mkExn AxonPulsValidationError MsgTokenWithoutOrg), logged)
  | None => (Raise (mkExn AxonPulsValidationError MsgTokenWithoutOrg), logged)
  end.

Definition expected_prefix (c : Client) : string :=
  "org:" +:+ org_id c +:+ ":".

Definition _validate_channel (channel : string) : M bool :=
  c <- get_self ;;
  if String.prefix (expected_prefix c) channel
  then ret true
  else raise (mkExn AxonPulsTenantIsolationError
                    (MsgChannelNotInOrg channel (expected_prefix c))).

(** [for channel in channels: self._validate_channel(channel)] *)
Fixpoint validate_channels (channels : list string) : M unit :=
  match channels with
  | [] => ret tt
  | ch :: rest => _validate_channel ch ;; validate_channels rest
  end.

(** [AxonPulsValidationError] is not a [TypeError] or a [ValueError], so
    the one raised inside the [try] leaves it as it is; so does any other
    exception of [json.dumps]: [except (TypeError, ValueError)] catches
    those two only. *)
Definition _validate_payload_size (payload : dumps_result) : M bool :=
  match payload with
  | Dumped payload_json =>
      let size := Z.of_nat (String.length payload_json) in
      if MAX_PAYLOAD_BYTES <? size
      then raise (mkExn AxonPulsValidationError
                        (MsgPayloadSize size MAX_PAYLOAD_BYTES))
      else ret true
  | DumpError cause =>
      raise (mkExn AxonPulsValidationError (MsgInvalidPayload cause))
  | DumpRaised x => raise_py x
  end.

Definition is_connected (c : Client) : bool :=
  match connection_state c with
  | CONNECTED => true
  | _ => false
  end.

Definition not_connected : exn :=
  mkExn AxonPulsConnectionError MsgNotConnected.

Definition _send_message (m : message) (r : send_result) : M unit :=
  c <- get_self ;;
  match websocket c with
  | Some _ =>
      if is_connected c then
        emit (EvSend m r) ;;
        match r with
        | Sent => ret tt
        | SendFailed cause now =>
            log (LogSendFailed cause) ;;
            modify_self (fun c =>
              set_circuit_breaker (record_failure now (circuit_breaker c)) c) ;;
            raise (mkExn AxonPulsConnectionError (MsgSendFailed cause))
        end
      else raise not_connected
  | None => raise not_connected
  end.

(** What the environment decides during one [connect()]: the clock when the
    breaker is asked, the outcome of [websockets.connect], the clock when a
    failure is recorded. *)
Record ConnectEnv := mkConnectEnv {
  now_attempt : time;
  transport : open_result;
  now_failure : time
}.

Definition connect (env : ConnectEnv) : M unit :=
  c <- get_self ;;
  match connection_state c with
  | CONNECTED | CONNECTING => ret tt
  | _ =>
      let (allowed, cb) := can_attempt (now_attempt env) (circuit_breaker c) in
      modify_self (set_circuit_breaker cb) ;;
      if negb allowed then
        let wait_time := timeout_seconds cb in
        raise (mkExn AxonPulsConnectionError (MsgCircuitOpen wait_time))
      else
        modify_self (set_connection_state CONNECTING) ;;
        when (negb (http_session c))
             (emit EvHttpSessionOpen ;; modify_self (set_http_session true)) ;;
        emit (EvTransportConnect (transport env)) ;;
        match transport env with
        | Opened ws =>
            modify_self (set_websocket (Some ws)) ;;
            modify_self (set_connection_state CONNECTED) ;;
            modify_self (fun c =>
              set_circuit_breaker (record_success (circuit_breaker c)) c) ;;
            modify_self (set_reconnect_attempt 0) ;;
            log (LogConnected (org_id c)) ;;
            _ <- create_task MessageHandlerTask ;;
            match heartbeat_interval (config c) with
            | Some i =>
                if 0 <? i
                then t <- create_task HeartbeatTask ;;
                     modify_self (set_heartbeat_task (Some t))
                else ret tt
            | None => ret tt
            end
        | OpenFailed cause =>
            modify_self (set_connection_state DISCONNECTED) ;;
            modify_self (fun c =>
              set_circuit_breaker
                (record_failure (now_failure env) (circuit_breaker c)) c) ;;
            log (LogConnectFailed cause) ;;
            raise (mkExn AxonPulsConnectionError (MsgConnectionFailed cause))
        end
  end.

(** [websocket.close()] and [http_session.close()] return normally. *)
Definition disconnect : M unit :=
  modify_self (set_connection_state DISCONNECTED) ;;
  c <- get_self ;;
  match _heartbeat_task c with
  | Some t => cancel_and_await t
  | None => ret tt
  end ;;
  match _reconnect_task c with
  | Some t => cancel_and_await t
  | None => ret tt
  end ;;
  match websocket c with
  | Some ws => emit (EvTransportClose ws) ;; modify_self (set_websocket None)
  | None => ret tt
  end ;;
  when (http_session c)
       (emit EvHttpSessionClose ;; modify_self (set_http_session false)) ;;
  log (LogDisconnected (org_id c)).

Definition subscribe (channels : list string)
    (options : option SubscribeOptions) (r : send_result) : M unit :=
  c <- get_self ;;
  if negb (is_connected c) then raise not_connected else
  if MAX_CHANNELS <? Z.of_nat (length channels) + Z.of_nat (size (subscriptions c))
  then raise (mkExn AxonPulsValidationError (MsgMaxChannels MAX_CHANNELS))
  else
    validate_channels channels ;;
    _send_message (Subscribe channels options) r ;;
    modify_self (fun c =>
      set_subscriptions (subscriptions c ∪ list_to_set channels) c) ;;
    log (LogSubscribed channels).

Definition unsubscribe (channels : list string) (r : send_result) : M unit :=
  c <- get_self ;;
  if negb (is_connected c) then raise not_connected else
    validate_channels channels ;;
    _send_message (Unsubscribe channels) r ;;
    modify_self (fun c =>
      set_subscriptions (subscriptions c ∖ list_to_set channels) c) ;;
    log (LogUnsubscribed channels).

(** The text [json.dumps] gave for a payload that passed the size check. *)
Definition payload_text (payload : dumps_result) : string :=
  match payload with
  | Dumped payload_json => payload_json
  | DumpError _ | DumpRaised _ => ""
  end.

Definition publish (channel event_type : string) (payload : dumps_result)
    (correlation_id : option string) (options : option PublishOptions)
    (r : send_result) : M unit :=
  c <- get_self ;;
  if negb (is_connected c) then raise not_connected else
    _validate_channel channel ;;
    _validate_payload_size payload ;;
    _send_message
      (Publish channel event_type (payload_text payload) correlation_id options)
      r ;;
    log (LogPublished event_type channel).

Definition replay (channel : string) (since_id : option string) (count : Z)
    (r : send_result) : M unit :=
  c <- get_self ;;
  if negb (is_connected c) then raise not_connected else
    _validate_channel channel ;;
    _send_message (Replay channel since_id count) r ;;
    log (LogReplayRequested channel).

(** An inbound envelope after [json.loads], by its ["type"]. Calling the
    registered handlers of an event is user code and is not modelled. *)
Inductive inbound :=
| InEvent (event_type channel stream_entry_id : option string)
| InAck
| InError
| InPong
| InOther.

Definition _handle_message (now : time) (data : inbound) : M unit :=
  match data with
  | InEvent _ channel stream_entry_id =>
      match channel, stream_entry_id with
      | Some ch, Some sid =>
          when (truthy channel && truthy stream_entry_id)
               (modify_self (fun c =>
                  set_last_stream_ids (<[ch := sid]> (last_stream_ids c)) c))
      | _, _ => ret tt
      end
  | InAck => log LogAck
  | InError => log LogErrorReceived
  | InPong => modify_self (set_pong now) ;; log LogPong
  | InOther => ret tt
  end.

(** How [async for message in self.websocket] ends. *)
Inductive read_loop_end :=
| StreamEnded
| ConnectionClosed
| OtherException (cause : string).

(** [self._reconnect_task = asyncio.create_task(self._reconnect())] *)
Definition spawn_reconnect : M unit :=
  t <- create_task ReconnectTask ;;
  modify_self (set_reconnect_task (Some t)).

(** The messages read ([None]: not JSON), each with the clock when it is
    handled, then the end of the stream. *)
Fixpoint _message_handler (inbox : list (option inbound * time))
    (ending : read_loop_end) : M unit :=
  match inbox with
  | (Some data, now) :: rest =>
      _handle_message now data ;; _message_handler rest ending
  | (None, _) :: rest =>
      log LogParseFailed ;; _message_handler rest ending
  | [] =>
      match ending with
      | StreamEnded => ret tt
      | ConnectionClosed =>
          log LogConnectionClosed ;;
          modify_self (set_connection_state DISCONNECTED) ;;
          c <- get_self ;;
          when (auto_reconnect (config c)) spawn_reconnect
      | OtherException cause =>
          log (LogMessageHandlerError cause) ;;
          c <- get_self ;;
          when (auto_reconnect (config c)) spawn_reconnect
      end
  end.

(** ** Backoff *)

(** [BACKOFF_BASE_MS * (BACKOFF_FACTOR ** attempt)], in milliseconds. *)
Definition base_delay (attempt : Z) : Z :=
  BACKOFF_BASE_MS * BACKOFF_FACTOR ^ attempt.

(** [min(base_delay, BACKOFF_MAX_MS) / 1000], in seconds. *)
Definition capped_delay (attempt : Z) : Q :=
  (inject_Z (Z.min (base_delay attempt) BACKOFF_MAX_MS) / 1000)%Q.

(** [t % 1] *)
Definition mod1 (t : Q) : Q := (t - inject_Z (Qfloor t))%Q.

(** [1 + (2 * BACKOFF_JITTER * (0.5 - loop.time() % 1))] *)
Definition jitter_factor (loop_time : Q) : Q :=
  (1 + (2 * BACKOFF_JITTER * ((1 # 2) - mod1 loop_time)))%Q.

(** The delay slept before attempt number [attempt] (counted from 0), when
    the event-loop clock reads [loop_time]. *)
Definition reconnect_delay (attempt : Z) (loop_time : Q) : Q :=
  (capped_delay attempt * jitter_factor loop_time)%Q.

(** ** The liveness monitor *)

Definition Qlt_bool (x y : Q) : bool := negb (Qle_bool y x).

(** [time_since_pong.total_seconds() > interval * 2.5] *)
Definition pong_overdue (now last_pong : time) (interval : Z) : bool :=
  Qlt_bool (inject_Z interval * (5 # 2))%Q
           (inject_Z (now - last_pong) / 1000000)%Q.

(** One turn of the heartbeat loop: the clock after the sleep and the
    outcome of sending the ping. *)
Record Tick := mkTick {
  tick_now : time;
  tick_send : send_result
}.

Inductive loop_ctl :=
| Continue
| Break
| ReturnNow.

(** The body of [while self.connection_state == CONNECTED]. *)
Definition heartbeat_body (t : Tick) : M loop_ctl :=
  try_except
    (c <- get_self ;;
     let interval := or_default (heartbeat_interval (config c)) HEARTBEAT_INTERVAL in
     emit (EvSleep (inject_Z interval)) ;;
     c <- get_self ;;
     if is_connected c then
       if pong_overdue (tick_now t) (last_pong_time c) interval then
         log LogHeartbeatMissed ;;
         disconnect ;;
         when (auto_reconnect (config c)) spawn_reconnect ;;
         ret ReturnNow
       else
         _send_message Ping (tick_send t) ;;
         ret Continue
     else ret Continue)
    (fun e => log (LogHeartbeatError e) ;; ret Break).

(** [_heartbeat_loop]: [true] when the coroutine has returned, [false] when
    it is still looping after the last tick given. *)
Fixpoint _heartbeat_loop (ticks : list Tick) : M bool :=
  c <- get_self ;;
  if is_connected c then
    match ticks with
    | [] => ret false
    | t :: rest =>
        ctl <- heartbeat_body t ;;
        match ctl with
        | Continue => _heartbeat_loop rest
        | Break | ReturnNow => ret true
        end
    end
  else ret true.

(** ** The reconnection loop *)

(** What the environment decides during one turn of the loop. *)
Record AttemptEnv := mkAttemptEnv {
  loop_time : Q;
  connect_env : ConnectEnv;
  resubscribe_send : send_result
}.

(** The body of [while self.reconnect_attempt < max_retries]: [true] when
    it ends in [return]. *)
Definition reconnect_body (max_retries : Z) (env : AttemptEnv) : M bool :=
  try_except
    (c <- get_self ;;
     let delay := reconnect_delay (reconnect_attempt c) (loop_time env) in
     log (LogReconnectAttempt (reconnect_attempt c + 1) max_retries delay) ;;
     emit (EvSleep delay) ;;
     modify_self (fun c => set_reconnect_attempt (reconnect_attempt c + 1) c) ;;
     connect (connect_env env) ;;
     c <- get_self ;;
     when (bool_decide (subscriptions c ≠ ∅))
          (subscribe (elements (subscriptions c)) None (resubscribe_send env)) ;;
     log LogReconnected ;;
     ret true)
    (fun e =>
       c <- get_self ;;
       log (LogReconnectAttemptFailed (reconnect_attempt c) e) ;;
       ret false).

(** The loop: [Some tt] when the coroutine has returned, [None] when it is
    still looping after the last turn given. *)
Fixpoint reconnect_loop (max_retries : Z) (envs : list AttemptEnv)
  : M (option unit) :=
  c <- get_self ;;
  if reconnect_attempt c <? max_retries then
    match envs with
    | [] => ret None
    | env :: rest =>
        returned <- reconnect_body max_retries env ;;
        if returned : bool then ret (Some tt)
        else reconnect_loop max_retries rest
    end
  else
    log LogReconnectExhausted ;;
    ret (Some tt).

Definition _reconnect (envs : list AttemptEnv) : M (option unit) :=
  c <- get_self ;;
  let max_retries := or_default (reconnect_attempts (config c)) 5 in
  reconnect_loop max_retries envs.

(** ** The session as a system of tasks *)

(** What can happen to a session: a call of the public API, or a turn of
    one of its tasks. A task takes a turn only while it is [Active] in the
    pool; it is [Running] during the turn, and afterwards [Finished] when
    its coroutine has ended, [Active] again when it is suspended in its
    loop. *)
Inductive event :=
| CallConnect (env : ConnectEnv)
| CallDisconnect
| CallSubscribe (channels : list string) (options : option SubscribeOptions)
                (r : send_result)
| CallUnsubscribe (channels : list string) (r : send_result)
| CallPublish (channel event_type : string) (payload : dumps_result)
              (correlation_id : option string) (options : option PublishOptions)
              (r : send_result)
| CallReplay (channel : string) (since_id : option string) (count : Z)
             (r : send_result)
| RunMessageHandler (id : nat) (inbox : list (option inbound * time))
                    (ending : read_loop_end)
| RunHeartbeat (id : nat) (ticks : list Tick)
| RunReconnect (id : nat) (envs : list AttemptEnv).

Definition task_is (k : task_kind) (id : nat) (s : Sys) : bool :=
  match tasks s !! id with
  | Some (mkTask k' Active) =>
      match k, k' with
      | MessageHandlerTask, MessageHandlerTask
      | HeartbeatTask, HeartbeatTask
      | ReconnectTask, ReconnectTask => true
      | _, _ => false
      end
  | _ => false
  end.

Definition start_status (t : task) : task :=
  match status t with
  | Active => mkTask (kind t) Running
  | _ => t
  end.

Definition start_task (id : nat) (s : Sys) : Sys :=
  mkSys (self s) (trace s) (alter start_status id (tasks s)).

(** The coroutine has ended: a pending task is done. *)
Definition finish_status (t : task) : task :=
  match status t with
  | Active | Running | SelfAwaited => mkTask (kind t) Finished
  | _ => t
  end.

Definition finish_task (id : nat) (s : Sys) : Sys :=
  mkSys (self s) (trace s) (alter finish_status id (tasks s)).

(** The coroutine is suspended at the [await] of its loop. *)
Definition suspend_status (t : task) : task :=
  match status t with
  | Running => mkTask (kind t) Active
  | _ => t
  end.

Definition suspend_task (id : nat) (s : Sys) : Sys :=
  mkSys (self s) (trace s) (alter suspend_status id (tasks s)).

(** An exception of an API call goes to the caller; the session goes on. *)
Definition run_call {A} (m : M A) (s : Sys) : Sys := snd (m s).

Definition step (ev : event) (s : Sys) : Sys :=
  match ev with
  | CallConnect env => run_call (connect env) s
  | CallDisconnect => run_call disconnect s
  | CallSubscribe chs o r => run_call (subscribe chs o r) s
  | CallUnsubscribe chs r => run_call (unsubscribe chs r) s
  | CallPublish ch ty p cid o r => run_call (publish ch ty p cid o r) s
  | CallReplay ch sid n r => run_call (replay ch sid n r) s
  | RunMessageHandler id inbox ending =>
      if task_is MessageHandlerTask id s
      then finish_task id
             (run_call (_message_handler inbox ending) (start_task id s))
      else s
  | RunHeartbeat id ticks =>
      if task_is HeartbeatTask id s then
        match _heartbeat_loop ticks (start_task id s) with
        | (Return false, s') => suspend_task id s'
        | (_, s') => finish_task id s'
        end
      else s
  | RunReconnect id envs =>
      if task_is ReconnectTask id s then
        match _reconnect envs (start_task id s) with
        | (Return None, s') => suspend_task id s'
        | (_, s') => finish_task id s'
        end
      else s
  end.

Definition run (evs : list event) (s : Sys) : Sys :=
  fold_left (fun s ev => step ev s) evs s.

(** The reconnection tasks alive in the pool. *)
Definition is_active_reconnect (t : task) : bool :=
  match kind t, status t with
  | ReconnectTask, Active => true
  | _, _ => false
  end.

Definition active_reconnects (s : Sys) : nat :=
  length (List.filter is_active_reconnect (tasks s)).

(** A session right after construction. *)
Definition new_session (c : Client) (logged : list effect) : Sys :=
  mkSys c logged [].

(** ** Reading the trace *)

Definition is_send (e : effect) : bool :=
  match e with
  | EvSend _ _ => true
  | _ => false
  end.

Definition sends (tr : list effect) : list effect := List.filter is_send tr.

Definition is_reconnect_attempt (e : effect) : bool :=
  match e with
  | EvLog (LogReconnectAttempt _ _ _) => true
  | _ => false
  end.

(** The turns of the reconnection loop that were started. *)
Definition reconnect_attempts_made (tr : list effect) : nat :=
  length (List.filter is_reconnect_attempt tr).

Definition is_spawn_reconnect (e : effect) : bool :=
  match e with
  | EvCreateTask ReconnectTask _ => true
  | _ => false
  end.

Definition reconnects_spawned (tr : list effect) : nat :=
  length (List.filter is_spawn_reconnect tr).

(** Whether a channel lies outside the client's organization, and the
    first such channel of a list: the one [_validate_channel] raises for. *)
Definition foreign (c : Client) (channel : string) : bool :=
  negb (String.prefix (expected_prefix c) channel).

Definition first_foreign (c : Client) (channels : list string) : option string :=
  List.find (foreign c) channels.

Definition tenant_error (c : Client) (channel : string) : exn :=
  mkExn AxonPulsTenantIsolationError
        (MsgChannelNotInOrg channel (expected_prefix c)).

(** ** What an operation may not change *)

(** The organization and the configuration of the client are the same in
    [s'] as in [s]. *)
Definition same_identity (s s' : Sys) : Prop :=
  org_id (self s') = org_id (self s) /\ config (self s') = config (self s).

(** An operation that keeps them, however it ends. *)
Definition stable {A} (m : M A) : Prop :=
  forall s, same_identity s (snd (m s)).

(** ** A sample session *)

Definition sample_config : AxonPulsClientConfig :=
  mkConfig "wss://gateway.example/ws" "tok" None true (Some 30) (Some 2) false.

(** A decoder that knows one token, of organization [acme]. *)
Definition sample_jwt : jwt_decoder :=
  fun tok =>
    if String.eqb tok "tok" then Some {[ "organizationId" := "acme" ]}
    else None.

Definition sample_client : Client :=
  mkClient sample_config "acme" None ∅ DISCONNECTED None None
           default_breaker 0 0 0 ∅ false.

Definition sample_session : Sys := new_session sample_client [].

(** The sample session after a successful [connect()]. *)
Definition sample_connected : Sys :=
  run [CallConnect (mkConnectEnv 0 (Opened 1) 0)] sample_session.

(** [n] distinct channels of the organization. *)
Definition sample_channels (n : nat) : list string :=
  (fun i : nat => "org:acme:ch" +:+ pretty i) <$> seq 0 n.

(** A text of [2^n] characters. *)
Fixpoint doubled (n : nat) (s : string) : string :=
  match n with
  | O => s
  | S k => doubled k (s +:+ s)
  end.

(** A refused connection attempt at second [sec]. *)
Definition refused_at (sec : Z) : ConnectEnv :=
  mkConnectEnv (timedelta_seconds sec) (OpenFailed "refused")
               (timedelta_seconds sec).

(** The sample session after five refused [connect()] calls, at seconds 1
    to 5: the breaker is open since second 5. *)
Definition sample_open : Sys :=
  run (map (fun sec => CallConnect (refused_at sec)) [1; 2; 3; 4; 5])
      sample_session.

(** A token whose payload has no [organizationId]. *)
Definition anonymous_jwt : jwt_decoder :=
  fun tok => Some {[ "sub" := "user-1" ]}.

(** Heartbeat ticks every 30 s after the connection, each ping sent, no
    pong ever received. *)
Definition silent_ticks : list Tick :=
  [mkTick (timedelta_seconds 30) Sent; mkTick (timedelta_seconds 60) Sent;
   mkTick (timedelta_seconds 90) Sent; mkTick (timedelta_seconds 120) Sent].

(** The sample session after the liveness monitor (task 1) has declared the
    connection dead. *)
Definition sample_dead : Sys :=
  run [RunHeartbeat 1 silent_ticks] sample_connected.

(** Then the read loop (task 0) of the socket that was closed ends with
    [ConnectionClosed]. *)
Definition sample_dead_closed : Sys :=
  run [RunMessageHandler 0 [] ConnectionClosed] sample_dead.

(** Heartbeat ticks every 30 s, no pong ever received, and the second
    ping cannot be sent. *)
Definition unsent_ticks : list Tick :=
  [mkTick (timedelta_seconds 30) Sent;
   mkTick (timedelta_seconds 60)
          (SendFailed "connection lost" (timedelta_seconds 60));
   mkTick (timedelta_seconds 90) Sent; mkTick (timedelta_seconds 120) Sent].

(** The sample session after its read loop ended with [ConnectionClosed]. *)
Definition sample_dropped : Sys :=
  run [RunMessageHandler 0 [] ConnectionClosed] sample_connected.

(** A turn of the reconnection loop whose [websockets.connect] fails. *)
Definition transport_fails (env : AttemptEnv) : bool :=
  match transport (connect_env env) with
  | OpenFailed _ => true
  | Opened _ => false
  end.

(** Three turns, from second 100 on, all refused. *)
Definition refused_turns : list AttemptEnv :=
  map (fun sec => mkAttemptEnv (1 # 2) (refused_at sec) Sent) [100; 101; 102].

(** ** The breaker under any sequence of calls *)

Inductive breaker_call :=
| DoRecordSuccess
| DoRecordFailure (now : time)
| DoCanAttempt (now : time).

Definition breaker_step (cb : CircuitBreaker) (call : breaker_call) : CircuitBreaker :=
  match call with
  | DoRecordSuccess => record_success cb
  | DoRecordFailure now => record_failure now cb
  | DoCanAttempt now => snd (can_attempt now cb)
  end.

Definition breaker_run (calls : list breaker_call) (cb : CircuitBreaker) : CircuitBreaker :=
  fold_left breaker_step calls cb.

(** What every call keeps: the count is not negative, a Closed breaker is
    below its threshold, and a breaker that is not Closed knows when it
    last failed. *)
Definition breaker_sound (cb : CircuitBreaker) : Prop :=
  0 <= failure_count cb /\
  (state cb = CLOSED -> failure_count cb < failure_threshold cb) /\
  (state cb <> CLOSED -> exists t, last_failure_time cb = Some t).

(** ** Invariants of a session *)

(** [P] holds after [m], however [m] ends, when it held before. *)
Definition invariant (P : Sys -> Prop) {A} (m : M A) : Prop :=
  forall s, P s -> P (snd (m s)).

(** Every subscription is a channel of the client's organization, and
    there are at most [MAX_CHANNELS] of them. *)
Definition subscriptions_ok (c : Client) : Prop :=
  (forall ch, ch ∈ subscriptions c ->
     String.prefix (expected_prefix c) ch = true) /\
  Z.of_nat (size (subscriptions c)) <= MAX_CHANNELS.

(** The client is Disconnected or Connected, and has a socket when it is
    Connected. *)
Definition connection_ok (c : Client) : Prop :=
  (connection_state c = DISCONNECTED \/ connection_state c = CONNECTED) /\
  (connection_state c = CONNECTED -> exists ws, websocket c = Some ws).

(** The breaker has threshold [th >= 1] and cooldown [cd]; Closed, its
    count is below the threshold; otherwise the count has reached the
    threshold and the time of the last failure is known. *)
Definition breaker_ok (th cd : Z) (cb : CircuitBreaker) : Prop :=
  failure_threshold cb = th /\ timeout_seconds cb = cd /\ 1 <= th /\
  0 <= failure_count cb /\
  (state cb = CLOSED -> failure_count cb < th) /\
  (state cb <> CLOSED ->
     th <= failure_count cb /\ exists t, last_failure_time cb = Some t).

Definition session_ok (th cd : Z) (s : Sys) : Prop :=
  subscriptions_ok (self s) /\
  connection_ok (self s) /\
  breaker_ok th cd (circuit_breaker (self s)) /\
  0 <= reconnect_attempt (self s).

(** Events of the sample session: a connection, a subscription, five
    publishes whose send fails, the loss of the connection. *)
Definition sample_events : list event :=
  [CallConnect (mkConnectEnv 0 (Opened 1) 0);
   CallSubscribe ["org:acme:a"; "org:acme:b"] None Sent;
   CallPublish "org:acme:a" "evt" (Dumped "{}") None None (SendFailed "closed" 1);
   CallPublish "org:acme:a" "evt" (Dumped "{}") None None (SendFailed "closed" 2);
   CallPublish "org:acme:a" "evt" (Dumped "{}") None None (SendFailed "closed" 3);
   CallPublish "org:acme:a" "evt" (Dumped "{}") None None (SendFailed "closed" 4);
   CallPublish "org:acme:a" "evt" (Dumped "{}") None None (SendFailed "closed" 5);
   RunMessageHandler 0 [] ConnectionClosed].

(** The sample session as [__init__] leaves it. *)
Definition sample_fresh : Sys :=
  new_session sample_client [EvLog (LogInitialized "acme")].

(** The sample session connected and subscribed to two channels. *)
Definition sample_subscribed : Sys :=
  run [CallSubscribe ["org:acme:a"; "org:acme:b"] None Sent] sample_connected.

(** ** More readings of the trace *)

Definition is_transport_connect (e : effect) : bool :=
  match e with
  | EvTransportConnect _ => true
  | _ => false
  end.

(** The calls of [websockets.connect]. *)
Definition transport_connects (tr : list effect) : nat :=
  length (List.filter is_transport_connect tr).

Definition is_close (e : effect) : bool :=
  match e with
  | EvTransportClose _ | EvHttpSessionClose => true
  | _ => false
  end.

(** The sockets and HTTP sessions closed. *)
Definition closes (tr : list effect) : list effect := List.filter is_close tr.

(** The task is held by the client as its heartbeat or reconnection task. *)
Definition held (c : Client) (id : nat) : Prop :=
  _heartbeat_task c = Some id \/ _reconnect_task c = Some id.

(** The sample client without a heartbeat interval, the default of
    [AxonPulsClientConfig]. *)
Definition sample_no_heartbeat : Sys :=
  new_session
    (mkClient (mkConfig "wss://gateway.example/ws" "tok" None true None None false)
              "acme" None ∅ DISCONNECTED None None default_breaker 0 0 0 ∅ false)
    [].

(** The pool after the task of handle [h], if any, is cancelled. *)
Definition cancel_handle (h : option nat) (l : list task) : list task :=
  match h with
  | Some id => alter cancel_status id l
  | None => l
  end.

(** The task is suspended in its loop or done: it is not the caller
    itself, and not a task that has awaited itself and goes on. *)
Definition settled (t : task) : Prop :=
  status t <> Running /\ status t <> SelfAwaited.

(** Between the turns of the tasks: no task of the pool is running, none
    is inside its own [disconnect()]. *)
Definition pool_settled (s : Sys) : Prop := Forall settled (tasks s).

(** The task of handle [h], if any, has not awaited itself. *)
Definition awaitable (h : option nat) (l : list task) : Prop :=
  forall id, h = Some id -> status <$> l !! id <> Some SelfAwaited.

(** The task is done. *)
Definition is_done (t : task) : Prop :=
  status t = Cancelled \/ status t = Finished.

(** The reconnection handle of the client, if any, is the handle of a
    reconnection task of the pool. *)
Definition reconnect_handle_ok (s : Sys) : Prop :=
  forall r, _reconnect_task (self s) = Some r ->
    exists t, tasks s !! r = Some t /\ kind t = ReconnectTask.

(** The pool in the turn of task [id]: the other tasks are settled. *)
Definition others_settled (id : nat) (l : list task) : Prop :=
  (id < length l)%nat /\
  forall i t, i <> id -> l !! i = Some t -> settled t.

(** The sample session while its monitor (task 1) is inside its own
    [disconnect()], at the first [await]: after two pings without a pong
    it has slept a third time, logged the missed heartbeat, marked the
    session Disconnected, and cancelled and awaited itself; socket and
    HTTP session are still open. *)
Definition sample_monitor_suspended : Sys :=
  snd ((emit (EvSleep (inject_Z 30)) ;;
        log LogHeartbeatMissed ;;
        modify_self (set_connection_state DISCONNECTED) ;;
        cancel_and_await 1)
         (snd (_heartbeat_loop
                 [mkTick (timedelta_seconds 30) Sent;
                  mkTick (timedelta_seconds 60) Sent]
                 (start_task 1 sample_connected)))).

(** Automatic reconnection is off, and [n] reconnection tasks were created
    so far. *)
Definition reconnect_off (n : nat) (s : Sys) : Prop :=
  auto_reconnect (config (self s)) = false /\
  reconnects_spawned (trace s) = n.

(** The sample client with [auto_reconnect] off. *)
Definition sample_manual : Sys :=
  new_session
    (mkClient (mkConfig "wss://gateway.example/ws" "tok" None false (Some 30) (Some 2) false)
              "acme" None ∅ DISCONNECTED None None default_breaker 0 0 0 ∅ false)
    [].

(** The sample session, subscribed to two channels, after its read loop
    ended with [ConnectionClosed]. *)
Definition sample_subscribed_dropped : Sys :=
  run [RunMessageHandler 0 [] ConnectionClosed] sample_subscribed.

(** The sample session, subscribed to 101 channels, after its read loop
    ended with [ConnectionClosed]. *)
Definition sample_crowded_dropped : Sys :=
  run [CallSubscribe (sample_channels 101) None Sent;
       RunMessageHandler 0 [] ConnectionClosed]
      sample_connected.

(** The state a turn of the loop has reached when it calls [connect()]. *)
Definition turn_started (k : Z) (env : AttemptEnv) (s : Sys) : Sys :=
  mkSys (set_reconnect_attempt (reconnect_attempt (self s) + 1) (self s))
        ((trace s ++ [EvLog (LogReconnectAttempt
                               (reconnect_attempt (self s) + 1) k
                               (reconnect_delay (reconnect_attempt (self s))
                                                (loop_time env)))])
           ++ [EvSleep (reconnect_delay (reconnect_attempt (self s)) (loop_time env))])
        (tasks s).


(** ** Event handlers *)

(** [self.event_handlers: Dict[str, List[EventHandler]]] is a
    [gmap string (list nat)]: a handler is a callable, known by its
    identity. *)

(** [on(event_type, handler)] *)
Definition on (event_type : string) (handler : nat) (hs : gmap string (list nat))
  : gmap string (list nat) :=
  <[event_type := default [] (hs !! event_type) ++ [handler]]> hs.

(** [list.remove(x)]: the list without its first item equal to [x];
    [None] is [ValueError], raised when there is none. *)
Fixpoint list_remove (x : nat) (l : list nat) : option (list nat) :=
  match l with
  | [] => None
  | y :: r => if decide (y = x) then Some r else cons y <$> list_remove x r
  end.

(** [off(event_type, handler=None)] *)
Definition off (event_type : string) (handler : option nat) (hs : gmap string (list nat))
  : gmap string (list nat) :=
  match hs !! event_type with
  | Some l =>
      match handler with
      | Some h =>
          match list_remove h l with
          | Some l' => <[event_type := l']> hs
          | None => hs
          end
      | None => delete event_type hs
      end
  | None => hs
  end.

(** The handlers [_handle_message] calls for an event of the type, in the
    order of the calls: an exception of a handler is logged and the loop
    goes on. *)
Definition handlers_called (event_type : option string)
    (hs : gmap string (list nat))
  : list nat :=
  match event_type with
  | Some t => default [] (hs !! t)
  | None => []
  end.

(** ** create_org_client *)

(** The keyword arguments [create_org_client] reads; [None] is a key that
    was not passed. *)
Record org_client_kwargs := mkKwargs {
  kw_client_type : option (option string);
  kw_auto_reconnect : option bool;
  kw_heartbeat_interval : option (option Z);
  kw_reconnect_attempts : option (option Z);
  kw_debug : option bool
}.

Definition create_org_client_config (token gateway_url : string)
    (kwargs : org_client_kwargs) : AxonPulsClientConfig :=
  mkConfig gateway_url token
           (default (Some "python-org-client") (kw_client_type kwargs))
           (default true (kw_auto_reconnect kwargs))
           (default (Some 30) (kw_heartbeat_interval kwargs))
           (default (Some 5) (kw_reconnect_attempts kwargs))
           (default false (kw_debug kwargs)).

(** What [create_org_client] raises: an exception of the constructor or of
    [connect()], or its own [AxonPulsValidationError],
    "Token org_id ({client.org_id}) doesn't match requested org ({org_id})". *)
Inductive factory_exn :=
| ClientError (e : exn)
| OtherError (x : py_exn)
| OrgMismatch (token_org requested : string).

(** The outcome of [create_org_client]: the session of the client returned,
    or the exception and what was done before it. *)
Inductive created :=
| Created (s : Sys)
| Failed (e : factory_exn) (done : list effect).

Definition create_org_client (jwt_decode : jwt_decoder) (now : time)
    (org token gateway_url : string) (kwargs : org_client_kwargs)
    (env : ConnectEnv) : created :=
  match __init__ jwt_decode now (create_org_client_config token gateway_url kwargs) with
  | (Return client, logged) =>
      if negb (String.eqb (org_id client) org)
      then Failed (OrgMismatch (org_id client) org) logged
      else
        match connect env (new_session client logged) with
        | (Return _, s) => Created s
        | (Raise e, s) => Failed (ClientError e) (trace s)
        | (RaisePy x, s) => Failed (OtherError x) (trace s)
        end
  | (Raise e, logged) => Failed (ClientError e) logged
  | (RaisePy x, logged) => Failed (OtherError x) logged
  end.

(** The organization the token carries, as the constructor reads it. *)
Definition token_org (jwt_decode : jwt_decoder) (token : string) : option string :=
  fst (_extract_org_id_from_token jwt_decode token).

Definition sample_handlers : gmap string (list nat) :=
  on "order" 7%nat (on "order" 8%nat (on "order" 7%nat ∅)).

(** * Properties *)

(** ** Circuit breaker *)

Section Breaker.

Implicit Types (cb : CircuitBreaker) (ts : list time).

Lemma record_failures_app ts1 ts2 cb :
  record_failures (ts1 ++ ts2) cb = record_failures ts2 (record_failures ts1 cb).
Proof. unfold record_failures. apply fold_left_app. Qed.

Lemma record_failures_config ts cb :
  failure_threshold (record_failures ts cb) = failure_threshold cb /\
  timeout_seconds (record_failures ts cb) = timeout_seconds cb /\
  failure_count (record_failures ts cb) = failure_count cb + Z.of_nat (length ts).
Proof.
  revert cb. induction ts as [|t ts IH]; intros cb; simpl.
  - repeat split; lia.
  - destruct (IH (record_failure t cb)) as (H1 & H2 & H3).
    unfold record_failures in *. simpl. rewrite H1, H2, H3. simpl.
    repeat split; lia.
Qed.

(** Below the threshold the state does not move. *)
Lemma record_failures_below ts cb :
  failure_count cb + Z.of_nat (length ts) < failure_threshold cb ->
  state (record_failures ts cb) = state cb.
Proof.
  revert cb. induction ts as [|t ts IH]; intros cb Hlt; [reflexivity|].
  change (record_failures (t :: ts) cb)
    with (record_failures ts (record_failure t cb)).
  simpl length in Hlt. rewrite IH; simpl.
  - destruct (Z.leb_spec (failure_threshold cb) (failure_count cb + 1)); [lia|reflexivity].
  - lia.
Qed.

Lemma record_failure_reaching t cb :
  failure_threshold cb <= failure_count cb + 1 ->
  state (record_failure t cb) = OPEN /\
  last_failure_time (record_failure t cb) = Some t.
Proof.
  intros H. unfold record_failure; simpl.
  destruct (Z.leb_spec (failure_threshold cb) (failure_count cb + 1)); [auto|lia].
Qed.

Lemma can_attempt_open cb t now :
  state cb = OPEN -> last_failure_time cb = Some t ->
  can_attempt now cb =
    if timedelta_seconds (timeout_seconds cb) <? now - t
    then (true, mkBreaker (failure_threshold cb) (timeout_seconds cb)
                          (failure_count cb) HALF_OPEN (Some t))
    else (false, cb).
Proof. intros Hs Ht. unfold can_attempt. rewrite Hs, Ht. reflexivity. Qed.

End Breaker.

(** C1. A breaker created with threshold [threshold >= 1] and cooldown
    [cooldown >= 0] seconds starts Closed with count 0. While fewer than
    [threshold] failures have been recorded it stays Closed and admits
    attempts. After exactly [threshold] consecutive [record_failure] calls
    (the last at time [t_last]) it is Open with count [threshold], and
    [can_attempt] at once answers false, leaving it Open. From then on
    [can_attempt] answers true exactly when the time since the last failure
    exceeds the cooldown; that call moves the breaker to HalfOpen, and one
    [record_success] after it gives Closed with count 0. *)
Theorem C1_circuit_breaker_cycle
    (threshold cooldown : Z) (ts : list time) (t_last : time) :
  1 <= threshold ->
  0 <= cooldown ->
  Z.of_nat (length (ts ++ [t_last])) = threshold ->
  let cb0 := new_breaker threshold cooldown in
  let cb := record_failures (ts ++ [t_last]) cb0 in
  (state cb0 = CLOSED /\ failure_count cb0 = 0) /\
  (forall (k : nat) (now : time),
      (k < length (ts ++ [t_last]))%nat ->
      state (record_failures (take k (ts ++ [t_last])) cb0) = CLOSED /\
      fst (can_attempt now (record_failures (take k (ts ++ [t_last])) cb0)) = true) /\
  (state cb = OPEN /\ failure_count cb = threshold /\
   last_failure_time cb = Some t_last) /\
  can_attempt t_last cb = (false, cb) /\
  (forall now : time,
      fst (can_attempt now cb) = true <->
      timedelta_seconds cooldown < now - t_last) /\
  (forall now : time,
      now - t_last <= timedelta_seconds cooldown ->
      can_attempt now cb = (false, cb)) /\
  (forall now : time,
      timedelta_seconds cooldown < now - t_last ->
      let cb' := snd (can_attempt now cb) in
      state cb' = HALF_OPEN /\
      state (record_success cb') = CLOSED /\
      failure_count (record_success cb') = 0).
Proof.
  intros Hth Hcd Hlen cb0 cb.
  assert (Hcfg := record_failures_config ts cb0).
  destruct Hcfg as (Hc1 & Hc2 & Hc3). simpl in Hc1, Hc2, Hc3.
  rewrite length_app in Hlen. simpl in Hlen.
  assert (Hopen : state cb = OPEN /\ last_failure_time cb = Some t_last).
  { subst cb. rewrite record_failures_app.
    change (record_failures [t_last] (record_failures ts cb0))
      with (record_failure t_last (record_failures ts cb0)).
    apply record_failure_reaching. rewrite Hc1, Hc3. lia. }
  destruct Hopen as [Hst Hlast].
  assert (Hcount : failure_count cb = threshold).
  { subst cb. destruct (record_failures_config (ts ++ [t_last]) cb0) as (_ & _ & H).
    rewrite H, length_app. simpl. lia. }
  assert (Htimeout : timeout_seconds cb = cooldown).
  { subst cb. destruct (record_failures_config (ts ++ [t_last]) cb0) as (_ & H & _).
    rewrite H. reflexivity. }
  assert (Hca : forall now, can_attempt now cb =
            if timedelta_seconds cooldown <? now - t_last
            then (true, mkBreaker (failure_threshold cb) (timeout_seconds cb)
                                  (failure_count cb) HALF_OPEN (Some t_last))
            else (false, cb)).
  { intros now. rewrite (can_attempt_open cb t_last now Hst Hlast), Htimeout.
    reflexivity. }
  split; [split; reflexivity|].
  split.
  { intros k now Hk.
    assert (Hclosed : state (record_failures (take k (ts ++ [t_last])) cb0) = CLOSED).
    { rewrite record_failures_below; [reflexivity|].
      simpl. rewrite length_take, length_app. simpl.
      rewrite length_app in Hk. simpl in Hk. lia. }
    split; [exact Hclosed|].
    unfold can_attempt. rewrite Hclosed. reflexivity. }
  split; [auto|].
  assert (Hunit : timedelta_seconds cooldown = cooldown * 1000000) by reflexivity.
  split.
  { rewrite Hca. destruct (Z.ltb_spec (timedelta_seconds cooldown) (t_last - t_last)); [lia|reflexivity]. }
  split.
  { intros now. rewrite Hca.
    destruct (Z.ltb_spec (timedelta_seconds cooldown) (now - t_last)); simpl; split; intros; try lia; try reflexivity; discriminate. }
  split.
  { intros now Hle. rewrite Hca.
    destruct (Z.ltb_spec (timedelta_seconds cooldown) (now - t_last)); [lia|reflexivity]. }
  intros now Hgt cb'. subst cb'. rewrite Hca.
  destruct (Z.ltb_spec (timedelta_seconds cooldown) (now - t_last)); [|lia].
  simpl. repeat split.
Qed.

(** The cycle with the defaults: five failures, cooldown 60 s. *)
Lemma C1_circuit_breaker_cycle_witness :
  let ts := [1000000; 2000000; 3000000; 4000000] in
  let cb := record_failures (ts ++ [5000000]) (new_breaker 5 60) in
  state cb = OPEN /\ can_attempt 5000000 cb = (false, cb) /\
  state (snd (can_attempt 65000001 cb)) = HALF_OPEN.
Proof.
  intros ts cb.
  destruct (C1_circuit_breaker_cycle 5 60 ts 5000000) as (_ & _ & (Ho & _) & Hi & _ & _ & Hh);
    [lia | lia | reflexivity |].
  split; [exact Ho|]. split; [exact Hi|].
  apply (Hh 65000001). reflexivity.
Defined.

(** ** Session operations *)

Ltac mred :=
  unfold bind, ret, raise, try_except, get_self, modify_self, emit, log, when;
  simpl.

Section Session.

Implicit Types (s : Sys) (channels : list string) (r : send_result).

Lemma validate_channel_spec ch s :
  _validate_channel ch s =
    if foreign (self s) ch then (Raise (tenant_error (self s) ch), s)
    else (Return true, s).
Proof.
  unfold _validate_channel, foreign. mred.
  destruct (String.prefix _ ch); reflexivity.
Qed.

Lemma validate_channels_spec channels s :
  validate_channels channels s =
    match first_foreign (self s) channels with
    | Some ch => (Raise (tenant_error (self s) ch), s)
    | None => (Return tt, s)
    end.
Proof.
  induction channels as [|ch rest IH]; [reflexivity|].
  simpl. unfold bind. rewrite validate_channel_spec.
  unfold first_foreign. simpl.
  destruct (foreign (self s) ch); [reflexivity|apply IH].
Qed.

Lemma first_foreign_some c channels :
  (exists ch, In ch channels /\ String.prefix (expected_prefix c) ch = false) ->
  exists ch, first_foreign c channels = Some ch /\
             In ch channels /\ String.prefix (expected_prefix c) ch = false.
Proof.
  intros (ch & Hin & Hpre). unfold first_foreign.
  destruct (List.find (foreign c) channels) as [ch'|] eqn:Hf.
  - exists ch'. apply find_some in Hf. destruct Hf as [Hin' Hfor].
    unfold foreign in Hfor. apply negb_true_iff in Hfor. auto.
  - exfalso. apply (find_none _ _ Hf) in Hin. unfold foreign in Hin.
    rewrite Hpre in Hin. discriminate.
Qed.

(** The outcome of [_send_message] on a connected client with a socket. *)
Lemma send_message_connected m r s ws :
  websocket (self s) = Some ws ->
  connection_state (self s) = CONNECTED ->
  _send_message m r s =
    match r with
    | Sent => (Return tt, mkSys (self s) (trace s ++ [EvSend m Sent]) (tasks s))
    | SendFailed cause now =>
        (Raise (mkExn AxonPulsConnectionError (MsgSendFailed cause)),
         mkSys (set_circuit_breaker
                  (record_failure now (circuit_breaker (self s))) (self s))
               ((trace s ++ [EvSend m r]) ++ [EvLog (LogSendFailed cause)])
               (tasks s))
    end.
Proof.
  intros Hws Hst. unfold _send_message, is_connected. mred.
  rewrite Hws, Hst. destruct r; reflexivity.
Qed.

Lemma send_message_no_socket m r s :
  websocket (self s) = None ->
  _send_message m r s = (Raise not_connected, s).
Proof. intros Hws. unfold _send_message. mred. rewrite Hws. reflexivity. Qed.

End Session.

(** C3. On a connected client, [subscribe(channels)] with
    [len(channels) + len(subscriptions)] above [MAX_CHANNELS] (200) raises
    [AxonPulsValidationError] and changes nothing: the client, the requests
    sent, the task pool. On any failure of [subscribe] the subscription set
    is what it was. When [subscribe] returns, the request was sent, its send
    succeeded, no other request was sent, and the set is the old one
    joined with [channels]; when the send fails the set is not touched. *)
Theorem C3_subscribe_limit_atomic
    (s : Sys) (channels : list string) (options : option SubscribeOptions)
    (r : send_result) :
  connection_state (self s) = CONNECTED ->
  (MAX_CHANNELS < Z.of_nat (length channels) + Z.of_nat (size (subscriptions (self s))) ->
   exists e, subscribe channels options r s = (Raise e, s) /\
             exc_class e = AxonPulsValidationError /\
             is_error_kind "ValidationError" (exc_class e) = true) /\
  (forall e s', subscribe channels options r s = (Raise e, s') ->
     subscriptions (self s') = subscriptions (self s)) /\
  (forall s', subscribe channels options r s = (Return tt, s') ->
     r = Sent /\
     sends (trace s') = sends (trace s) ++ [EvSend (Subscribe channels options) Sent] /\
     subscriptions (self s') = subscriptions (self s) ∪ list_to_set channels) /\
  (forall cause now, r = SendFailed cause now ->
     subscriptions (self (snd (subscribe channels options r s))) =
     subscriptions (self s)).
Proof.
  intros Hconn.
  assert (Hrun : subscribe channels options r s =
    if MAX_CHANNELS <? Z.of_nat (length channels) + Z.of_nat (size (subscriptions (self s)))
    then (Raise (mkExn AxonPulsValidationError (MsgMaxChannels MAX_CHANNELS)), s)
    else match first_foreign (self s) channels with
         | Some ch => (Raise (tenant_error (self s) ch), s)
         | None =>
             match _send_message (Subscribe channels options) r s with
             | (Return _, s1) =>
                 (Return tt,
                  mkSys (set_subscriptions
                           (subscriptions (self s1) ∪ list_to_set channels) (self s1))
                        (trace s1 ++ [EvLog (LogSubscribed channels)]) (tasks s1))
             | (Raise e, s1) => (Raise e, s1)
             | (RaisePy x, s1) => (RaisePy x, s1)
             end
         end).
  { unfold subscribe, is_connected. unfold bind at 1. unfold get_self at 1.
    rewrite Hconn. simpl.
    destruct (MAX_CHANNELS <? _); [reflexivity|].
    unfold bind at 1. rewrite validate_channels_spec.
    destruct (first_foreign (self s) channels); [reflexivity|].
    unfold bind at 1.
    destruct (_send_message (Subscribe channels options) r s) as [[[]|e|x] s1];
      reflexivity. }
  assert (Hsend : _send_message (Subscribe channels options) r s =
    match websocket (self s) with
    | None => (Raise not_connected, s)
    | Some _ =>
      match r with
      | Sent => (Return tt, mkSys (self s)
                   (trace s ++ [EvSend (Subscribe channels options) Sent]) (tasks s))
      | SendFailed cause now =>
          (Raise (mkExn AxonPulsConnectionError (MsgSendFailed cause)),
           mkSys (set_circuit_breaker
                    (record_failure now (circuit_breaker (self s))) (self s))
                 ((trace s ++ [EvSend (Subscribe channels options) r])
                    ++ [EvLog (LogSendFailed cause)])
                 (tasks s))
      end
    end).
  { destruct (websocket (self s)) as [ws|] eqn:Hws.
    - apply (send_message_connected _ _ _ ws Hws Hconn).
    - apply send_message_no_socket, Hws. }
  rewrite Hsend in Hrun. clear Hsend.
  split.
  { intros Hover. rewrite Hrun.
    destruct (Z.ltb_spec MAX_CHANNELS
                (Z.of_nat (length channels) + Z.of_nat (size (subscriptions (self s)))));
      [|lia].
    eexists. split; [reflexivity|]. split; reflexivity. }
  split.
  { intros e s'. rewrite Hrun.
    destruct (MAX_CHANNELS <? _); [intros [= _ <-]; reflexivity|].
    destruct (first_foreign (self s) channels); [intros [= _ <-]; reflexivity|].
    destruct (websocket (self s)); [|intros [= _ <-]; reflexivity].
    destruct r; [discriminate|]. intros [= _ <-]. reflexivity. }
  split.
  { intros s'. rewrite Hrun.
    destruct (MAX_CHANNELS <? _); [discriminate|].
    destruct (first_foreign (self s) channels); [discriminate|].
    destruct (websocket (self s)); [|discriminate].
    destruct r; [|discriminate]. intros [= <-]. simpl.
    split; [reflexivity|]. split; [|reflexivity].
    unfold sends. rewrite !List.filter_app. simpl. rewrite app_nil_r. reflexivity. }
  intros cause now ->. rewrite Hrun.
  destruct (MAX_CHANNELS <? _); [reflexivity|].
  destruct (first_foreign (self s) channels); [reflexivity|].
  destruct (websocket (self s)); reflexivity.
Qed.

(** 201 fresh channels against the empty set of a connected session. *)
Lemma C3_subscribe_limit_atomic_witness :
  connection_state (self sample_connected) = CONNECTED /\
  MAX_CHANNELS < Z.of_nat (length (sample_channels 201))
                 + Z.of_nat (size (subscriptions (self sample_connected))) /\
  exists e, subscribe (sample_channels 201) None Sent sample_connected
              = (Raise e, sample_connected) /\
            exc_class e = AxonPulsValidationError.
Proof.
  assert (Hc : connection_state (self sample_connected) = CONNECTED)
    by (vm_compute; reflexivity).
  assert (Hn : MAX_CHANNELS < Z.of_nat (length (sample_channels 201))
                 + Z.of_nat (size (subscriptions (self sample_connected))))
    by (vm_compute; reflexivity).
  split; [exact Hc|]. split; [exact Hn|].
  destruct (C3_subscribe_limit_atomic sample_connected (sample_channels 201)
              None Sent Hc) as (Hover & _).
  destruct (Hover Hn) as (e & He & Hcls & _).
  exists e. split; [exact He | exact Hcls].
Defined.

Section Publish.

Implicit Types (s : Sys) (payload : dumps_result).

(** [publish] up to the send, on a connected client. *)
Lemma publish_connected s channel event_type payload cid options r :
  connection_state (self s) = CONNECTED ->
  publish channel event_type payload cid options r s =
    if foreign (self s) channel then (Raise (tenant_error (self s) channel), s)
    else
      match _validate_payload_size payload s with
      | (Raise e, s1) => (Raise e, s1)
      | (RaisePy x, s1) => (RaisePy x, s1)
      | (Return _, s1) =>
          (_send_message
             (Publish channel event_type (payload_text payload) cid options) r ;;
           log (LogPublished event_type channel)) s1
      end.
Proof.
  intros Hconn. unfold publish, is_connected.
  unfold bind at 1. unfold get_self at 1. rewrite Hconn. simpl.
  unfold bind at 1. rewrite validate_channel_spec.
  destruct (foreign (self s) channel); [reflexivity|].
  unfold bind at 1.
  destruct (_validate_payload_size payload s) as [[b|e|x] s1]; reflexivity.
Qed.

Lemma validate_payload_size_spec payload s :
  _validate_payload_size payload s =
    match payload with
    | Dumped text =>
        if MAX_PAYLOAD_BYTES <? Z.of_nat (String.length text)
        then (Raise (mkExn AxonPulsValidationError
                           (MsgPayloadSize (Z.of_nat (String.length text))
                                           MAX_PAYLOAD_BYTES)), s)
        else (Return true, s)
    | DumpError cause =>
        (Raise (mkExn AxonPulsValidationError (MsgInvalidPayload cause)), s)
    | DumpRaised x => (RaisePy x, s)
    end.
Proof.
  destruct payload as [text|cause|x]; simpl; [|reflexivity|reflexivity].
  destruct (MAX_PAYLOAD_BYTES <? _); reflexivity.
Qed.

End Publish.

(** No class of the package is a payload-too-large error. *)
Lemma no_payload_too_large_class (c : error_class) :
  is_error_kind "PayloadTooLargeError" c = false.
Proof. destruct c; reflexivity. Qed.

(** C6, as stated, fails: a payload of 1048577 bytes published on a valid
    channel of a connected session is refused with
    [AxonPulsValidationError], the class also used for the channel limit,
    not with a payload-too-large error. *)
Lemma C6_publish_oversize_counterexample :
  exists e,
    publish "org:acme:a" "evt" (Dumped (doubled 20 "a" +:+ "a")) None None Sent
            sample_connected = (Raise e, sample_connected) /\
    exc_class e = AxonPulsValidationError /\
    is_error_kind "PayloadTooLargeError" (exc_class e) = false.
Proof.
  eexists. split; [|split].
  - rewrite publish_connected by (vm_compute; reflexivity).
    replace (foreign (self sample_connected) "org:acme:a") with false
      by (vm_compute; reflexivity).
    rewrite validate_payload_size_spec.
    replace (MAX_PAYLOAD_BYTES <? Z.of_nat (String.length (doubled 20 "a" +:+ "a")))
      with true by (vm_compute; reflexivity).
    reflexivity.
  - reflexivity.
  - reflexivity.
Qed.

(** C6 (amended). On a connected client, [publish] on a channel of the
    tenant with a payload whose JSON text has more than
    [MAX_PAYLOAD_BYTES] = 1048576 bytes raises [AxonPulsValidationError]
    (message: payload size exceeds maximum); nothing is sent and the
    session is unchanged. *)
Theorem C6_publish_oversize_rejected
    (s : Sys) (channel event_type text : string) (cid : option string)
    (options : option PublishOptions) (r : send_result) :
  connection_state (self s) = CONNECTED ->
  String.prefix (expected_prefix (self s)) channel = true ->
  MAX_PAYLOAD_BYTES < Z.of_nat (String.length text) ->
  MAX_PAYLOAD_BYTES = 1048576 /\
  publish channel event_type (Dumped text) cid options r s =
    (Raise (mkExn AxonPulsValidationError
                  (MsgPayloadSize (Z.of_nat (String.length text)) MAX_PAYLOAD_BYTES)),
     s) /\
  is_error_kind "ValidationError" AxonPulsValidationError = true /\
  sends (trace (snd (publish channel event_type (Dumped text) cid options r s)))
    = sends (trace s).
Proof.
  intros Hconn Hpre Hbig.
  assert (Hrun : publish channel event_type (Dumped text) cid options r s =
    (Raise (mkExn AxonPulsValidationError
                  (MsgPayloadSize (Z.of_nat (String.length text)) MAX_PAYLOAD_BYTES)),
     s)).
  { rewrite publish_connected by exact Hconn.
    unfold foreign. rewrite Hpre. simpl negb. cbv iota.
    rewrite validate_payload_size_spec.
    destruct (Z.ltb_spec MAX_PAYLOAD_BYTES (Z.of_nat (String.length text)));
      [reflexivity|lia]. }
  split; [reflexivity|]. split; [exact Hrun|]. split; [reflexivity|].
  rewrite Hrun. reflexivity.
Qed.

Lemma C6_publish_oversize_rejected_witness :
  let text := doubled 20 "a" +:+ "a" in
  exists e,
    publish "org:acme:a" "evt" (Dumped text) None None Sent sample_connected
      = (Raise e, sample_connected) /\
    exc_class e = AxonPulsValidationError.
Proof.
  intros text. eexists. split.
  - apply (C6_publish_oversize_rejected sample_connected "org:acme:a" "evt" text
             None None Sent);
      vm_compute; reflexivity.
  - reflexivity.
Defined.

(** C7, as stated, fails for [subscribe]: the channel limit is checked
    before the tenant prefix, so 201 channels with a foreign one among them
    are refused with [AxonPulsValidationError], not with
    [AxonPulsTenantIsolationError]. *)
Lemma C7_tenant_isolation_counterexample :
  let channels := "org:other:x" :: sample_channels 200 in
  In "org:other:x" channels /\
  String.prefix (expected_prefix (self sample_connected)) "org:other:x" = false /\
  exists e,
    subscribe channels None Sent sample_connected = (Raise e, sample_connected) /\
    exc_class e = AxonPulsValidationError /\
    is_error_kind "TenantIsolationError" (exc_class e) = false.
Proof.
  intros channels. split; [left; reflexivity|]. split; [vm_compute; reflexivity|].
  eexists. split; [vm_compute; reflexivity|]. split; reflexivity.
Qed.

(** C7 (amended). On a connected client, when some supplied channel does
    not start with ["org:<org_id>:"]: [unsubscribe] and [publish] raise
    [AxonPulsTenantIsolationError], and so does [subscribe] provided
    [len(channels) + len(subscriptions)] is within [MAX_CHANNELS]; the
    error names the first such channel. Beyond [MAX_CHANNELS], [subscribe]
    raises [AxonPulsValidationError] instead. In every case no request is
    sent and the session, with its subscription set, is unchanged. *)
Theorem C7_tenant_isolation (s : Sys) :
  connection_state (self s) = CONNECTED ->
  (forall channels options r,
     MAX_CHANNELS < Z.of_nat (length channels) + Z.of_nat (size (subscriptions (self s))) ->
     subscribe channels options r s
       = (Raise (mkExn AxonPulsValidationError (MsgMaxChannels MAX_CHANNELS)), s)) /\
  (forall channels options r,
     (exists ch, In ch channels /\
                 String.prefix ("org:" +:+ org_id (self s) +:+ ":") ch = false) ->
     Z.of_nat (length channels) + Z.of_nat (size (subscriptions (self s)))
       <= MAX_CHANNELS ->
     exists ch, In ch channels /\
       String.prefix ("org:" +:+ org_id (self s) +:+ ":") ch = false /\
       subscribe channels options r s = (Raise (tenant_error (self s) ch), s)) /\
  (forall channels r,
     (exists ch, In ch channels /\
                 String.prefix ("org:" +:+ org_id (self s) +:+ ":") ch = false) ->
     exists ch, In ch channels /\
       String.prefix ("org:" +:+ org_id (self s) +:+ ":") ch = false /\
       unsubscribe channels r s = (Raise (tenant_error (self s) ch), s)) /\
  (forall channel event_type payload cid options r,
     String.prefix ("org:" +:+ org_id (self s) +:+ ":") channel = false ->
     publish channel event_type payload cid options r s
       = (Raise (tenant_error (self s) channel), s)) /\
  (forall ch, exc_class (tenant_error (self s) ch) = AxonPulsTenantIsolationError /\
     is_error_kind "TenantIsolationError" (exc_class (tenant_error (self s) ch)) = true).
Proof.
  intros Hconn. repeat split.
  - intros channels options r Hover.
    unfold subscribe, is_connected.
    unfold bind at 1. unfold get_self at 1. rewrite Hconn. simpl.
    destruct (Z.ltb_spec MAX_CHANNELS
      (Z.of_nat (length channels) + Z.of_nat (size (subscriptions (self s)))));
      [reflexivity|lia].
  - intros channels options r Hex Hlim.
    destruct (first_foreign_some (self s) channels Hex) as (ch & Hf & Hin & Hpre).
    exists ch. split; [exact Hin|]. split; [exact Hpre|].
    unfold subscribe, is_connected.
    unfold bind at 1. unfold get_self at 1. rewrite Hconn. simpl.
    destruct (Z.ltb_spec MAX_CHANNELS
      (Z.of_nat (length channels) + Z.of_nat (size (subscriptions (self s))))); [lia|].
    unfold bind at 1. rewrite validate_channels_spec, Hf. reflexivity.
  - intros channels r Hex.
    destruct (first_foreign_some (self s) channels Hex) as (ch & Hf & Hin & Hpre).
    exists ch. split; [exact Hin|]. split; [exact Hpre|].
    unfold unsubscribe, is_connected.
    unfold bind at 1. unfold get_self at 1. rewrite Hconn. simpl.
    unfold bind at 1. rewrite validate_channels_spec, Hf. reflexivity.
  - intros channel event_type payload cid options r Hpre.
    rewrite publish_connected by exact Hconn.
    unfold foreign, expected_prefix. rewrite Hpre. reflexivity.
Qed.

Lemma C7_tenant_isolation_witness :
  let channels := ["org:acme:a"; "org:other:x"] in
  connection_state (self sample_connected) = CONNECTED /\
  unsubscribe channels Sent sample_connected
    = (Raise (tenant_error (self sample_connected) "org:other:x"), sample_connected) /\
  publish "org:other:x" "evt" (Dumped "{}") None None Sent sample_connected
    = (Raise (tenant_error (self sample_connected) "org:other:x"), sample_connected).
Proof.
  intros channels.
  assert (Hc : connection_state (self sample_connected) = CONNECTED)
    by (vm_compute; reflexivity).
  destruct (C7_tenant_isolation sample_connected Hc) as (_ & _ & Hu & Hp & _).
  split; [exact Hc|]. split.
  - destruct (Hu channels Sent) as (ch & Hin & Hpre & Hrun).
    + exists "org:other:x". split; [right; left; reflexivity | vm_compute; reflexivity].
    + destruct Hin as [<- | [<- | []]].
      * vm_compute in Hpre. discriminate.
      * exact Hrun.
  - apply Hp. vm_compute. reflexivity.
Defined.

(** ** connect and the breaker *)

Lemma set_circuit_breaker_same (c : Client) :
  set_circuit_breaker (circuit_breaker c) c = c.
Proof. destruct c; reflexivity. Qed.

Lemma can_attempt_denied now cb :
  fst (can_attempt now cb) = false -> snd (can_attempt now cb) = cb.
Proof.
  unfold can_attempt. destruct (state cb); simpl; try discriminate.
  destruct (last_failure_time cb); [|reflexivity].
  destruct (_ <? _); [discriminate|reflexivity].
Qed.

(** What [connect()] does when the breaker denies the attempt: it raises
    [AxonPulsConnectionError] with the configured [timeout_seconds] as the
    wait, whatever time is left of the cooldown; nothing else changes. *)
Lemma connect_denied env s :
  connection_state (self s) <> CONNECTED ->
  connection_state (self s) <> CONNECTING ->
  fst (can_attempt (now_attempt env) (circuit_breaker (self s))) = false ->
  connect env s =
    (Raise (mkExn AxonPulsConnectionError
                  (MsgCircuitOpen (timeout_seconds (circuit_breaker (self s))))),
     s).
Proof.
  intros H1 H2 Hden.
  assert (Hcb := can_attempt_denied _ _ Hden).
  unfold connect. mred.
  destruct (can_attempt (now_attempt env) (circuit_breaker (self s))) as [a cb].
  simpl in Hden, Hcb. subst a cb.
  destruct (connection_state (self s)) eqn:Hst; try congruence; simpl;
    rewrite set_circuit_breaker_same; destruct s; reflexivity.
Qed.

(** C5, as stated, fails. The breaker of [sample_open] opened at second 5
    with a cooldown of 60 s. A [connect()] at second 15 is denied with 50 s
    of cooldown left: the error is an [AxonPulsConnectionError], not a
    circuit-open error, and the wait it carries is the whole cooldown, 60,
    not the 50 s that remain. *)
Lemma C5_connect_circuit_open_counterexample :
  let env := mkConnectEnv (timedelta_seconds 15) (Opened 1) (timedelta_seconds 15) in
  connection_state (self sample_open) = DISCONNECTED /\
  state (circuit_breaker (self sample_open)) = OPEN /\
  last_failure_time (circuit_breaker (self sample_open)) = Some (timedelta_seconds 5) /\
  timeout_seconds (circuit_breaker (self sample_open)) = 60 /\
  fst (can_attempt (now_attempt env) (circuit_breaker (self sample_open))) = false /\
  exists e,
    connect env sample_open = (Raise e, sample_open) /\
    exc_class e = AxonPulsConnectionError /\
    is_error_kind "CircuitOpenError" (exc_class e) = false /\
    exc_class e <> AxonPulsCircuitBreakerError /\
    exc_message e = MsgCircuitOpen 60 /\
    exc_message e <> MsgCircuitOpen (60 - (15 - 5)).
Proof.
  intros env.
  assert (Hden : fst (can_attempt (now_attempt env) (circuit_breaker (self sample_open))) = false)
    by (vm_compute; reflexivity).
  split; [vm_compute; reflexivity|].
  split; [vm_compute; reflexivity|].
  split; [vm_compute; reflexivity|].
  split; [vm_compute; reflexivity|].
  split; [exact Hden|].
  eexists. split.
  - rewrite connect_denied; [reflexivity | vm_compute; discriminate
                            | vm_compute; discriminate | exact Hden].
  - repeat split; try discriminate.
Qed.

(** C5 (amended). In every state in which the client is neither Connected
    nor Connecting and the breaker denies the attempt, [connect()] raises at
    once: the transport is not tried and the session is unchanged. The
    error carries the configured cooldown, [timeout_seconds], whatever
    time of it is left. *)
Theorem C5_connect_denied_error (env : ConnectEnv) (s : Sys) :
  connection_state (self s) <> CONNECTED ->
  connection_state (self s) <> CONNECTING ->
  fst (can_attempt (now_attempt env) (circuit_breaker (self s))) = false ->
  exists e,
    connect env s = (Raise e, s) /\
    exc_message e = MsgCircuitOpen (timeout_seconds (circuit_breaker (self s))).
Proof.
  intros H1 H2 Hden. eexists. split.
  - apply connect_denied; assumption.
  - reflexivity.
Qed.

Lemma C5_connect_denied_error_witness :
  exists e,
    connect (mkConnectEnv (timedelta_seconds 15) (Opened 1) (timedelta_seconds 15))
            sample_open = (Raise e, sample_open) /\
    exc_message e = MsgCircuitOpen 60.
Proof.
  destruct (C5_connect_denied_error
              (mkConnectEnv (timedelta_seconds 15) (Opened 1) (timedelta_seconds 15))
              sample_open) as (e & Hrun & Hmsg).
  - vm_compute. discriminate.
  - vm_compute. discriminate.
  - vm_compute. reflexivity.
  - exists e. split; [exact Hrun|]. rewrite Hmsg. vm_compute. reflexivity.
Defined.

(** ** What no operation changes *)

Section Stable.

Lemma same_identity_refl s : same_identity s s.
Proof. split; reflexivity. Qed.

Lemma same_identity_trans s1 s2 s3 :
  same_identity s1 s2 -> same_identity s2 s3 -> same_identity s1 s3.
Proof. intros [H1 H2] [H3 H4]. split; congruence. Qed.

Lemma stable_ret {A} (a : A) : stable (ret a).
Proof. intros s. apply same_identity_refl. Qed.

Lemma stable_raise {A} e : stable (@raise A e).
Proof. intros s. apply same_identity_refl. Qed.

Lemma stable_raise_py {A} x : stable (@raise_py A x).
Proof. intros s. apply same_identity_refl. Qed.

Lemma stable_bind {A B} (m : M A) (k : A -> M B) :
  stable m -> (forall a, stable (k a)) -> stable (bind m k).
Proof.
  intros Hm Hk s. unfold bind. specialize (Hm s).
  destruct (m s) as [[a|e|x] s1]; simpl in *; [|exact Hm|exact Hm].
  eapply same_identity_trans; [exact Hm|apply Hk].
Qed.

Lemma stable_try_except {A} (m : M A) (h : raised -> M A) :
  stable m -> (forall e, stable (h e)) -> stable (try_except m h).
Proof.
  intros Hm Hh s. unfold try_except. specialize (Hm s).
  destruct (m s) as [[a|e|x] s1]; simpl in *; [exact Hm| |];
    (eapply same_identity_trans; [exact Hm|apply Hh]).
Qed.

Lemma stable_get_self : stable get_self.
Proof. intros s. apply same_identity_refl. Qed.

Lemma stable_emit e : stable (emit e).
Proof. intros s. split; reflexivity. Qed.

Lemma stable_log r : stable (log r).
Proof. apply stable_emit. Qed.

Lemma stable_modify_self f :
  (forall c, org_id (f c) = org_id c /\ config (f c) = config c) ->
  stable (modify_self f).
Proof. intros Hf s. exact (Hf (self s)). Qed.

Lemma stable_when b m : stable m -> stable (when b m).
Proof. intros Hm. destruct b; [exact Hm|apply stable_ret]. Qed.

Lemma stable_create_task k : stable (create_task k).
Proof. intros s. split; reflexivity. Qed.

Lemma stable_cancel_and_await id : stable (cancel_and_await id).
Proof.
  intros s. unfold cancel_and_await.
  destruct (status <$> tasks s !! id) as [[]|]; split; reflexivity.
Qed.

End Stable.

(** Proves [stable m] for code built from the primitives above. *)
Ltac stable_step :=
  first
    [ assumption
    | apply stable_ret | apply stable_raise | apply stable_raise_py
    | apply stable_get_self
    | apply stable_emit | apply stable_log | apply stable_create_task
    | apply stable_cancel_and_await
    | apply stable_modify_self; intros ?; split; reflexivity
    | apply stable_when
    | apply stable_try_except; [|intros ?]
    | apply stable_bind; [|intros ?] ].

Ltac stable_case :=
  match goal with
  | |- stable (match ?x with _ => _ end) => destruct x
  | |- stable (if ?x then _ else _) => destruct x
  | |- stable (let (_, _) := ?x in _) => destruct x
  end.

Ltac stable_auto := repeat (stable_step || stable_case).

Section StableOps.

Lemma stable_validate_channel ch : stable (_validate_channel ch).
Proof. unfold _validate_channel. stable_auto. Qed.

Lemma stable_validate_channels chs : stable (validate_channels chs).
Proof.
  induction chs as [|ch rest IH]; simpl; [apply stable_ret|].
  apply stable_bind; [apply stable_validate_channel|intros _; exact IH].
Qed.

Lemma stable_validate_payload_size p : stable (_validate_payload_size p).
Proof. unfold _validate_payload_size. stable_auto. Qed.

Lemma stable_send_message m r : stable (_send_message m r).
Proof. unfold _send_message. stable_auto. Qed.

Lemma stable_connect env : stable (connect env).
Proof. unfold connect. stable_auto. Qed.

Lemma stable_disconnect : stable disconnect.
Proof. unfold disconnect. stable_auto. Qed.

Lemma stable_subscribe chs o r : stable (subscribe chs o r).
Proof.
  pose proof (stable_validate_channels chs).
  pose proof (stable_send_message (Subscribe chs o) r).
  unfold subscribe. stable_auto.
Qed.

Lemma stable_unsubscribe chs r : stable (unsubscribe chs r).
Proof.
  pose proof (stable_validate_channels chs).
  pose proof (stable_send_message (Unsubscribe chs) r).
  unfold unsubscribe. stable_auto.
Qed.

Lemma stable_publish ch ty p cid o r : stable (publish ch ty p cid o r).
Proof.
  pose proof (stable_validate_channel ch).
  pose proof (stable_validate_payload_size p).
  pose proof (stable_send_message (Publish ch ty (payload_text p) cid o) r).
  unfold publish. stable_auto.
Qed.

Lemma stable_replay ch sid n r : stable (replay ch sid n r).
Proof.
  pose proof (stable_validate_channel ch).
  pose proof (stable_send_message (Replay ch sid n) r).
  unfold replay. stable_auto.
Qed.

Lemma stable_handle_message now data : stable (_handle_message now data).
Proof. unfold _handle_message. stable_auto. Qed.

Lemma stable_spawn_reconnect : stable spawn_reconnect.
Proof. unfold spawn_reconnect. stable_auto. Qed.

Lemma stable_message_handler inbox ending : stable (_message_handler inbox ending).
Proof.
  pose proof stable_spawn_reconnect.
  induction inbox as [|[[data|] now] rest IH]; simpl.
  - stable_auto.
  - apply stable_bind; [apply stable_handle_message|intros _; exact IH].
  - apply stable_bind; [apply stable_log|intros _; exact IH].
Qed.

Lemma stable_heartbeat_body t : stable (heartbeat_body t).
Proof.
  pose proof stable_spawn_reconnect. pose proof stable_disconnect.
  pose proof (stable_send_message Ping (tick_send t)).
  unfold heartbeat_body. stable_auto.
Qed.

Lemma stable_heartbeat_loop ticks : stable (_heartbeat_loop ticks).
Proof.
  induction ticks as [|t rest IH]; simpl.
  - stable_auto.
  - pose proof (stable_heartbeat_body t). stable_auto.
Qed.

Lemma stable_reconnect_body n env : stable (reconnect_body n env).
Proof.
  pose proof (stable_connect (connect_env env)).
  unfold reconnect_body.
  repeat (apply stable_subscribe || stable_step || stable_case).
Qed.

Lemma stable_reconnect_loop n envs : stable (reconnect_loop n envs).
Proof.
  induction envs as [|env rest IH]; simpl.
  - stable_auto.
  - pose proof (stable_reconnect_body n env). stable_auto.
Qed.

Lemma stable_reconnect envs : stable (_reconnect envs).
Proof.
  unfold _reconnect. apply stable_bind; [apply stable_get_self|].
  intros c. apply stable_reconnect_loop.
Qed.

Lemma finish_task_identity id s : same_identity s (finish_task id s).
Proof. split; reflexivity. Qed.

Lemma step_identity ev s : same_identity s (step ev s).
Proof.
  destruct ev; simpl; unfold run_call.
  - apply stable_connect.
  - apply stable_disconnect.
  - apply stable_subscribe.
  - apply stable_unsubscribe.
  - apply stable_publish.
  - apply stable_replay.
  - destruct (task_is _ _ _); [|apply same_identity_refl].
    exact (stable_message_handler inbox ending (start_task id s)).
  - destruct (task_is _ _ _); [|apply same_identity_refl].
    pose proof (stable_heartbeat_loop ticks (start_task id s)) as H.
    destruct (_heartbeat_loop ticks (start_task id s)) as [[[|]|e|x] s']; exact H.
  - destruct (task_is _ _ _); [|apply same_identity_refl].
    pose proof (stable_reconnect envs (start_task id s)) as H.
    destruct (_reconnect envs (start_task id s)) as [[[u|]|e|x] s']; exact H.
Qed.

Lemma run_identity evs s : same_identity s (run evs s).
Proof.
  revert s. induction evs as [|ev rest IH]; intros s; simpl.
  - apply same_identity_refl.
  - eapply same_identity_trans; [apply step_identity|apply IH].
Qed.

End StableOps.

(** ** Construction *)

(** C10. For every token from which no [organizationId] can be extracted
    (the decoder raises, or the payload has no such claim), constructing the
    client raises [AxonPulsValidationError] and yields no client. Every
    client that is constructed has a non-empty [org_id], the claim of its
    token, and no API call and no turn of a task of the session changes
    it. *)
Theorem C10_construction_guard
    (jwt_decode : jwt_decoder) (now : time) (cfg : AxonPulsClientConfig) :
  ((jwt_decode (token cfg) = None \/
    exists payload, jwt_decode (token cfg) = Some payload /\
                    payload !! "organizationId" = None) ->
   exists logged,
     __init__ jwt_decode now cfg =
       (Raise (mkExn AxonPulsValidationError MsgTokenWithoutOrg), logged)) /\
  (forall c logged,
     __init__ jwt_decode now cfg = (Return c, logged) ->
     org_id c <> "" /\
     (exists payload, jwt_decode (token cfg) = Some payload /\
                      payload !! "organizationId" = Some (org_id c)) /\
     forall evs : list event,
       org_id (self (run evs (new_session c logged))) = org_id c).
Proof.
  unfold __init__, _extract_org_id_from_token. split.
  - intros [Hnone | (payload & Hsome & Hclaim)].
    + rewrite Hnone. eexists. reflexivity.
    + rewrite Hsome, Hclaim. eexists. reflexivity.
  - intros c logged.
    destruct (jwt_decode (token cfg)) as [payload|] eqn:Hdec; [|discriminate].
    destruct (payload !! "organizationId") as [o|] eqn:Hclaim; [|discriminate].
    simpl. destruct (String.eqb o "") eqn:Hempty; simpl; [discriminate|].
    intros [= <- <-]. simpl. split; [|split].
    + apply String.eqb_neq. exact Hempty.
    + exists payload. split; [reflexivity | exact Hclaim].
    + intros evs. apply (run_identity evs).
Qed.

Lemma C10_construction_guard_witness :
  (exists logged,
     __init__ anonymous_jwt 0 sample_config =
       (Raise (mkExn AxonPulsValidationError MsgTokenWithoutOrg), logged)) /\
  __init__ sample_jwt 0 sample_config
    = (Return sample_client, [EvLog (LogInitialized "acme")]) /\
  org_id sample_client <> "".
Proof.
  destruct (C10_construction_guard anonymous_jwt 0 sample_config) as [Hbad _].
  destruct (C10_construction_guard sample_jwt 0 sample_config) as [_ Hgood].
  assert (Hrun : __init__ sample_jwt 0 sample_config
                 = (Return sample_client, [EvLog (LogInitialized "acme")]))
    by (vm_compute; reflexivity).
  split; [|split].
  - apply Hbad. right. exists {[ "sub" := "user-1" ]}.
    split; vm_compute; reflexivity.
  - exact Hrun.
  - apply (Hgood _ _ Hrun).
Defined.

(** ** Liveness *)

Ltac trace_simpl :=
  unfold sends, reconnects_spawned, reconnect_attempts_made;
  cbn [self trace tasks];
  rewrite ?List.filter_app, ?length_app; simpl; rewrite ?app_nil_r.

Section Liveness.

Implicit Types (s : Sys) (t : Tick).

(** [time_since_pong.total_seconds() > interval * 2.5], in microseconds. *)
Lemma pong_overdue_spec (now last_pong : time) (interval : Z) :
  pong_overdue now last_pong interval = true <->
  2500000 * interval < now - last_pong.
Proof.
  unfold pong_overdue, Qlt_bool, Qle_bool. simpl.
  rewrite negb_true_iff, Z.leb_gt. lia.
Qed.

Lemma sends_snoc tr e :
  sends (tr ++ [e]) = sends tr ++ (if is_send e then [e] else []).
Proof. unfold sends. rewrite List.filter_app. simpl. destruct (is_send e); reflexivity. Qed.

Lemma reconnects_spawned_snoc tr e :
  reconnects_spawned (tr ++ [e]) =
  (reconnects_spawned tr + if is_spawn_reconnect e then 1 else 0)%nat.
Proof.
  unfold reconnects_spawned. rewrite List.filter_app, length_app. simpl.
  destruct (is_spawn_reconnect e); reflexivity.
Qed.

Lemma length_alter_tasks f id (l : list task) :
  length (alter f id l) = length l.
Proof. apply length_alter. Qed.

Lemma cancel_and_await_returns id s :
  status <$> tasks s !! id <> Some SelfAwaited ->
  cancel_and_await id s =
    (Return tt,
     mkSys (self s) (trace s ++ [EvCancelTask id])
           (alter cancel_status id (tasks s))).
Proof.
  intros H. unfold cancel_and_await.
  destruct (status <$> tasks s !! id) as [[]|]; try reflexivity.
  exfalso. apply H. reflexivity.
Qed.

Lemma cancel_and_await_raises id s :
  status <$> tasks s !! id = Some SelfAwaited ->
  cancel_and_await id s =
    (RaisePy await_error,
     mkSys (self s) (trace s ++ [EvCancelTask id]) (tasks s)).
Proof. intros H. unfold cancel_and_await. rewrite H. reflexivity. Qed.

(** [if self._task: self._task.cancel(); await ...] when the await
    returns. *)
Lemma cancel_held_returns (h : option nat) s :
  awaitable h (tasks s) ->
  match h with
  | Some id => cancel_and_await id
  | None => ret tt
  end s =
    (Return tt,
     mkSys (self s)
           (match h with
            | Some id => trace s ++ [EvCancelTask id]
            | None => trace s
            end)
           (cancel_handle h (tasks s))).
Proof.
  intros Hok. destruct h as [id|]; simpl.
  - apply cancel_and_await_returns. apply Hok. reflexivity.
  - destruct s; reflexivity.
Qed.

(** What [disconnect()] leaves behind when its awaits return. *)
Lemma disconnect_spec s :
  awaitable (_heartbeat_task (self s)) (tasks s) ->
  awaitable (_reconnect_task (self s))
            (cancel_handle (_heartbeat_task (self s)) (tasks s)) ->
  exists s',
    disconnect s = (Return tt, s') /\
    connection_state (self s') = DISCONNECTED /\
    websocket (self s') = None /\
    http_session (self s') = false /\
    config (self s') = config (self s) /\
    subscriptions (self s') = subscriptions (self s) /\
    length (tasks s') = length (tasks s) /\
    sends (trace s') = sends (trace s) /\
    reconnects_spawned (trace s') = reconnects_spawned (trace s) /\
    tasks s' =
      cancel_handle (_reconnect_task (self s))
        (cancel_handle (_heartbeat_task (self s)) (tasks s)).
Proof.
  intros Hhb Hrc. unfold disconnect.
  unfold bind at 1. unfold modify_self at 1.
  unfold bind at 1. unfold get_self at 1. cbn [self trace tasks].
  unfold bind at 1.
  change (_heartbeat_task (set_connection_state DISCONNECTED (self s)))
    with (_heartbeat_task (self s)).
  rewrite cancel_held_returns by exact Hhb.
  unfold bind at 1.
  change (_reconnect_task (set_connection_state DISCONNECTED (self s)))
    with (_reconnect_task (self s)).
  rewrite cancel_held_returns by exact Hrc.
  cbn [self trace tasks]. mred.
  destruct (_heartbeat_task (self s)), (_reconnect_task (self s)),
    (websocket (self s)) eqn:Hws, (http_session (self s)) eqn:Hhttp; simpl;
    eexists; (split; [reflexivity|]); simpl;
    rewrite ?length_alter_tasks; repeat split; trace_simpl;
    first [reflexivity | assumption | lia].
Qed.

End Liveness.

(** A turn of the heartbeat loop that finds the pong overdue, when the
    awaits of its [disconnect()] return: the session is disconnected, one
    reconnection task is created iff [auto_reconnect], no ping is sent,
    and the loop returns whatever ticks would follow. *)
Lemma heartbeat_overdue_turn (s : Sys) (t : Tick) (rest : list Tick) :
  connection_state (self s) = CONNECTED ->
  2500000 * or_default (heartbeat_interval (config (self s))) HEARTBEAT_INTERVAL
    < tick_now t - last_pong_time (self s) ->
  awaitable (_heartbeat_task (self s)) (tasks s) ->
  awaitable (_reconnect_task (self s))
            (cancel_handle (_heartbeat_task (self s)) (tasks s)) ->
  exists s',
    heartbeat_body t s = (Return ReturnNow, s') /\
    _heartbeat_loop (t :: rest) s = (Return true, s') /\
    connection_state (self s') = DISCONNECTED /\
    websocket (self s') = None /\
    http_session (self s') = false /\
    sends (trace s') = sends (trace s) /\
    reconnects_spawned (trace s') =
      (reconnects_spawned (trace s)
       + if auto_reconnect (config (self s)) then 1 else 0)%nat /\
    tasks s' =
      cancel_handle (_reconnect_task (self s))
        (cancel_handle (_heartbeat_task (self s)) (tasks s))
      ++ (if auto_reconnect (config (self s))
          then [mkTask ReconnectTask Active] else []) /\
    (auto_reconnect (config (self s)) = true ->
       _reconnect_task (self s') = Some (length (tasks s))).
Proof.
  intros Hconn Hover Hhb Hrc.
  apply pong_overdue_spec in Hover.
  assert (Hic : is_connected (self s) = true)
    by (unfold is_connected; rewrite Hconn; reflexivity).
  set (interval := or_default (heartbeat_interval (config (self s))) HEARTBEAT_INTERVAL) in *.
  set (s1 := mkSys (self s)
                   ((trace s ++ [EvSleep (inject_Z interval)]) ++ [EvLog LogHeartbeatMissed])
                   (tasks s)).
  destruct (disconnect_spec s1 Hhb Hrc)
    as (s2 & Hd & Hst & Hws & Hhttp & Hcfg & _ & Hlen & Hsends & Hsp & Htasks).
  assert (Hsends1 : sends (trace s1) = sends (trace s))
    by (subst s1; trace_simpl; reflexivity).
  assert (Hsp1 : reconnects_spawned (trace s1) = reconnects_spawned (trace s))
    by (subst s1; trace_simpl; lia).
  assert (Hbody : heartbeat_body t s =
    (when (auto_reconnect (config (self s))) spawn_reconnect ;; ret ReturnNow) s2).
  { unfold heartbeat_body, try_except.
    unfold bind at 1. unfold get_self at 1.
    unfold bind at 1. unfold emit at 1.
    unfold bind at 1. unfold get_self at 1. cbn [self trace tasks].
    rewrite Hic. fold interval. rewrite Hover.
    unfold bind at 1. unfold log at 1, emit at 1. cbn [self trace tasks].
    unfold bind at 1. fold s1. rewrite Hd.
    destruct ((when (auto_reconnect (config (self s))) spawn_reconnect ;; ret ReturnNow) s2)
      as [[ctl|e|x] s3] eqn:Hk; [reflexivity| |];
      exfalso; revert Hk; unfold when, spawn_reconnect, create_task; mred;
      destruct (auto_reconnect (config (self s))); discriminate. }
  change (tasks s1) with (tasks s) in Hlen, Htasks.
  change (self s1) with (self s) in Htasks.
  destruct (auto_reconnect (config (self s))) eqn:Hauto.
  - eexists. split; [rewrite Hbody; unfold when, spawn_reconnect, create_task; mred; reflexivity|].
    split.
    { cbn [_heartbeat_loop]. unfold bind at 1. unfold get_self at 1. rewrite Hic.
      unfold bind at 1. rewrite Hbody.
      unfold when, spawn_reconnect, create_task. mred. reflexivity. }
    simpl. rewrite Hlen.
    split; [exact Hst|]. split; [exact Hws|]. split; [exact Hhttp|].
    split; [rewrite sends_snoc, Hsends, Hsends1; simpl; apply app_nil_r|].
    split; [rewrite reconnects_spawned_snoc, Hsp, Hsp1; reflexivity|].
    split; [rewrite Htasks; reflexivity|]. intros _. reflexivity.
  - exists s2. split; [rewrite Hbody; reflexivity|].
    split.
    { cbn [_heartbeat_loop]. unfold bind at 1. unfold get_self at 1. rewrite Hic.
      unfold bind at 1. rewrite Hbody. reflexivity. }
    split; [exact Hst|]. split; [exact Hws|]. split; [exact Hhttp|].
    split; [rewrite Hsends, Hsends1; reflexivity|].
    split; [rewrite Hsp, Hsp1; lia|].
    split; [rewrite Htasks, app_nil_r; reflexivity|]. discriminate.
Qed.

(** A turn that finds the pong in time and whose ping is sent. *)
Lemma heartbeat_ping_turn (s : Sys) (t : Tick) (ws : nat) :
  connection_state (self s) = CONNECTED ->
  websocket (self s) = Some ws ->
  tick_send t = Sent ->
  tick_now t - last_pong_time (self s)
    <= 2500000 * or_default (heartbeat_interval (config (self s))) HEARTBEAT_INTERVAL ->
  heartbeat_body t s =
    (Return Continue,
     mkSys (self s)
           ((trace s ++ [EvSleep (inject_Z (or_default (heartbeat_interval (config (self s)))
                                                        HEARTBEAT_INTERVAL))])
              ++ [EvSend Ping Sent])
           (tasks s)).
Proof.
  intros Hconn Hws Hsent Hin.
  assert (Hover : pong_overdue (tick_now t) (last_pong_time (self s))
            (or_default (heartbeat_interval (config (self s))) HEARTBEAT_INTERVAL) = false).
  { apply not_true_is_false. rewrite pong_overdue_spec. lia. }
  unfold heartbeat_body, _send_message, is_connected. mred.
  rewrite Hconn, Hover. simpl. rewrite Hws, Hconn. simpl.
  rewrite Hsent. reflexivity.
Qed.

(** The loop of a monitor whose pings are sent and get no pong, up to the
    tick that finds the pong overdue. *)
Lemma heartbeat_loop_death
    (s : Sys) (ws : nat) (before : list Tick) (t : Tick) (rest : list Tick) :
  connection_state (self s) = CONNECTED ->
  websocket (self s) = Some ws ->
  Forall (fun tk => tick_send tk = Sent /\
            tick_now tk - last_pong_time (self s)
              <= 2500000 * or_default (heartbeat_interval (config (self s)))
                                      HEARTBEAT_INTERVAL) before ->
  2500000 * or_default (heartbeat_interval (config (self s))) HEARTBEAT_INTERVAL
    < tick_now t - last_pong_time (self s) ->
  awaitable (_heartbeat_task (self s)) (tasks s) ->
  awaitable (_reconnect_task (self s))
            (cancel_handle (_heartbeat_task (self s)) (tasks s)) ->
  exists s',
    _heartbeat_loop (before ++ t :: rest) s = (Return true, s') /\
    connection_state (self s') = DISCONNECTED /\
    websocket (self s') = None /\
    http_session (self s') = false /\
    sends (trace s') = sends (trace s) ++ repeat (EvSend Ping Sent) (length before) /\
    reconnects_spawned (trace s') =
      (reconnects_spawned (trace s)
       + if auto_reconnect (config (self s)) then 1 else 0)%nat /\
    tasks s' =
      cancel_handle (_reconnect_task (self s))
        (cancel_handle (_heartbeat_task (self s)) (tasks s))
      ++ (if auto_reconnect (config (self s))
          then [mkTask ReconnectTask Active] else []) /\
    (auto_reconnect (config (self s)) = true ->
       _reconnect_task (self s') = Some (length (tasks s))).
Proof.
  intros Hconn Hws Hbefore.
  remember (last_pong_time (self s)) as lp eqn:Hlp.
  remember (or_default (heartbeat_interval (config (self s))) HEARTBEAT_INTERVAL)
    as iv eqn:Hiv.
  revert s Hconn Hws Hlp Hiv.
  induction Hbefore as [|tk before [Hsent Hin] _ IH];
    intros s Hconn Hws Hlp Hiv Hover Hhb Hrc; subst lp iv.
  - destruct (heartbeat_overdue_turn s t rest Hconn Hover Hhb Hrc)
      as (s' & _ & Hloop & Hst & Hsock & Hhttp & Hsends & Hsp & Htasks & Hauto).
    exists s'. simpl. rewrite app_nil_r. auto 10.
  - set (s1 := mkSys (self s)
                 ((trace s ++ [EvSleep (inject_Z (or_default (heartbeat_interval (config (self s)))
                                                              HEARTBEAT_INTERVAL))])
                    ++ [EvSend Ping Sent])
                 (tasks s)).
    destruct (IH s1 Hconn Hws eq_refl eq_refl Hover Hhb Hrc)
      as (s' & Hloop & Hst & Hsock & Hhttp & Hsends & Hsp & Htasks & Hauto).
    exists s'. split.
    { change ((tk :: before) ++ t :: rest) with (tk :: (before ++ t :: rest)).
      cbn [_heartbeat_loop]. unfold bind at 1. unfold get_self at 1.
      unfold is_connected. rewrite Hconn.
      unfold bind at 1. rewrite (heartbeat_ping_turn s tk ws Hconn Hws Hsent Hin).
      exact Hloop. }
    split; [exact Hst|]. split; [exact Hsock|]. split; [exact Hhttp|].
    split.
    { rewrite Hsends. subst s1. cbn [trace].
      rewrite !sends_snoc. simpl. rewrite app_nil_r, <- app_assoc. reflexivity. }
    split.
    { rewrite Hsp. subst s1. cbn [trace self].
      rewrite !reconnects_spawned_snoc. simpl. lia. }
    split; assumption.
Qed.

(** ** The pool during a turn *)

Section Pool.

Implicit Types (s : Sys) (l : list task) (t : task).

Lemma lookup_cancel_handle (h : option nat) l (i : nat) :
  cancel_handle h l !! i =
    if decide (h = Some i) then cancel_status <$> l !! i else l !! i.
Proof.
  destruct h as [id|]; unfold cancel_handle.
  - rewrite list_lookup_alter.
    destruct (decide (id = i)), (decide (Some id = Some i)); subst; congruence.
  - destruct (decide (None = Some i)); [discriminate|reflexivity].
Qed.

Lemma length_cancel_handle (h : option nat) l :
  length (cancel_handle h l) = length l.
Proof. destruct h; simpl; [apply length_alter|reflexivity]. Qed.

Lemma settled_cancel_status t : settled t -> settled (cancel_status t).
Proof. destruct t as [k []]; unfold settled; simpl; intros []; split; congruence. Qed.

Lemma settled_not_self_awaited l (i : nat) :
  Forall settled l -> status <$> l !! i <> Some SelfAwaited.
Proof.
  intros Hall. destruct (l !! i) as [t|] eqn:Hi; simpl; [|discriminate].
  destruct (Forall_lookup_1 _ _ _ _ Hall Hi) as [_ Hsa]. congruence.
Qed.

(** From outside, between the turns, every await of [disconnect()]
    returns. *)
Lemma settled_awaitable (a b : option nat) l :
  Forall settled l -> awaitable a l /\ awaitable b (cancel_handle a l).
Proof.
  intros Hall. split; intros id _.
  - apply settled_not_self_awaited, Hall.
  - rewrite lookup_cancel_handle.
    destruct (l !! id) as [t|] eqn:Hi; case_decide; simpl; try discriminate.
    + destruct (settled_cancel_status t (Forall_lookup_1 _ _ _ _ Hall Hi)) as [_ Hsa].
      congruence.
    + destruct (Forall_lookup_1 _ _ _ _ Hall Hi) as [_ Hsa]. congruence.
Qed.

(** In the turn of task [id], when the reconnection handle is not [id]:
    every await of [disconnect()] returns, also the one of the monitor on
    itself. *)
Lemma turn_awaitable (a b : option nat) (id : nat) l :
  Forall settled l -> b <> Some id ->
  awaitable a (alter start_status id l) /\
  awaitable b (cancel_handle a (alter start_status id l)).
Proof.
  intros Hall Hb. split; intros i Hi.
  - rewrite list_lookup_alter.
    destruct (l !! i) as [t|] eqn:Hl; case_decide; subst; simpl.
    + rewrite Hl. simpl. destruct t as [k []]; simpl; try discriminate.
      destruct (Forall_lookup_1 _ _ _ _ Hall Hl) as [_ Hsa]. contradiction.
    + destruct (Forall_lookup_1 _ _ _ _ Hall Hl) as [_ Hsa]. congruence.
    + rewrite Hl. discriminate.
    + discriminate.
  - assert (Hne : id <> i) by congruence.
    rewrite lookup_cancel_handle, list_lookup_alter_ne by exact Hne.
    destruct (l !! i) as [t|] eqn:Hl; case_decide; simpl; try discriminate.
    + destruct (settled_cancel_status t (Forall_lookup_1 _ _ _ _ Hall Hl)) as [_ Hsa].
      congruence.
    + destruct (Forall_lookup_1 _ _ _ _ Hall Hl) as [_ Hsa]. congruence.
Qed.

(** The monitor after its own [disconnect()], at the end of its turn. *)
Lemma monitor_finished (a b : option nat) (id : nat) l extra k :
  l !! id = Some (mkTask k Active) -> b <> Some id ->
  alter finish_status id
        (cancel_handle b (cancel_handle a (alter start_status id l)) ++ extra) !! id
  = Some (mkTask k Finished).
Proof.
  intros Hl Hb.
  assert (Hlt : (id < length l)%nat) by (eapply lookup_lt_Some; exact Hl).
  rewrite list_lookup_alter_eq, lookup_app_l
    by (rewrite !length_cancel_handle, length_alter; exact Hlt).
  rewrite !lookup_cancel_handle, list_lookup_alter_eq, Hl.
  destruct (decide (b = Some id)); [contradiction|].
  destruct (decide (a = Some id)); reflexivity.
Qed.

End Pool.

(** The turn of a monitor on a connected session whose pool is settled:
    its pings are sent, and at some tick the pong is overdue. *)
Lemma monitor_turn_death
    (s : Sys) (id ws : nat) (before : list Tick) (t : Tick) (rest : list Tick) :
  connection_state (self s) = CONNECTED ->
  websocket (self s) = Some ws ->
  tasks s !! id = Some (mkTask HeartbeatTask Active) ->
  pool_settled s ->
  _reconnect_task (self s) <> Some id ->
  Forall (fun tk => tick_send tk = Sent /\
            tick_now tk - last_pong_time (self s)
              <= 2500000 * or_default (heartbeat_interval (config (self s)))
                                      HEARTBEAT_INTERVAL) before ->
  2500000 * or_default (heartbeat_interval (config (self s))) HEARTBEAT_INTERVAL
    < tick_now t - last_pong_time (self s) ->
  let s' := step (RunHeartbeat id (before ++ t :: rest)) s in
  connection_state (self s') = DISCONNECTED /\
  websocket (self s') = None /\
  http_session (self s') = false /\
  sends (trace s') = sends (trace s) ++ repeat (EvSend Ping Sent) (length before) /\
  tasks s' !! id = Some (mkTask HeartbeatTask Finished) /\
  (forall later, step (RunHeartbeat id later) s' = s') /\
  reconnects_spawned (trace s') =
    (reconnects_spawned (trace s)
     + if auto_reconnect (config (self s)) then 1 else 0)%nat /\
  (auto_reconnect (config (self s)) = true ->
     _reconnect_task (self s') = Some (length (tasks s)) /\
     tasks s' !! length (tasks s) = Some (mkTask ReconnectTask Active) /\
     length (tasks s') = S (length (tasks s))) /\
  (auto_reconnect (config (self s)) = false ->
     length (tasks s') = length (tasks s)).
Proof.
  intros Hconn Hws Htask Hpool Hrc Hbefore Hover s'.
  destruct (turn_awaitable (_heartbeat_task (self s)) (_reconnect_task (self s))
              id (tasks s) Hpool Hrc) as [Hahb Harc].
  destruct (heartbeat_loop_death (start_task id s) ws before t rest
              Hconn Hws Hbefore Hover Hahb Harc)
    as (s1 & Hloop & Hst & Hsock & Hhttp & Hsends & Hsp & Htasks & Hauto).
  assert (Hs' : s' = finish_task id s1).
  { subst s'. cbn [step]. unfold task_is. rewrite Htask, Hloop. reflexivity. }
  cbn [self trace tasks start_task] in Hsends, Hsp, Htasks, Hauto.
  assert (Hdone : tasks s' !! id = Some (mkTask HeartbeatTask Finished)).
  { rewrite Hs'. cbn [finish_task tasks]. rewrite Htasks.
    apply monitor_finished; assumption. }
  assert (Hlen : length (tasks s') =
            (length (tasks s)
             + if auto_reconnect (config (self s)) then 1 else 0)%nat).
  { rewrite Hs'. cbn [finish_task tasks]. rewrite length_alter, Htasks, length_app.
    rewrite !length_cancel_handle, length_alter.
    destruct (auto_reconnect (config (self s))); reflexivity. }
  rewrite Hs' in *. cbn [finish_task self trace] in *.
  split; [exact Hst|]. split; [exact Hsock|]. split; [exact Hhttp|].
  split; [exact Hsends|]. split; [exact Hdone|].
  split.
  { intros later. cbn [step]. unfold task_is. rewrite Hdone. reflexivity. }
  split; [exact Hsp|].
  split.
  - intros Htrue. split; [rewrite (Hauto Htrue), length_alter; reflexivity|].
    rewrite Htrue in *. split; [|rewrite Hlen; lia].
    assert (Hne : id <> length (tasks s)).
    { apply lookup_lt_Some in Htask. lia. }
    cbn [finish_task tasks]. rewrite list_lookup_alter_ne, Htasks by exact Hne.
    apply list_lookup_middle.
    rewrite !length_cancel_handle, length_alter. reflexivity.
  - intros Hfalse. rewrite Hfalse in Hlen. lia.
Qed.

(** With pings every 30 s and no pong, the monitor sends two pings and
    declares the connection dead at the third tick, 90 s after the last
    pong; the fourth tick is never taken. The monitor is finished, the
    read loop and the new reconnection task are pending. *)
Example heartbeat_three_ticks :
  sends (trace sample_dead) = [EvSend Ping Sent; EvSend Ping Sent] /\
  connection_state (self sample_dead) = DISCONNECTED /\
  tasks sample_dead =
    [mkTask MessageHandlerTask Active; mkTask HeartbeatTask Finished;
     mkTask ReconnectTask Active].
Proof. repeat split; vm_compute; reflexivity. Qed.

(** ** One reconnection task at a time *)

(** The end of the read loop with [ConnectionClosed] creates a reconnection
    task whenever [auto_reconnect] is set, whether or not one is alive. *)
Lemma read_loop_closure_spawns (s : Sys) :
  auto_reconnect (config (self s)) = true ->
  active_reconnects (snd (_message_handler [] ConnectionClosed s))
    = S (active_reconnects s).
Proof.
  intros Hauto. unfold _message_handler, spawn_reconnect, create_task. mred.
  rewrite Hauto. simpl. unfold active_reconnects. simpl.
  rewrite List.filter_app, length_app. simpl. lia.
Qed.

(** C9 (the code at the failing input). The liveness monitor of the sample
    session declares the connection dead and starts a reconnection task
    (task 2). The read loop of the socket it closed then ends with
    [ConnectionClosed] while task 2 is alive, and starts another one
    (task 3): two reconnection tasks are active. The client holds only the
    second, so a [disconnect()] cancels that one and the first lives on. *)
Theorem C9_second_reconnect_task_spawned :
  active_reconnects sample_connected = 0%nat /\
  active_reconnects sample_dead = 1%nat /\
  tasks sample_dead !! 2%nat = Some (mkTask ReconnectTask Active) /\
  active_reconnects sample_dead_closed = 2%nat /\
  tasks sample_dead_closed =
    [mkTask MessageHandlerTask Finished; mkTask HeartbeatTask Finished;
     mkTask ReconnectTask Active; mkTask ReconnectTask Active] /\
  _reconnect_task (self sample_dead_closed) = Some 3%nat /\
  active_reconnects (run [CallDisconnect] sample_dead_closed) = 1%nat.
Proof. repeat split; vm_compute; reflexivity. Qed.

(** ** Reconnection *)

Section Reconnection.

Implicit Types (s : Sys) (env : AttemptEnv).

Lemma reconnect_attempts_made_snoc tr e :
  reconnect_attempts_made (tr ++ [e]) =
  (reconnect_attempts_made tr + if is_reconnect_attempt e then 1 else 0)%nat.
Proof.
  unfold reconnect_attempts_made. rewrite List.filter_app, length_app. simpl.
  destruct (is_reconnect_attempt e); reflexivity.
Qed.

(** A [connect()] of a disconnected session whose transport fails: it
    raises, whether the breaker denies it or the transport is tried; the
    session stays disconnected. *)
Lemma connect_fails (cenv : ConnectEnv) s cause :
  connection_state (self s) = DISCONNECTED ->
  transport cenv = OpenFailed cause ->
  exists e s',
    connect cenv s = (Raise e, s') /\
    exc_class e = AxonPulsConnectionError /\
    connection_state (self s') = DISCONNECTED /\
    reconnect_attempt (self s') = reconnect_attempt (self s) /\
    config (self s') = config (self s) /\
    tasks s' = tasks s /\
    sends (trace s') = sends (trace s) /\
    reconnect_attempts_made (trace s') = reconnect_attempts_made (trace s).
Proof.
  intros Hst Htr. unfold connect. mred. rewrite Hst.
  destruct (can_attempt (now_attempt cenv) (circuit_breaker (self s))) as [[|] cb];
    simpl.
  - rewrite Htr. destruct (http_session (self s)); simpl;
      do 2 eexists; (split; [reflexivity|]); simpl;
      repeat split; trace_simpl; first [assumption | reflexivity | lia].
  - do 2 eexists. split; [reflexivity|]. simpl. repeat split. assumption.
Qed.

(** A turn of the loop whose connection attempt fails. *)
Lemma reconnect_body_fails (n : Z) env s :
  connection_state (self s) = DISCONNECTED ->
  transport_fails env = true ->
  exists s',
    reconnect_body n env s = (Return false, s') /\
    connection_state (self s') = DISCONNECTED /\
    reconnect_attempt (self s') = reconnect_attempt (self s) + 1 /\
    config (self s') = config (self s) /\
    tasks s' = tasks s /\
    sends (trace s') = sends (trace s) /\
    reconnect_attempts_made (trace s') = S (reconnect_attempts_made (trace s)).
Proof.
  intros Hst Hfail. unfold transport_fails in Hfail.
  destruct (transport (connect_env env)) as [ws|cause] eqn:Htr; [discriminate|].
  set (delay := reconnect_delay (reconnect_attempt (self s)) (loop_time env)).
  set (s1 := mkSys (set_reconnect_attempt (reconnect_attempt (self s) + 1) (self s))
                   ((trace s ++ [EvLog (LogReconnectAttempt
                                          (reconnect_attempt (self s) + 1) n delay)])
                      ++ [EvSleep delay])
                   (tasks s)).
  destruct (connect_fails (connect_env env) s1 cause) as
    (e & s2 & Hrun & _ & Hst2 & Hat2 & Hcfg2 & Htasks2 & Hsends2 & Hmade2);
    [exact Hst | exact Htr |].
  exists (mkSys (self s2)
                (trace s2 ++ [EvLog (LogReconnectAttemptFailed (reconnect_attempt (self s2)) e)])
                (tasks s2)).
  split.
  { unfold reconnect_body, try_except.
    unfold bind at 1. unfold get_self at 1.
    unfold bind at 1. unfold log at 1, emit at 1.
    unfold bind at 1. unfold emit at 1.
    unfold bind at 1. unfold modify_self at 1. cbn [self trace tasks].
    fold delay. fold s1.
    unfold bind at 1. rewrite Hrun. reflexivity. }
  cbn [self trace tasks].
  split; [exact Hst2|]. split; [rewrite Hat2; reflexivity|].
  split; [rewrite Hcfg2; reflexivity|]. split; [rewrite Htasks2; reflexivity|].
  split.
  - rewrite sends_snoc, Hsends2. subst s1. cbn [trace].
    rewrite !sends_snoc. simpl. rewrite !app_nil_r. reflexivity.
  - rewrite reconnect_attempts_made_snoc, Hmade2. subst s1. cbn [trace].
    rewrite !reconnect_attempts_made_snoc. simpl. lia.
Qed.

(** The loop when every connection attempt fails: it takes the turns that
    are left up to [n], then logs the exhaustion and returns. *)
Lemma reconnect_loop_exhausts (n : Z) (envs : list AttemptEnv) s :
  connection_state (self s) = DISCONNECTED ->
  Forall (fun env => transport_fails env = true) envs ->
  reconnect_attempt (self s) <= n ->
  n - reconnect_attempt (self s) <= Z.of_nat (length envs) ->
  exists s',
    reconnect_loop n envs s = (Return (Some tt), s') /\
    connection_state (self s') = DISCONNECTED /\
    reconnect_attempt (self s') = n /\
    config (self s') = config (self s) /\
    tasks s' = tasks s /\
    sends (trace s') = sends (trace s) /\
    reconnect_attempts_made (trace s') =
      (reconnect_attempts_made (trace s)
       + Z.to_nat (n - reconnect_attempt (self s)))%nat /\
    last (trace s') = Some (EvLog LogReconnectExhausted).
Proof.
  intros Hst Hall. revert s Hst.
  induction Hall as [|env rest Hfail Hall IH]; intros s Hst Hle Hlen.
  - simpl in Hlen. assert (Hk : reconnect_attempt (self s) = n) by lia.
    eexists. split.
    { cbn [reconnect_loop]. mred. rewrite Hk, Z.ltb_irrefl. reflexivity. }
    cbn [self trace tasks]. repeat split; try assumption.
    + rewrite sends_snoc. simpl. apply app_nil_r.
    + rewrite reconnect_attempts_made_snoc, Hk, Z.sub_diag. simpl. lia.
    + apply last_snoc.
  - destruct (Z.ltb_spec (reconnect_attempt (self s)) n) as [Hlt|Hge].
    + destruct (reconnect_body_fails n env s Hst Hfail) as
        (s1 & Hbody & Hst1 & Hat1 & Hcfg1 & Htasks1 & Hsends1 & Hmade1).
      destruct (IH s1 Hst1) as
        (s' & Hloop & Hst' & Hat' & Hcfg' & Htasks' & Hsends' & Hmade' & Hlast');
        [lia | simpl length in Hlen; lia |].
      exists s'. split.
      { cbn [reconnect_loop]. unfold bind at 1. unfold get_self at 1.
        apply Z.ltb_lt in Hlt. rewrite Hlt.
        unfold bind at 1. rewrite Hbody. exact Hloop. }
      split; [exact Hst'|]. split; [exact Hat'|].
      split; [congruence|]. split; [congruence|]. split; [congruence|].
      split; [|exact Hlast'].
      rewrite Hmade', Hmade1, Hat1. lia.
    + assert (Hk : reconnect_attempt (self s) = n) by lia.
      eexists. split.
      { cbn [reconnect_loop]. mred. rewrite Hk, Z.ltb_irrefl. reflexivity. }
      cbn [self trace tasks]. repeat split; try assumption.
      * rewrite sends_snoc. simpl. apply app_nil_r.
      * rewrite reconnect_attempts_made_snoc, Hk, Z.sub_diag. simpl. lia.
      * apply last_snoc.
Qed.

End Reconnection.

(** C2, as stated, fails in its last part: with [reconnect_attempts = 2]
    and every attempt refused, [_reconnect] takes its two turns and then
    returns normally, as it does after a success. Nothing is raised (the
    package has no reconnection-exhausted error), and all it does after the
    last failed attempt is write a log record. *)
Lemma C2_reconnect_exhaustion_counterexample :
  reconnect_attempts (config (self sample_dropped)) = Some 2 /\
  forallb transport_fails refused_turns = true /\
  (forall c, is_error_kind "ReconnectionExhaustedError" c = false) /\
  exists s',
    _reconnect refused_turns sample_dropped = (Return (Some tt), s') /\
    (forall e, fst (_reconnect refused_turns sample_dropped) <> Raise e) /\
    reconnect_attempts_made (trace s') = 2%nat /\
    last (trace s') = Some (EvLog LogReconnectExhausted) /\
    tasks s' = tasks sample_dropped.
Proof.
  split; [reflexivity|]. split; [reflexivity|].
  split; [intros c; destruct c; reflexivity|].
  eexists. split; [vm_compute; reflexivity|].
  split; [intros e; vm_compute; discriminate|].
  repeat split.
Qed.

(** C2 (amended). With [reconnect_attempts = n > 0] configured, a
    disconnected session whose attempt counter is 0 and whose every
    connection attempt fails: [_reconnect] returns after exactly [n] turns,
    however many more the environment would allow; the counter is [n]; the
    session is Disconnected; no request was sent and no task created. The
    exhaustion is written to the log, as the last thing done, and
    [_reconnect] returns normally: no error is raised. *)
Theorem C2_reconnect_exhaustion (s : Sys) (n : Z) (envs : list AttemptEnv) :
  reconnect_attempts (config (self s)) = Some n ->
  0 < n ->
  connection_state (self s) = DISCONNECTED ->
  reconnect_attempt (self s) = 0 ->
  Forall (fun env => transport_fails env = true) envs ->
  n <= Z.of_nat (length envs) ->
  exists s',
    _reconnect envs s = (Return (Some tt), s') /\
    reconnect_attempts_made (trace s') =
      (reconnect_attempts_made (trace s) + Z.to_nat n)%nat /\
    reconnect_attempt (self s') = n /\
    connection_state (self s') = DISCONNECTED /\
    sends (trace s') = sends (trace s) /\
    tasks s' = tasks s /\
    last (trace s') = Some (EvLog LogReconnectExhausted).
Proof.
  intros Hcfg Hpos Hst Hzero Hall Hlen.
  destruct (reconnect_loop_exhausts n envs s Hst Hall) as
    (s' & Hloop & Hst' & Hat' & _ & Htasks' & Hsends' & Hmade' & Hlast');
    [lia | lia |].
  exists s'. split.
  { unfold _reconnect. unfold bind at 1. unfold get_self at 1.
    rewrite Hcfg. unfold or_default.
    destruct (Z.eqb_spec n 0) as [->|_]; [lia|]. exact Hloop. }
  rewrite Hzero, Z.sub_0_r in Hmade'. auto 10.
Qed.

Lemma C2_reconnect_exhaustion_witness :
  exists s',
    _reconnect refused_turns sample_dropped = (Return (Some tt), s') /\
    reconnect_attempts_made (trace s') = 2%nat /\
    connection_state (self s') = DISCONNECTED.
Proof.
  destruct (C2_reconnect_exhaustion sample_dropped 2 refused_turns) as
    (s' & Hrun & Hmade & _ & Hst & _).
  - reflexivity.
  - lia.
  - vm_compute. reflexivity.
  - vm_compute. reflexivity.
  - repeat constructor.
  - vm_compute. discriminate.
  - exists s'. split; [exact Hrun|]. split; [exact Hmade | exact Hst].
Defined.

(** ** Backoff *)

Section Backoff.

Local Open Scope Q_scope.

Lemma mod1_bounds (t : Q) : 0 <= mod1 t /\ mod1 t < 1.
Proof.
  unfold mod1. pose proof (Qfloor_le t) as Hlo. pose proof (Qlt_floor t) as Hhi.
  rewrite inject_Z_plus in Hhi. change (inject_Z 1) with 1 in Hhi.
  split; lra.
Qed.

(** The jitter factor lies in (0.8, 1.2]. *)
Lemma jitter_factor_bounds (t : Q) :
  1 - BACKOFF_JITTER < jitter_factor t /\ jitter_factor t <= 1 + BACKOFF_JITTER.
Proof.
  unfold jitter_factor, BACKOFF_JITTER. destruct (mod1_bounds t). split; lra.
Qed.

Lemma base_delay_mono (n m : Z) :
  (0 <= n)%Z -> (n <= m)%Z -> (base_delay n <= base_delay m)%Z.
Proof.
  intros Hn Hnm. unfold base_delay, BACKOFF_BASE_MS, BACKOFF_FACTOR.
  apply Z.mul_le_mono_nonneg_l; [lia|]. apply Z.pow_le_mono_r; lia.
Qed.

(** The capped delay lies between 0.25 s and 30 s. *)
Lemma capped_delay_bounds (n : Z) :
  (0 <= n)%Z -> (250 # 1000) <= capped_delay n /\ capped_delay n <= 30.
Proof.
  intros Hn. unfold capped_delay.
  assert (H1 : (250 <= Z.min (base_delay n) BACKOFF_MAX_MS)%Z).
  { apply Z.min_glb; [|unfold BACKOFF_MAX_MS; lia].
    change 250%Z with (base_delay 0). apply base_delay_mono; lia. }
  assert (H2 : (Z.min (base_delay n) BACKOFF_MAX_MS <= 30000)%Z)
    by apply Z.le_min_r.
  set (c := Z.min _ _) in *.
  rewrite Zle_Qle in H1, H2.
  change (inject_Z 250) with 250 in H1. change (inject_Z 30000) with 30000 in H2.
  split.
  - apply Qle_shift_div_l; [reflexivity|]. lra.
  - apply Qle_shift_div_r; [reflexivity|]. lra.
Qed.

End Backoff.

(** C4. Python floats being taken as exact rationals: for every attempt
    number [n >= 0] and every reading of the event-loop clock, the delay
    (in seconds) is
    [min(250 * 2^n, 30000) / 1000] times a jitter factor that lies in
    [[1 - 0.2, 1 + 0.2]]; the unjittered value [250 * 2^n] is
    non-decreasing in [n], and so is its cap; the delay is greater than 0
    and at most [30000 / 1000 * (1 + 0.2)] = 36 s. *)
Theorem C4_backoff_delay_bounds (n : Z) (clock : Q) :
  0 <= n ->
  (BACKOFF_BASE_MS = 250 /\ BACKOFF_FACTOR = 2 /\ BACKOFF_MAX_MS = 30000 /\
   (BACKOFF_JITTER == 0.2)%Q) /\
  (reconnect_delay n clock ==
     inject_Z (Z.min (BACKOFF_BASE_MS * BACKOFF_FACTOR ^ n) BACKOFF_MAX_MS) / 1000
     * jitter_factor clock)%Q /\
  (1 - BACKOFF_JITTER <= jitter_factor clock /\
   jitter_factor clock <= 1 + BACKOFF_JITTER)%Q /\
  (forall m, n <= m ->
     base_delay n <= base_delay m /\
     (capped_delay n <= capped_delay m)%Q) /\
  (0 < reconnect_delay n clock)%Q /\
  (reconnect_delay n clock <= inject_Z BACKOFF_MAX_MS / 1000 * (1 + BACKOFF_JITTER))%Q.
Proof.
  intros Hn.
  destruct (capped_delay_bounds n Hn) as [Hclo Hchi].
  destruct (jitter_factor_bounds clock) as [Hjlo Hjhi].
  split; [repeat split; reflexivity|].
  split; [reflexivity|].
  split; [split; [apply Qlt_le_weak; exact Hjlo | exact Hjhi]|].
  split.
  { intros m Hnm. assert (Hb := base_delay_mono n m Hn Hnm).
    split; [exact Hb|]. unfold capped_delay.
    apply Qmult_le_compat_r; [|discriminate].
    rewrite <- Zle_Qle. apply Z.min_le_compat_r. exact Hb. }
  unfold reconnect_delay, BACKOFF_JITTER, BACKOFF_MAX_MS in *.
  set (c := capped_delay n) in *. set (j := jitter_factor clock) in *.
  split.
  - apply Qmult_lt_0_compat; lra.
  - apply Qle_trans with (30 * j)%Q.
    + apply Qmult_le_compat_r; lra.
    + apply Qle_trans with (30 * (1 + 0.2))%Q; [lra|].
      apply Qmult_le_compat_r; [|lra]. unfold Qle; simpl; lia.
Qed.

(** Attempt 3 at clock 12.75: 2 s times 0.9. *)
Lemma C4_backoff_delay_bounds_witness :
  (reconnect_delay 3 (1275 # 100) == 18 # 10)%Q /\
  (0 < reconnect_delay 3 (1275 # 100))%Q /\
  (reconnect_delay 3 (1275 # 100) <= 36)%Q.
Proof.
  destruct (C4_backoff_delay_bounds 3 (1275 # 100)) as (_ & _ & _ & _ & Hpos & Hmax);
    [lia|].
  split; [reflexivity|]. split; [exact Hpos|].
  apply Qle_trans with (inject_Z BACKOFF_MAX_MS / 1000 * (1 + BACKOFF_JITTER))%Q;
    [exact Hmax | discriminate].
Defined.

(** * Further properties *)

(** ** The breaker on its own *)

Section BreakerCalls.

Implicit Types (cb : CircuitBreaker) (call : breaker_call).

Lemma breaker_step_sound cb call :
  1 <= failure_threshold cb ->
  breaker_sound cb ->
  breaker_sound (breaker_step cb call) /\
  failure_threshold (breaker_step cb call) = failure_threshold cb /\
  timeout_seconds (breaker_step cb call) = timeout_seconds cb.
Proof.
  destruct cb as [th cd c st l]. unfold breaker_sound. simpl.
  intros Hth (Hc & Hclosed & Hopen).
  destruct call as [|now|now]; simpl.
  - unfold record_success; simpl.
    destruct st; simpl; repeat split; try lia; try discriminate;
      intros; try congruence; apply Hopen; discriminate.
  - unfold record_failure; simpl. repeat split; try lia; [|eauto].
    destruct (Z.leb_spec th (c + 1)); [discriminate|]. intros _. lia.
  - unfold can_attempt; simpl.
    destruct st; simpl; [repeat split; auto | | repeat split; auto].
    destruct l as [t|]; simpl; [|repeat split; auto].
    destruct (_ <? _); simpl; repeat split; auto; try discriminate; eauto.
Qed.

Lemma breaker_run_sound calls cb :
  1 <= failure_threshold cb ->
  breaker_sound cb ->
  breaker_sound (breaker_run calls cb) /\
  failure_threshold (breaker_run calls cb) = failure_threshold cb /\
  timeout_seconds (breaker_run calls cb) = timeout_seconds cb.
Proof.
  revert cb. induction calls as [|call rest IH]; intros cb Hth Hs; simpl.
  - auto.
  - destruct (breaker_step_sound cb call Hth Hs) as (Hs1 & Hth1 & Hcd1).
    destruct (IH (breaker_step cb call)) as (Hs2 & Hth2 & Hcd2);
      [lia | exact Hs1 |].
    split; [exact Hs2|]. split; congruence.
Qed.

End BreakerCalls.

(** X1. Whatever calls a breaker created with a threshold of at least 1
    has received, in whatever order, it keeps its threshold and cooldown,
    it is sound, and it is never stuck: there is a time after which every
    [can_attempt] answers true. *)
Theorem breaker_never_stuck (th cd : Z) (calls : list breaker_call) :
  1 <= th ->
  let cb := breaker_run calls (new_breaker th cd) in
  failure_threshold cb = th /\ timeout_seconds cb = cd /\
  breaker_sound cb /\
  exists horizon : time,
    forall now, horizon < now -> fst (can_attempt now cb) = true.
Proof.
  intros Hth cb.
  destruct (breaker_run_sound calls (new_breaker th cd)) as (Hs & Hth' & Hcd');
    [exact Hth | unfold breaker_sound; simpl; repeat split; try lia; congruence |].
  fold cb in Hs, Hth', Hcd'. simpl in Hth', Hcd'.
  split; [exact Hth'|]. split; [exact Hcd'|]. split; [exact Hs|].
  destruct Hs as (_ & _ & Hopen). unfold can_attempt.
  destruct (state cb) eqn:Hst.
  - exists 0. reflexivity.
  - destruct Hopen as [t Ht]; [discriminate|]. rewrite Ht.
    exists (t + timedelta_seconds (timeout_seconds cb)). intros now Hnow.
    destruct (Z.ltb_spec (timedelta_seconds (timeout_seconds cb)) (now - t));
      [reflexivity|lia].
  - exists 0. reflexivity.
Qed.

Lemma breaker_never_stuck_witness :
  let cb := breaker_run [DoRecordFailure 1; DoRecordFailure 2; DoRecordSuccess;
                         DoRecordFailure 3] (new_breaker 2 60) in
  (state cb = OPEN /\ failure_count cb = 1) /\
  exists horizon : time,
    forall now, horizon < now -> fst (can_attempt now cb) = true.
Proof.
  intros cb.
  destruct (breaker_never_stuck 2 60
              [DoRecordFailure 1; DoRecordFailure 2; DoRecordSuccess; DoRecordFailure 3])
    as (_ & _ & _ & Hh); [lia|].
  split; [split; reflexivity | exact Hh].
Defined.

(** X2. A breaker that is Open and past its cooldown admits one attempt and
    becomes HalfOpen. If that attempt fails, the breaker is Open again
    exactly when the failure count, which HalfOpen did not reset, reaches
    the threshold with this failure; the cooldown then restarts from the
    new failure. Otherwise it stays HalfOpen and admits every attempt. *)
Theorem half_open_probe_failure (cb : CircuitBreaker) (t now now' : time) :
  state cb = OPEN ->
  last_failure_time cb = Some t ->
  timedelta_seconds (timeout_seconds cb) < now - t ->
  let probe := snd (can_attempt now cb) in
  let cb' := record_failure now' probe in
  fst (can_attempt now cb) = true /\
  state probe = HALF_OPEN /\
  failure_count probe = failure_count cb /\
  last_failure_time cb' = Some now' /\
  (failure_threshold cb <= failure_count cb + 1 ->
     state cb' = OPEN /\
     forall later, later - now' <= timedelta_seconds (timeout_seconds cb) ->
       can_attempt later cb' = (false, cb')) /\
  (failure_count cb + 1 < failure_threshold cb ->
     state cb' = HALF_OPEN /\ forall later, fst (can_attempt later cb') = true).
Proof.
  intros Hs Ht Hnow. unfold can_attempt at 1 2. rewrite Hs, Ht.
  destruct (Z.ltb_spec (timedelta_seconds (timeout_seconds cb)) (now - t)); [|lia].
  simpl. repeat split.
  - unfold record_failure; simpl.
    destruct (Z.leb_spec (failure_threshold cb) (failure_count cb + 1)); [reflexivity|lia].
  - intros later Hlater. unfold can_attempt, record_failure; simpl.
    destruct (Z.leb_spec (failure_threshold cb) (failure_count cb + 1)); [|lia].
    destruct (Z.ltb_spec (timedelta_seconds (timeout_seconds cb)) (later - now'));
      [lia|reflexivity].
  - unfold record_failure; simpl.
    destruct (Z.leb_spec (failure_threshold cb) (failure_count cb + 1)); [lia|reflexivity].
  - intros later. unfold can_attempt, record_failure; simpl.
    destruct (Z.leb_spec (failure_threshold cb) (failure_count cb + 1)); [lia|reflexivity].
Qed.

Lemma half_open_probe_failure_witness :
  let cb := record_failures [1000000; 2000000; 3000000; 4000000; 5000000]
                            default_breaker in
  let cb' := record_failure 70000000 (snd (can_attempt 66000000 cb)) in
  state cb' = OPEN /\ can_attempt 130000000 cb' = (false, cb').
Proof.
  intros cb cb'.
  destruct (half_open_probe_failure cb 5000000 66000000 70000000)
    as (_ & _ & _ & _ & Hre & _); [reflexivity | reflexivity | reflexivity |].
  destruct Hre as [Hopen Hdeny]; [vm_compute; discriminate|].
  split; [exact Hopen|]. apply Hdeny. vm_compute. discriminate.
Defined.

(** ** Invariants *)

Section Invariant.

Variable P : Sys -> Prop.

Lemma invariant_ret {A} (a : A) : invariant P (ret a).
Proof. intros s H. exact H. Qed.

Lemma invariant_raise {A} e : invariant P (@raise A e).
Proof. intros s H. exact H. Qed.

Lemma invariant_raise_py {A} x : invariant P (@raise_py A x).
Proof. intros s H. exact H. Qed.

Lemma invariant_get_self : invariant P get_self.
Proof. intros s H. exact H. Qed.

Lemma invariant_bind {A B} (m : M A) (k : A -> M B) :
  invariant P m -> (forall a, invariant P (k a)) -> invariant P (bind m k).
Proof.
  intros Hm Hk s H. unfold bind. specialize (Hm s H).
  destruct (m s) as [[a|e|x] s1]; simpl in *;
    [apply Hk; exact Hm | exact Hm | exact Hm].
Qed.

(** The continuation of [get_self] may use that it got the client of the
    state it runs in. *)
Lemma invariant_get_self_bind {B} (k : Client -> M B) :
  (forall s, P s -> P (snd (k (self s) s))) -> invariant P (bind get_self k).
Proof. intros Hk s H. unfold bind, get_self. apply Hk, H. Qed.

Lemma invariant_try_except {A} (m : M A) (h : raised -> M A) :
  invariant P m -> (forall e, invariant P (h e)) -> invariant P (try_except m h).
Proof.
  intros Hm Hh s H. unfold try_except. specialize (Hm s H).
  destruct (m s) as [[a|e|x] s1]; simpl in *;
    [exact Hm | apply Hh; exact Hm | apply Hh; exact Hm].
Qed.

Lemma invariant_when b m : invariant P m -> invariant P (when b m).
Proof. intros Hm. destruct b; [exact Hm | apply invariant_ret]. Qed.

Lemma invariant_modify_self f :
  (forall s, P s -> P (mkSys (f (self s)) (trace s) (tasks s))) ->
  invariant P (modify_self f).
Proof. intros Hf s H. apply Hf, H. Qed.

Lemma invariant_emit e :
  (forall s, P s -> P (mkSys (self s) (trace s ++ [e]) (tasks s))) ->
  invariant P (emit e).
Proof. intros He s H. apply He, H. Qed.

Lemma invariant_create_task k :
  (forall s, P s ->
     P (mkSys (self s) (trace s ++ [EvCreateTask k (length (tasks s))])
              (tasks s ++ [mkTask k Active]))) ->
  invariant P (create_task k).
Proof. intros Hc s H. apply Hc, H. Qed.

(** Whether the await returns or raises. *)
Lemma invariant_cancel_and_await id :
  (forall s, P s ->
     P (mkSys (self s) (trace s ++ [EvCancelTask id])
              (alter cancel_status id (tasks s)))) ->
  (forall s, P s ->
     P (mkSys (self s) (trace s ++ [EvCancelTask id]) (tasks s))) ->
  invariant P (cancel_and_await id).
Proof.
  intros Hc Hr s H. unfold cancel_and_await.
  destruct (status <$> tasks s !! id) as [[]|]; first [apply Hc, H | apply Hr, H].
Qed.

End Invariant.

(** Proves [invariant P m] for code built from the primitives; [leaf]
    proves what a primitive that writes must keep. *)
Ltac invariant_step leaf :=
  first
    [ assumption
    | apply invariant_ret | apply invariant_raise | apply invariant_raise_py
    | apply invariant_get_self
    | apply invariant_emit; leaf
    | apply invariant_create_task; leaf
    | apply invariant_cancel_and_await; leaf
    | apply invariant_modify_self; leaf
    | apply invariant_when
    | apply invariant_try_except; [|intros ?]
    | apply invariant_bind; [|intros ?] ].

Ltac invariant_case :=
  match goal with
  | |- invariant _ (match ?x with _ => _ end) => destruct x
  | |- invariant _ (if ?x then _ else _) => destruct x
  | |- invariant _ (let (_, _) := ?x in _) => destruct x
  end.

Ltac invariant_auto leaf := repeat (invariant_step leaf || invariant_case).

(** ** The channel operations, case by case *)

Section ChannelOps.

Implicit Types (s : Sys) (channels : list string) (r : send_result).

Lemma send_message_run m r s :
  _send_message m r s =
    match websocket (self s) with
    | Some _ =>
        if is_connected (self s) then
          match r with
          | Sent =>
              (Return tt, mkSys (self s) (trace s ++ [EvSend m Sent]) (tasks s))
          | SendFailed cause now =>
              (Raise (mkExn AxonPulsConnectionError (MsgSendFailed cause)),
               mkSys (set_circuit_breaker
                        (record_failure now (circuit_breaker (self s))) (self s))
                     ((trace s ++ [EvSend m r]) ++ [EvLog (LogSendFailed cause)])
                     (tasks s))
          end
        else (Raise not_connected, s)
    | None => (Raise not_connected, s)
    end.
Proof.
  unfold _send_message. mred.
  destruct (websocket (self s)); [|reflexivity].
  destruct (is_connected (self s)); [|reflexivity].
  destruct r; reflexivity.
Qed.

Lemma subscribe_run channels options r s :
  subscribe channels options r s =
    if is_connected (self s) then
      if MAX_CHANNELS <? Z.of_nat (length channels)
                         + Z.of_nat (size (subscriptions (self s)))
      then (Raise (mkExn AxonPulsValidationError (MsgMaxChannels MAX_CHANNELS)), s)
      else
        match first_foreign (self s) channels with
        | Some ch => (Raise (tenant_error (self s) ch), s)
        | None =>
            match _send_message (Subscribe channels options) r s with
            | (Return _, s1) =>
                (Return tt,
                 mkSys (set_subscriptions
                          (subscriptions (self s1) ∪ list_to_set channels) (self s1))
                       (trace s1 ++ [EvLog (LogSubscribed channels)]) (tasks s1))
            | (Raise e, s1) => (Raise e, s1)
            | (RaisePy x, s1) => (RaisePy x, s1)
            end
        end
    else (Raise not_connected, s).
Proof.
  unfold subscribe. unfold bind at 1. unfold get_self at 1.
  destruct (is_connected (self s)); [|reflexivity]. simpl.
  destruct (MAX_CHANNELS <? _); [reflexivity|].
  unfold bind at 1. rewrite validate_channels_spec.
  destruct (first_foreign (self s) channels); [reflexivity|].
  unfold bind at 1.
  destruct (_send_message (Subscribe channels options) r s) as [[[]|e|x] s1];
    reflexivity.
Qed.

Lemma unsubscribe_run channels r s :
  unsubscribe channels r s =
    if is_connected (self s) then
      match first_foreign (self s) channels with
      | Some ch => (Raise (tenant_error (self s) ch), s)
      | None =>
          match _send_message (Unsubscribe channels) r s with
          | (Return _, s1) =>
              (Return tt,
               mkSys (set_subscriptions
                        (subscriptions (self s1) ∖ list_to_set channels) (self s1))
                     (trace s1 ++ [EvLog (LogUnsubscribed channels)]) (tasks s1))
          | (Raise e, s1) => (Raise e, s1)
          | (RaisePy x, s1) => (RaisePy x, s1)
          end
      end
    else (Raise not_connected, s).
Proof.
  unfold unsubscribe. unfold bind at 1. unfold get_self at 1.
  destruct (is_connected (self s)); [|reflexivity]. simpl.
  unfold bind at 1. rewrite validate_channels_spec.
  destruct (first_foreign (self s) channels); [reflexivity|].
  unfold bind at 1.
  destruct (_send_message (Unsubscribe channels) r s) as [[[]|e|x] s1];
    reflexivity.
Qed.

Lemma publish_run channel event_type payload cid options r s :
  publish channel event_type payload cid options r s =
    if is_connected (self s) then
      if foreign (self s) channel then (Raise (tenant_error (self s) channel), s)
      else
        match payload with
        | DumpError cause =>
            (Raise (mkExn AxonPulsValidationError (MsgInvalidPayload cause)), s)
        | DumpRaised x => (RaisePy x, s)
        | Dumped text =>
            if MAX_PAYLOAD_BYTES <? Z.of_nat (String.length text)
            then (Raise (mkExn AxonPulsValidationError
                           (MsgPayloadSize (Z.of_nat (String.length text))
                                           MAX_PAYLOAD_BYTES)), s)
            else
              match _send_message (Publish channel event_type text cid options) r s with
              | (Return _, s1) =>
                  (Return tt,
                   mkSys (self s1)
                         (trace s1 ++ [EvLog (LogPublished event_type channel)])
                         (tasks s1))
              | (Raise e, s1) => (Raise e, s1)
              | (RaisePy x, s1) => (RaisePy x, s1)
              end
        end
    else (Raise not_connected, s).
Proof.
  unfold publish. unfold bind at 1. unfold get_self at 1.
  destruct (is_connected (self s)); [|reflexivity]. simpl.
  unfold bind at 1. rewrite validate_channel_spec.
  destruct (foreign (self s) channel); [reflexivity|].
  unfold bind at 1. rewrite validate_payload_size_spec.
  destruct payload as [text|cause|x]; [|reflexivity|reflexivity].
  destruct (MAX_PAYLOAD_BYTES <? _); [reflexivity|]. simpl payload_text.
  unfold bind at 1.
  destruct (_send_message _ r s) as [[[]|e|x] s1]; reflexivity.
Qed.

Lemma replay_run channel since_id count r s :
  replay channel since_id count r s =
    if is_connected (self s) then
      if foreign (self s) channel then (Raise (tenant_error (self s) channel), s)
      else
        match _send_message (Replay channel since_id count) r s with
        | (Return _, s1) =>
            (Return tt,
             mkSys (self s1) (trace s1 ++ [EvLog (LogReplayRequested channel)])
                   (tasks s1))
        | (Raise e, s1) => (Raise e, s1)
        | (RaisePy x, s1) => (RaisePy x, s1)
        end
    else (Raise not_connected, s).
Proof.
  unfold replay. unfold bind at 1. unfold get_self at 1.
  destruct (is_connected (self s)); [|reflexivity]. simpl.
  unfold bind at 1. rewrite validate_channel_spec.
  destruct (foreign (self s) channel); [reflexivity|].
  unfold bind at 1.
  destruct (_send_message _ r s) as [[[]|e|x] s1]; reflexivity.
Qed.

(** When no channel of the list is foreign, each has the prefix. *)
Lemma first_foreign_none c channels ch :
  first_foreign c channels = None -> In ch channels ->
  String.prefix (expected_prefix c) ch = true.
Proof.
  intros Hnone Hin. apply (find_none _ _ Hnone) in Hin.
  unfold foreign in Hin. apply negb_false_iff in Hin. exact Hin.
Qed.

Lemma first_foreign_all_valid c channels :
  (forall ch, In ch channels -> String.prefix (expected_prefix c) ch = true) ->
  first_foreign c channels = None.
Proof.
  unfold first_foreign. induction channels as [|a l IH]; intros Hall; simpl.
  - reflexivity.
  - unfold foreign at 1. rewrite (Hall a (or_introl eq_refl)). simpl.
    apply IH. intros ch Hin. apply Hall. right. exact Hin.
Qed.

Lemma size_union_list (X : gset string) (l : list string) :
  (size (X ∪ list_to_set l) <= size X + length l)%nat.
Proof.
  revert X. induction l as [|a l IH]; intros X; simpl.
  - rewrite (right_id_L ∅ (∪)). lia.
  - rewrite (assoc_L (∪)). specialize (IH (X ∪ {[a]})).
    assert (size (X ∪ {[a]}) <= size X + 1)%nat.
    { rewrite size_union_alt.
      assert (Hs : (size ({[a]} ∖ X : gset string) <= size ({[a]} : gset string))%nat)
        by (apply subseteq_size; set_solver).
      rewrite size_singleton in Hs. lia. }
    lia.
Qed.

End ChannelOps.

Section SessionInvariant.

Variables th cd : Z.

Implicit Types (s : Sys) (cb : CircuitBreaker).

Lemma breaker_ok_record_failure now cb :
  breaker_ok th cd cb -> breaker_ok th cd (record_failure now cb).
Proof.
  destruct cb as [th' cd' c st l]. unfold breaker_ok, record_failure. simpl.
  intros (-> & -> & Hth & Hc & Hclosed & Hopen).
  destruct (Z.leb_spec th (c + 1)); repeat split; intros; try lia;
    try congruence; eauto.
  destruct st; [congruence | |];
    (destruct Hopen as [Hle _]; [discriminate|lia]).
Qed.

Lemma breaker_ok_can_attempt now cb :
  breaker_ok th cd cb ->
  breaker_ok th cd (snd (can_attempt now cb)) /\
  (fst (can_attempt now cb) = true -> state (snd (can_attempt now cb)) <> OPEN).
Proof.
  destruct cb as [th' cd' c st l]. unfold breaker_ok, can_attempt. simpl.
  intros (-> & -> & Hth & Hc & Hclosed & Hopen).
  destruct st; simpl; [ | destruct l as [t|]; simpl; [destruct (_ <? _); simpl|] | ];
    repeat split; intros; try lia; try congruence; try discriminate; eauto;
    try (destruct Hopen as [Hle Hex]; [discriminate|]; solve [lia | eauto]).
Qed.

Lemma breaker_ok_record_success cb :
  breaker_ok th cd cb -> state cb <> OPEN ->
  breaker_ok th cd (record_success cb) /\
  state (record_success cb) = CLOSED /\ failure_count (record_success cb) = 0.
Proof.
  destruct cb as [th' cd' c st l]. unfold breaker_ok, record_success. simpl.
  intros (-> & -> & Hth & Hc & Hclosed & Hopen) Hno.
  destruct st; simpl; [|congruence|]; repeat split; intros; try lia; congruence.
Qed.

(** Leaves of [session_ok]: a write that leaves the client as it is. *)

Lemma session_ok_connect env : invariant (session_ok th cd) (connect env).
Proof.
  intros s (Hsub & (Hst & Hsock) & Hbr & Hat). unfold connect. mred.
  destruct (breaker_ok_can_attempt (now_attempt env) _ Hbr) as [Hbr1 Hno].
  destruct (connection_state (self s)) eqn:Hcs;
    [ | destruct Hst; discriminate | | destruct Hst; discriminate ].
  - destruct (can_attempt (now_attempt env) (circuit_breaker (self s)))
      as [[|] cb1]; simpl in *.
    + destruct (breaker_ok_record_success cb1 Hbr1 (Hno eq_refl)) as (Hbr2 & _).
      pose proof (breaker_ok_record_failure (now_failure env) cb1 Hbr1) as Hbr3.
      destruct (http_session (self s)); simpl;
        (destruct (transport env) as [ws|cause]; simpl;
         [ destruct (heartbeat_interval (config (self s))) as [i|];
           [destruct (0 <? i)|]; simpl | ]);
        (split; [exact Hsub|]); (split; [|split; [assumption | simpl; lia]]);
        (split; [simpl; auto|]); simpl; intros; try discriminate; eauto.
    + split; [exact Hsub|]. split; [|split; [exact Hbr1 | exact Hat]].
      split; [simpl; rewrite Hcs; auto | simpl; rewrite Hcs; discriminate].
  - simpl. unfold session_ok, connection_ok. rewrite Hcs. auto 10.
Qed.

Lemma session_ok_record_failure now s tr tk :
  session_ok th cd s ->
  session_ok th cd
    (mkSys (set_circuit_breaker (record_failure now (circuit_breaker (self s))) (self s))
           tr tk).
Proof.
  intros (Hsub & Hconn & Hbr & Hat).
  split; [exact Hsub|]. split; [exact Hconn|].
  split; [apply breaker_ok_record_failure; exact Hbr | exact Hat].
Qed.

Lemma session_ok_set_disconnected s tr tk :
  session_ok th cd s ->
  session_ok th cd (mkSys (set_connection_state DISCONNECTED (self s)) tr tk).
Proof.
  intros (Hsub & Hconn & Hbr & Hat).
  split; [exact Hsub|]. split; [|split; assumption].
  split; [left; reflexivity | discriminate].
Qed.

Lemma session_ok_next_attempt s tr tk :
  session_ok th cd s ->
  session_ok th cd
    (mkSys (set_reconnect_attempt (reconnect_attempt (self s) + 1) (self s)) tr tk).
Proof.
  intros (Hsub & Hconn & Hbr & Hat).
  split; [exact Hsub|]. split; [exact Hconn|]. split; [exact Hbr | simpl; lia].
Qed.

Lemma session_ok_unsubscribed (X : gset string) s tr tk :
  session_ok th cd s ->
  session_ok th cd
    (mkSys (set_subscriptions (subscriptions (self s) ∖ X) (self s)) tr tk).
Proof.
  intros ((Hpre & Hsize) & Hconn & Hbr & Hat).
  split; [|split; [exact Hconn | split; assumption]].
  split; simpl.
  - intros ch Hin. apply Hpre. set_solver.
  - assert (size (subscriptions (self s) ∖ X) <= size (subscriptions (self s)))%nat
      by (apply subseteq_size; set_solver).
    lia.
Qed.

Lemma session_ok_subscribed channels s tr tk :
  first_foreign (self s) channels = None ->
  Z.of_nat (length channels) + Z.of_nat (size (subscriptions (self s)))
    <= MAX_CHANNELS ->
  session_ok th cd s ->
  session_ok th cd
    (mkSys (set_subscriptions (subscriptions (self s) ∪ list_to_set channels) (self s))
           tr tk).
Proof.
  intros Hnone Hlim ((Hpre & Hsize) & Hconn & Hbr & Hat).
  split; [|split; [exact Hconn | split; assumption]].
  split; simpl.
  - intros ch [Hin|Hin]%elem_of_union; [apply Hpre, Hin|].
    apply elem_of_list_to_set, list_elem_of_In in Hin.
    apply (first_foreign_none _ _ _ Hnone Hin).
  - pose proof (size_union_list (subscriptions (self s)) channels). lia.
Qed.

(** What a write must keep for [session_ok]. *)
Ltac session_leaf :=
  intros ? ?;
  first [ assumption
        | apply session_ok_record_failure; assumption
        | apply session_ok_set_disconnected; assumption
        | apply session_ok_next_attempt; assumption
        | apply session_ok_unsubscribed; assumption ].

(** Once the state is Disconnected, the rest of [disconnect()] keeps the
    invariant wherever it ends. *)
Lemma session_ok_disconnect : invariant (session_ok th cd) disconnect.
Proof.
  intros s H. unfold disconnect. unfold bind at 1. unfold modify_self at 1.
  set (Q := fun s0 : Sys =>
              session_ok th cd s0 /\ connection_state (self s0) = DISCONNECTED).
  match goal with
  | |- session_ok th cd (snd (?rest ?s0)) =>
      assert (Hrest : invariant Q rest); [|apply (Hrest s0); split]
  end.
  - invariant_auto
      ltac:(intros ? [(Hsub & Hconn & Hbr & Hat) Hd];
            (split;
             [split; [exact Hsub|];
              split; [split; [left; exact Hd | intros Hc; simpl in Hc; congruence]|];
              split; assumption
             | exact Hd])).
  - apply session_ok_set_disconnected. exact H.
  - reflexivity.
Qed.

Lemma session_ok_send_message m r : invariant (session_ok th cd) (_send_message m r).
Proof. unfold _send_message. invariant_auto session_leaf. Qed.

Lemma session_ok_validate_channel ch : invariant (session_ok th cd) (_validate_channel ch).
Proof. unfold _validate_channel. invariant_auto session_leaf. Qed.

Lemma session_ok_validate_channels channels :
  invariant (session_ok th cd) (validate_channels channels).
Proof.
  induction channels as [|ch rest IH]; simpl; [apply invariant_ret|].
  apply invariant_bind; [apply session_ok_validate_channel | intros _; exact IH].
Qed.

Lemma session_ok_subscribe channels o r :
  invariant (session_ok th cd) (subscribe channels o r).
Proof.
  intros s H. rewrite subscribe_run.
  destruct (is_connected (self s)); [|exact H].
  destruct (Z.ltb_spec MAX_CHANNELS
              (Z.of_nat (length channels) + Z.of_nat (size (subscriptions (self s)))));
    [exact H|].
  destruct (first_foreign (self s) channels) eqn:Hf; [exact H|].
  rewrite send_message_run.
  destruct (websocket (self s)); [|exact H].
  destruct (is_connected (self s)); [|exact H].
  destruct r as [|cause now]; simpl.
  - apply session_ok_subscribed; assumption.
  - apply session_ok_record_failure, H.
Qed.

Lemma session_ok_unsubscribe channels r :
  invariant (session_ok th cd) (unsubscribe channels r).
Proof.
  pose proof (session_ok_validate_channels channels).
  pose proof (session_ok_send_message (Unsubscribe channels) r).
  unfold unsubscribe. invariant_auto session_leaf.
Qed.

Lemma session_ok_validate_payload_size p :
  invariant (session_ok th cd) (_validate_payload_size p).
Proof. unfold _validate_payload_size. invariant_auto session_leaf. Qed.

Lemma session_ok_publish ch ty p cid o r :
  invariant (session_ok th cd) (publish ch ty p cid o r).
Proof.
  pose proof (session_ok_validate_channel ch).
  pose proof (session_ok_validate_payload_size p).
  pose proof (session_ok_send_message (Publish ch ty (payload_text p) cid o) r).
  unfold publish. invariant_auto session_leaf.
Qed.

Lemma session_ok_replay ch sid n r : invariant (session_ok th cd) (replay ch sid n r).
Proof.
  pose proof (session_ok_validate_channel ch).
  pose proof (session_ok_send_message (Replay ch sid n) r).
  unfold replay. invariant_auto session_leaf.
Qed.

Lemma session_ok_handle_message now data :
  invariant (session_ok th cd) (_handle_message now data).
Proof. unfold _handle_message. invariant_auto session_leaf. Qed.

Lemma session_ok_spawn_reconnect : invariant (session_ok th cd) spawn_reconnect.
Proof. unfold spawn_reconnect. invariant_auto session_leaf. Qed.

Lemma session_ok_message_handler inbox ending :
  invariant (session_ok th cd) (_message_handler inbox ending).
Proof.
  pose proof session_ok_spawn_reconnect.
  induction inbox as [|[[data|] now] rest IH]; simpl.
  - invariant_auto session_leaf.
  - apply invariant_bind; [apply session_ok_handle_message | intros _; exact IH].
  - apply invariant_bind; [invariant_auto session_leaf | intros _; exact IH].
Qed.

Lemma session_ok_heartbeat_body t : invariant (session_ok th cd) (heartbeat_body t).
Proof.
  pose proof session_ok_spawn_reconnect. pose proof session_ok_disconnect.
  pose proof (session_ok_send_message Ping (tick_send t)).
  unfold heartbeat_body. invariant_auto session_leaf.
Qed.

Lemma session_ok_heartbeat_loop ticks : invariant (session_ok th cd) (_heartbeat_loop ticks).
Proof.
  induction ticks as [|t rest IH]; simpl.
  - invariant_auto session_leaf.
  - pose proof (session_ok_heartbeat_body t). invariant_auto session_leaf.
Qed.

Lemma session_ok_reconnect_body n env : invariant (session_ok th cd) (reconnect_body n env).
Proof.
  pose proof (session_ok_connect (connect_env env)).
  unfold reconnect_body.
  repeat (apply session_ok_subscribe || invariant_step session_leaf || invariant_case).
Qed.

Lemma session_ok_reconnect_loop n envs : invariant (session_ok th cd) (reconnect_loop n envs).
Proof.
  induction envs as [|env rest IH]; simpl.
  - invariant_auto session_leaf.
  - pose proof (session_ok_reconnect_body n env). invariant_auto session_leaf.
Qed.

Lemma session_ok_reconnect envs : invariant (session_ok th cd) (_reconnect envs).
Proof.
  unfold _reconnect. apply invariant_bind; [apply invariant_get_self|].
  intros c. apply session_ok_reconnect_loop.
Qed.

Lemma session_ok_step ev s : session_ok th cd s -> session_ok th cd (step ev s).
Proof.
  intros H. destruct ev; simpl; unfold run_call.
  - apply session_ok_connect, H.
  - apply session_ok_disconnect, H.
  - apply session_ok_subscribe, H.
  - apply session_ok_unsubscribe, H.
  - apply session_ok_publish, H.
  - apply session_ok_replay, H.
  - destruct (task_is _ _ _); [|exact H].
    exact (session_ok_message_handler inbox ending (start_task id s) H).
  - destruct (task_is _ _ _); [|exact H].
    pose proof (session_ok_heartbeat_loop ticks (start_task id s) H) as H'.
    destruct (_heartbeat_loop ticks (start_task id s)) as [[[|]|e|x] s']; exact H'.
  - destruct (task_is _ _ _); [|exact H].
    pose proof (session_ok_reconnect envs (start_task id s) H) as H'.
    destruct (_reconnect envs (start_task id s)) as [[[u|]|e|x] s']; exact H'.
Qed.

Lemma session_ok_run evs s : session_ok th cd s -> session_ok th cd (run evs s).
Proof.
  revert s. induction evs as [|ev rest IH]; intros s H; simpl; [exact H|].
  apply IH, session_ok_step, H.
Qed.

End SessionInvariant.

(** A client fresh from [__init__] satisfies the invariant, with the
    default threshold 5 and cooldown 60. *)
Lemma session_ok_init jwt_decode now cfg c logged :
  __init__ jwt_decode now cfg = (Return c, logged) ->
  session_ok 5 60 (new_session c logged).
Proof.
  unfold __init__, _extract_org_id_from_token.
  destruct (jwt_decode (token cfg)) as [payload|]; [|discriminate].
  destruct (payload !! "organizationId") as [o|]; [|discriminate].
  simpl. destruct (String.eqb o ""); simpl; [discriminate|].
  intros [= <- <-]. unfold session_ok, subscriptions_ok, connection_ok, breaker_ok.
  simpl. repeat split; intros; try lia; try discriminate; try congruence; auto.
Qed.

(** ** Invariants of every session *)

(** X3. In every session, after any sequence of API calls and task turns,
    each subscription held starts with ["org:<org_id>:"] for the
    organization of the token, and at most [MAX_CHANNELS] = 200 are
    held. *)
Theorem subscriptions_stay_in_tenant
    (jwt_decode : jwt_decoder) (now : time) (cfg : AxonPulsClientConfig)
    (c : Client) (logged : list effect) (evs : list event) :
  __init__ jwt_decode now cfg = (Return c, logged) ->
  let s := run evs (new_session c logged) in
  (forall ch, ch ∈ subscriptions (self s) ->
     String.prefix ("org:" +:+ org_id c +:+ ":") ch = true) /\
  Z.of_nat (size (subscriptions (self s))) <= 200.
Proof.
  intros Hinit s.
  destruct (session_ok_run 5 60 evs _ (session_ok_init _ _ _ _ _ Hinit))
    as ((Hpre & Hsize) & _).
  destruct (run_identity evs (new_session c logged)) as [Horg _].
  fold s in Hpre, Hsize, Horg. simpl in Horg.
  split; [|exact Hsize].
  intros ch Hin. specialize (Hpre ch Hin).
  unfold expected_prefix in Hpre. rewrite Horg in Hpre. exact Hpre.
Qed.

Lemma subscriptions_stay_in_tenant_witness :
  size (subscriptions (self (run sample_events sample_fresh))) = 2%nat /\
  forall ch, ch ∈ subscriptions (self (run sample_events sample_fresh)) ->
    String.prefix "org:acme:" ch = true.
Proof.
  assert (Hinit : __init__ sample_jwt 0 sample_config
                  = (Return sample_client, [EvLog (LogInitialized "acme")]))
    by (vm_compute; reflexivity).
  destruct (subscriptions_stay_in_tenant _ _ _ _ _ sample_events Hinit) as [Hpre _].
  split; [vm_compute; reflexivity | exact Hpre].
Defined.

(** X4. In every session, between any two events the client is either
    Disconnected or Connected (Connecting is left before [connect()]
    ends, Reconnecting is never entered), and a Connected client has a
    socket. *)
Theorem connection_state_settled
    (jwt_decode : jwt_decoder) (now : time) (cfg : AxonPulsClientConfig)
    (c : Client) (logged : list effect) (evs : list event) :
  __init__ jwt_decode now cfg = (Return c, logged) ->
  let s := run evs (new_session c logged) in
  (connection_state (self s) = DISCONNECTED \/
   connection_state (self s) = CONNECTED) /\
  (connection_state (self s) = CONNECTED ->
   exists ws, websocket (self s) = Some ws).
Proof.
  intros Hinit s.
  destruct (session_ok_run 5 60 evs _ (session_ok_init _ _ _ _ _ Hinit))
    as (_ & Hconn & _).
  exact Hconn.
Qed.

Lemma connection_state_settled_witness :
  connection_state (self (run sample_events sample_fresh)) = DISCONNECTED \/
  connection_state (self (run sample_events sample_fresh)) = CONNECTED.
Proof.
  assert (Hinit : __init__ sample_jwt 0 sample_config
                  = (Return sample_client, [EvLog (LogInitialized "acme")]))
    by (vm_compute; reflexivity).
  destruct (connection_state_settled _ _ _ _ _ sample_events Hinit) as [Hst _].
  exact Hst.
Defined.

(** X5. In every session the breaker keeps the default threshold 5 and
    cooldown 60 s; while it is Closed fewer than 5 failures are counted,
    and whenever it is Open or HalfOpen at least 5 are (so a failed probe
    reopens it) and the time of the last failure is known (so it heals
    once the cooldown has passed). *)
Theorem session_breaker_consistent
    (jwt_decode : jwt_decoder) (now : time) (cfg : AxonPulsClientConfig)
    (c : Client) (logged : list effect) (evs : list event) :
  __init__ jwt_decode now cfg = (Return c, logged) ->
  let cb := circuit_breaker (self (run evs (new_session c logged))) in
  failure_threshold cb = 5 /\ timeout_seconds cb = 60 /\
  0 <= failure_count cb /\
  (state cb = CLOSED -> failure_count cb < 5) /\
  (state cb <> CLOSED ->
     5 <= failure_count cb /\
     exists t, last_failure_time cb = Some t /\
       forall later, t + 60000000 < later -> fst (can_attempt later cb) = true).
Proof.
  intros Hinit cb.
  destruct (session_ok_run 5 60 evs _ (session_ok_init _ _ _ _ _ Hinit))
    as (_ & _ & (Hth & Hcd & _ & Hc & Hclosed & Hopen) & _).
  fold cb in Hth, Hcd, Hc, Hclosed, Hopen.
  split; [exact Hth|]. split; [exact Hcd|]. split; [exact Hc|].
  split; [exact Hclosed|].
  intros Hn. destruct (Hopen Hn) as (Hle & t & Ht).
  split; [exact Hle|]. exists t. split; [exact Ht|].
  intros later Hlater. unfold can_attempt. rewrite Ht, Hcd.
  destruct (state cb); [reflexivity| |reflexivity].
  unfold timedelta_seconds.
  destruct (Z.ltb_spec (60 * 1000000) (later - t)); [reflexivity|lia].
Qed.

Lemma session_breaker_consistent_witness :
  let cb := circuit_breaker (self (run sample_events sample_fresh)) in
  state cb = OPEN /\ 5 <= failure_count cb /\ fst (can_attempt 60000006 cb) = true.
Proof.
  intros cb.
  assert (Hinit : __init__ sample_jwt 0 sample_config
                  = (Return sample_client, [EvLog (LogInitialized "acme")]))
    by (vm_compute; reflexivity).
  destruct (session_breaker_consistent _ _ _ _ _ sample_events Hinit)
    as (_ & _ & _ & _ & Hopen).
  assert (Hst : state cb = OPEN) by (vm_compute; reflexivity).
  destruct Hopen as (Hle & t & Ht & Hheal); [vm_compute; discriminate|].
  split; [exact Hst|]. split; [exact Hle|].
  apply Hheal. vm_compute in Ht. injection Ht as <-. lia.
Defined.

(** ** The channel operations *)

(** X6. On a client that is not Connected, [subscribe], [unsubscribe],
    [publish] and [replay] raise [AxonPulsConnectionError] ("Not connected")
    before they look at their arguments: whatever the channels and the
    payload, nothing is validated, nothing is sent, the session is the
    same. *)
Theorem channel_operations_need_connection (s : Sys) :
  connection_state (self s) <> CONNECTED ->
  exc_class not_connected = AxonPulsConnectionError /\
  (forall channels options r,
     subscribe channels options r s = (Raise not_connected, s)) /\
  (forall channels r, unsubscribe channels r s = (Raise not_connected, s)) /\
  (forall channel event_type payload cid options r,
     publish channel event_type payload cid options r s = (Raise not_connected, s)) /\
  (forall channel since_id count r,
     replay channel since_id count r s = (Raise not_connected, s)).
Proof.
  intros Hnc.
  assert (Hic : is_connected (self s) = false).
  { unfold is_connected. destruct (connection_state (self s)); congruence. }
  split; [reflexivity|]. repeat split; intros.
  - rewrite subscribe_run, Hic. reflexivity.
  - rewrite unsubscribe_run, Hic. reflexivity.
  - rewrite publish_run, Hic. reflexivity.
  - rewrite replay_run, Hic. reflexivity.
Qed.

Lemma channel_operations_need_connection_witness :
  subscribe ["org:other:x"] None Sent sample_fresh = (Raise not_connected, sample_fresh) /\
  publish "org:other:x" "evt" (DumpError "not serializable") None None Sent sample_fresh
    = (Raise not_connected, sample_fresh).
Proof.
  destruct (channel_operations_need_connection sample_fresh) as (_ & Hs & _ & Hp & _).
  - vm_compute. discriminate.
  - split; [apply Hs | apply Hp].
Defined.

(** [unsubscribe] on a connected session whose request is sent. *)
Lemma unsubscribe_sent (s : Sys) (ws : nat) (channels : list string) :
  connection_state (self s) = CONNECTED ->
  websocket (self s) = Some ws ->
  (forall ch, In ch channels ->
     String.prefix (expected_prefix (self s)) ch = true) ->
  exists s',
    unsubscribe channels Sent s = (Return tt, s') /\
    subscriptions (self s') = subscriptions (self s) ∖ list_to_set channels /\
    (forall ch, In ch channels -> ch ∉ subscriptions (self s')) /\
    (list_to_set channels ## subscriptions (self s) ->
       subscriptions (self s') = subscriptions (self s)) /\
    sends (trace s') = sends (trace s) ++ [EvSend (Unsubscribe channels) Sent] /\
    self s' = set_subscriptions (subscriptions (self s) ∖ list_to_set channels) (self s).
Proof.
  intros Hconn Hws Hvalid.
  assert (Hic : is_connected (self s) = true)
    by (unfold is_connected; rewrite Hconn; reflexivity).
  assert (Hf : first_foreign (self s) channels = None)
    by (apply first_foreign_all_valid; exact Hvalid).
  eexists. split.
  { rewrite unsubscribe_run, Hic, Hf, send_message_run, Hws, Hic. reflexivity. }
  simpl. split; [reflexivity|]. split.
  { intros ch Hin. apply not_elem_of_difference. right.
    apply elem_of_list_to_set, list_elem_of_In. exact Hin. }
  split; [intros Hdisj; set_solver|].
  split; [|reflexivity].
  rewrite !sends_snoc. simpl. rewrite app_nil_r. reflexivity.
Qed.

(** X7. On a connected client, [unsubscribe] of channels of the tenant
    whose request is sent returns; the set is the old one without those
    channels, so none of them is held afterwards; channels that were not
    held are no error, and the request is sent all the same. Nothing else
    of the client changes. *)
Theorem unsubscribe_removes (s : Sys) (ws : nat) (channels : list string) :
  connection_state (self s) = CONNECTED ->
  websocket (self s) = Some ws ->
  (forall ch, In ch channels ->
     String.prefix (expected_prefix (self s)) ch = true) ->
  exists s',
    unsubscribe channels Sent s = (Return tt, s') /\
    subscriptions (self s') = subscriptions (self s) ∖ list_to_set channels /\
    (forall ch, In ch channels -> ch ∉ subscriptions (self s')) /\
    (list_to_set channels ## subscriptions (self s) ->
       subscriptions (self s') = subscriptions (self s)) /\
    sends (trace s') = sends (trace s) ++ [EvSend (Unsubscribe channels) Sent] /\
    self s' = set_subscriptions (subscriptions (self s) ∖ list_to_set channels) (self s).
Proof. exact (unsubscribe_sent s ws channels). Qed.

Lemma unsubscribe_removes_witness :
  exists s',
    unsubscribe ["org:acme:a"; "org:acme:zzz"] Sent sample_subscribed = (Return tt, s') /\
    subscriptions (self s') = {[ "org:acme:b" ]}.
Proof.
  destruct (unsubscribe_removes sample_subscribed 1%nat ["org:acme:a"; "org:acme:zzz"])
    as (s' & Hrun & Hsubs & _).
  - vm_compute. reflexivity.
  - vm_compute. reflexivity.
  - intros ch [<- | [<- | []]]; vm_compute; reflexivity.
  - exists s'. split; [exact Hrun|]. rewrite Hsubs. vm_compute. reflexivity.
Defined.

(** X8. On a connected client, [subscribe] of channels of the tenant within
    the limit, then [unsubscribe] of the same channels, both requests
    sent: both return; after the first every channel is held along with
    the old ones; after the second the set is the old one without those
    channels, hence the old one when they were fresh. Exactly the two
    requests were sent, in that order. *)
Theorem subscribe_unsubscribe_round_trip
    (s : Sys) (ws : nat) (channels : list string) (options : option SubscribeOptions) :
  connection_state (self s) = CONNECTED ->
  websocket (self s) = Some ws ->
  (forall ch, In ch channels ->
     String.prefix (expected_prefix (self s)) ch = true) ->
  Z.of_nat (length channels) + Z.of_nat (size (subscriptions (self s)))
    <= MAX_CHANNELS ->
  exists s1 s2,
    subscribe channels options Sent s = (Return tt, s1) /\
    (forall ch, In ch channels -> ch ∈ subscriptions (self s1)) /\
    subscriptions (self s) ⊆ subscriptions (self s1) /\
    unsubscribe channels Sent s1 = (Return tt, s2) /\
    subscriptions (self s2) = subscriptions (self s) ∖ list_to_set channels /\
    (list_to_set channels ## subscriptions (self s) ->
       subscriptions (self s2) = subscriptions (self s)) /\
    sends (trace s2) =
      sends (trace s) ++ [EvSend (Subscribe channels options) Sent;
                          EvSend (Unsubscribe channels) Sent].
Proof.
  intros Hconn Hws Hvalid Hlim.
  assert (Hic : is_connected (self s) = true)
    by (unfold is_connected; rewrite Hconn; reflexivity).
  assert (Hf : first_foreign (self s) channels = None)
    by (apply first_foreign_all_valid; exact Hvalid).
  set (s1 := mkSys (set_subscriptions
                      (subscriptions (self s) ∪ list_to_set channels) (self s))
                   ((trace s ++ [EvSend (Subscribe channels options) Sent])
                      ++ [EvLog (LogSubscribed channels)])
                   (tasks s)).
  assert (Hrun1 : subscribe channels options Sent s = (Return tt, s1)).
  { rewrite subscribe_run, Hic.
    destruct (Z.ltb_spec MAX_CHANNELS
      (Z.of_nat (length channels) + Z.of_nat (size (subscriptions (self s))))); [lia|].
    rewrite Hf, send_message_run, Hws, Hic. reflexivity. }
  destruct (unsubscribe_sent s1 ws channels Hconn Hws Hvalid)
    as (s2 & Hrun2 & Hsubs2 & _ & _ & Hsends2 & _).
  exists s1, s2. split; [exact Hrun1|].
  assert (Hsubs1 : subscriptions (self s1)
                   = subscriptions (self s) ∪ list_to_set channels) by reflexivity.
  split.
  { intros ch Hin. rewrite Hsubs1. apply elem_of_union. right.
    apply elem_of_list_to_set, list_elem_of_In. exact Hin. }
  split; [rewrite Hsubs1; apply union_subseteq_l|].
  split; [exact Hrun2|].
  split; [rewrite Hsubs2, Hsubs1; clear; set_solver|].
  split; [intros Hdisj; rewrite Hsubs2, Hsubs1; clear -Hdisj; set_solver|].
  rewrite Hsends2. subst s1. cbn [trace]. rewrite !sends_snoc. simpl.
  rewrite app_nil_r, <- app_assoc. reflexivity.
Qed.

Lemma subscribe_unsubscribe_round_trip_witness :
  exists s1 s2,
    subscribe ["org:acme:c"] None Sent sample_subscribed = (Return tt, s1) /\
    unsubscribe ["org:acme:c"] Sent s1 = (Return tt, s2) /\
    subscriptions (self s2) = subscriptions (self sample_subscribed).
Proof.
  destruct (subscribe_unsubscribe_round_trip sample_subscribed 1%nat ["org:acme:c"] None)
    as (s1 & s2 & Hrun1 & _ & _ & Hrun2 & _ & Hfresh & _).
  - vm_compute. reflexivity.
  - vm_compute. reflexivity.
  - intros ch [<- | []]. vm_compute. reflexivity.
  - vm_compute. discriminate.
  - exists s1, s2. split; [exact Hrun1|]. split; [exact Hrun2|].
    apply Hfresh. apply elem_of_disjoint. intros ch Hin1 Hin2.
    apply elem_of_list_to_set, list_elem_of_In in Hin1. destruct Hin1 as [<- | []].
    revert Hin2. vm_compute. discriminate.
Defined.

(** X9. On a connected client, [publish] on a channel of the tenant accepts
    a payload whose JSON text has up to [MAX_PAYLOAD_BYTES] bytes, the
    bound included: it sends exactly one publish request, carrying that
    text, and leaves the client as it was. A payload for which
    [json.dumps] raises [TypeError] or [ValueError] is refused with
    [AxonPulsValidationError] ("Invalid payload"); any other exception of
    [json.dumps], as the [RecursionError] of a payload nested too deep,
    leaves [publish] as it is, not wrapped. In both cases nothing is sent
    and the session is unchanged. *)
Theorem publish_accepts_up_to_limit
    (s : Sys) (ws : nat) (channel event_type : string) (cid : option string)
    (options : option PublishOptions) :
  connection_state (self s) = CONNECTED ->
  websocket (self s) = Some ws ->
  String.prefix (expected_prefix (self s)) channel = true ->
  (forall text, Z.of_nat (String.length text) <= MAX_PAYLOAD_BYTES ->
     exists s',
       publish channel event_type (Dumped text) cid options Sent s = (Return tt, s') /\
       self s' = self s /\ tasks s' = tasks s /\
       sends (trace s') =
         sends (trace s) ++ [EvSend (Publish channel event_type text cid options) Sent]) /\
  (forall cause r,
     publish channel event_type (DumpError cause) cid options r s =
       (Raise (mkExn AxonPulsValidationError (MsgInvalidPayload cause)), s)) /\
  (forall x r,
     publish channel event_type (DumpRaised x) cid options r s = (RaisePy x, s)).
Proof.
  intros Hconn Hws Hpre.
  assert (Hic : is_connected (self s) = true)
    by (unfold is_connected; rewrite Hconn; reflexivity).
  assert (Hf : foreign (self s) channel = false)
    by (unfold foreign; rewrite Hpre; reflexivity).
  split.
  - intros text Hsize. eexists. split.
    { rewrite publish_run, Hic, Hf.
      destruct (Z.ltb_spec MAX_PAYLOAD_BYTES (Z.of_nat (String.length text))); [lia|].
      rewrite send_message_run, Hws, Hic. reflexivity. }
    simpl. repeat split.
    rewrite !sends_snoc. simpl. rewrite app_nil_r. reflexivity.
  - split.
    + intros cause r. rewrite publish_run, Hic, Hf. reflexivity.
    + intros x r. rewrite publish_run, Hic, Hf. reflexivity.
Qed.

(** A payload of exactly 1048576 bytes is published; a payload nested too
    deep for [json.dumps] gives its [RecursionError]. *)
Lemma publish_accepts_up_to_limit_witness :
  Z.of_nat (String.length (doubled 20 "a")) = MAX_PAYLOAD_BYTES /\
  (exists s',
     publish "org:acme:a" "evt" (Dumped (doubled 20 "a")) None None Sent sample_connected
       = (Return tt, s') /\
     self s' = self sample_connected) /\
  publish "org:acme:a" "evt"
          (DumpRaised (mkPyExn "RecursionError"
                               "maximum recursion depth exceeded while encoding a JSON object"))
          None None Sent sample_connected
    = (RaisePy (mkPyExn "RecursionError"
                        "maximum recursion depth exceeded while encoding a JSON object"),
       sample_connected).
Proof.
  assert (Hlen : Z.of_nat (String.length (doubled 20 "a")) = MAX_PAYLOAD_BYTES)
    by (vm_compute; reflexivity).
  split; [exact Hlen|].
  destruct (publish_accepts_up_to_limit sample_connected 1%nat "org:acme:a" "evt" None None)
    as (Hok & _ & Hother).
  - vm_compute. reflexivity.
  - vm_compute. reflexivity.
  - vm_compute. reflexivity.
  - split; [|apply Hother].
    destruct (Hok (doubled 20 "a")) as (s' & Hrun & Hself & _); [rewrite Hlen; lia|].
    exists s'. split; [exact Hrun | exact Hself].
Defined.

(** X10. On a connected client, [replay] of a channel outside the tenant
    raises [AxonPulsTenantIsolationError] and sends nothing; of a channel
    of the tenant it sends exactly one replay request with the given
    [since_id] and [count], and changes nothing of the client: neither the
    subscriptions nor the last seen positions. *)
Theorem replay_request
    (s : Sys) (ws : nat) (channel : string) (since_id : option string) (count : Z) :
  connection_state (self s) = CONNECTED ->
  websocket (self s) = Some ws ->
  (String.prefix (expected_prefix (self s)) channel = false ->
     forall r, replay channel since_id count r s
               = (Raise (tenant_error (self s) channel), s)) /\
  (String.prefix (expected_prefix (self s)) channel = true ->
     exists s',
       replay channel since_id count Sent s = (Return tt, s') /\
       self s' = self s /\ tasks s' = tasks s /\
       sends (trace s') =
         sends (trace s) ++ [EvSend (Replay channel since_id count) Sent]).
Proof.
  intros Hconn Hws.
  assert (Hic : is_connected (self s) = true)
    by (unfold is_connected; rewrite Hconn; reflexivity).
  split.
  - intros Hpre r. rewrite replay_run, Hic. unfold foreign. rewrite Hpre. reflexivity.
  - intros Hpre. eexists. split.
    { rewrite replay_run, Hic. unfold foreign. rewrite Hpre. simpl negb. cbv iota.
      rewrite send_message_run, Hws, Hic. reflexivity. }
    simpl. repeat split.
    rewrite !sends_snoc. simpl. rewrite app_nil_r. reflexivity.
Qed.

Lemma replay_request_witness :
  exists s',
    replay "org:acme:a" (Some "1-0") 100 Sent sample_connected = (Return tt, s') /\
    sends (trace s') = [EvSend (Replay "org:acme:a" (Some "1-0") 100) Sent].
Proof.
  destruct (replay_request sample_connected 1%nat "org:acme:a" (Some "1-0") 100)
    as [_ Hok].
  - vm_compute. reflexivity.
  - vm_compute. reflexivity.
  - destruct Hok as (s' & Hrun & _ & _ & Hsends); [vm_compute; reflexivity|].
    exists s'. split; [exact Hrun|]. rewrite Hsends. vm_compute. reflexivity.
Defined.

(** X11. On a connected client, when the send of a valid request fails,
    [subscribe], [unsubscribe], [publish] and [replay] all raise
    [AxonPulsConnectionError] ("Failed to send message") and leave the
    same client behind: the failure is recorded in the breaker, the client
    stays Connected with its socket, and the subscriptions are what they
    were. *)
Theorem send_failure_recorded
    (s : Sys) (ws : nat) (cause : string) (now : time) :
  connection_state (self s) = CONNECTED ->
  websocket (self s) = Some ws ->
  let failed := set_circuit_breaker
                  (record_failure now (circuit_breaker (self s))) (self s) in
  let e := mkExn AxonPulsConnectionError (MsgSendFailed cause) in
  (connection_state failed = CONNECTED /\ websocket failed = Some ws /\
   subscriptions failed = subscriptions (self s) /\
   failure_count (circuit_breaker failed)
     = failure_count (circuit_breaker (self s)) + 1 /\
   last_failure_time (circuit_breaker failed) = Some now) /\
  (forall channels options,
     (forall ch, In ch channels ->
        String.prefix (expected_prefix (self s)) ch = true) ->
     Z.of_nat (length channels) + Z.of_nat (size (subscriptions (self s)))
       <= MAX_CHANNELS ->
     exists s', subscribe channels options (SendFailed cause now) s = (Raise e, s') /\
                self s' = failed) /\
  (forall channels,
     (forall ch, In ch channels ->
        String.prefix (expected_prefix (self s)) ch = true) ->
     exists s', unsubscribe channels (SendFailed cause now) s = (Raise e, s') /\
                self s' = failed) /\
  (forall channel event_type text cid options,
     String.prefix (expected_prefix (self s)) channel = true ->
     Z.of_nat (String.length text) <= MAX_PAYLOAD_BYTES ->
     exists s', publish channel event_type (Dumped text) cid options
                        (SendFailed cause now) s = (Raise e, s') /\
                self s' = failed) /\
  (forall channel since_id count,
     String.prefix (expected_prefix (self s)) channel = true ->
     exists s', replay channel since_id count (SendFailed cause now) s = (Raise e, s') /\
                self s' = failed).
Proof.
  intros Hconn Hws failed e.
  assert (Hic : is_connected (self s) = true)
    by (unfold is_connected; rewrite Hconn; reflexivity).
  split; [subst failed; simpl; auto|].
  split; [|split; [|split]].
  - intros channels options Hvalid Hlim. eexists. split.
    { rewrite subscribe_run, Hic.
      destruct (Z.ltb_spec MAX_CHANNELS
        (Z.of_nat (length channels) + Z.of_nat (size (subscriptions (self s))))); [lia|].
      rewrite (first_foreign_all_valid _ _ Hvalid), send_message_run, Hws, Hic.
      reflexivity. }
    reflexivity.
  - intros channels Hvalid. eexists. split.
    { rewrite unsubscribe_run, Hic.
      rewrite (first_foreign_all_valid _ _ Hvalid), send_message_run, Hws, Hic.
      reflexivity. }
    reflexivity.
  - intros channel event_type text cid options Hpre Hsize. eexists. split.
    { rewrite publish_run, Hic. unfold foreign. rewrite Hpre. simpl negb. cbv iota.
      destruct (Z.ltb_spec MAX_PAYLOAD_BYTES (Z.of_nat (String.length text))); [lia|].
      rewrite send_message_run, Hws, Hic. reflexivity. }
    reflexivity.
  - intros channel since_id count Hpre. eexists. split.
    { rewrite replay_run, Hic. unfold foreign. rewrite Hpre. simpl negb. cbv iota.
      rewrite send_message_run, Hws, Hic. reflexivity. }
    reflexivity.
Qed.

Lemma send_failure_recorded_witness :
  exists s',
    publish "org:acme:a" "evt" (Dumped "{}") None None (SendFailed "closed" 7)
            sample_connected
      = (Raise (mkExn AxonPulsConnectionError (MsgSendFailed "closed")), s') /\
    connection_state (self s') = CONNECTED /\
    failure_count (circuit_breaker (self s')) = 1.
Proof.
  destruct (send_failure_recorded sample_connected 1%nat "closed" 7)
    as ((Hst & _ & _ & Hcount & _) & _ & _ & Hp & _).
  - vm_compute. reflexivity.
  - vm_compute. reflexivity.
  - destruct (Hp "org:acme:a" "evt" "{}" None None) as (s' & Hrun & Hself).
    + vm_compute. reflexivity.
    + vm_compute. discriminate.
    + exists s'. split; [exact Hrun|]. rewrite Hself.
      split; [exact Hst|]. rewrite Hcount. vm_compute. reflexivity.
Defined.

(** ** connect and disconnect *)

Section ConnectDisconnect.

Implicit Types (s : Sys) (env : ConnectEnv).

Lemma transport_connects_snoc tr e :
  transport_connects (tr ++ [e]) =
  (transport_connects tr + if is_transport_connect e then 1 else 0)%nat.
Proof.
  unfold transport_connects. rewrite List.filter_app, length_app. simpl.
  destruct (is_transport_connect e); reflexivity.
Qed.

Lemma closes_snoc tr e :
  closes (tr ++ [e]) = closes tr ++ (if is_close e then [e] else []).
Proof.
  unfold closes. rewrite List.filter_app. simpl. destruct (is_close e); reflexivity.
Qed.

(** An attempt that the breaker admits leaves it Closed or HalfOpen. *)
Lemma can_attempt_admitted now cb :
  fst (can_attempt now cb) = true ->
  state (snd (can_attempt now cb)) <> OPEN /\
  failure_threshold (snd (can_attempt now cb)) = failure_threshold cb /\
  timeout_seconds (snd (can_attempt now cb)) = timeout_seconds cb /\
  failure_count (snd (can_attempt now cb)) = failure_count cb.
Proof.
  unfold can_attempt. destruct (state cb) eqn:Hs; simpl.
  - intros _. rewrite Hs. repeat split. discriminate.
  - destruct (last_failure_time cb); [|discriminate].
    destruct (_ <? _); [|discriminate]. simpl. repeat split. discriminate.
  - intros _. rewrite Hs. repeat split. discriminate.
Qed.

End ConnectDisconnect.

(** [connect()] when the breaker admits it and the transport opens. *)
Lemma connect_on_open (env : ConnectEnv) (s : Sys) (ws : nat) :
  connection_state (self s) <> CONNECTED ->
  connection_state (self s) <> CONNECTING ->
  fst (can_attempt (now_attempt env) (circuit_breaker (self s))) = true ->
  transport env = Opened ws ->
  exists s',
    connect env s = (Return tt, s') /\
    connection_state (self s') = CONNECTED /\
    websocket (self s') = Some ws /\
    state (circuit_breaker (self s')) = CLOSED /\
    failure_count (circuit_breaker (self s')) = 0 /\
    reconnect_attempt (self s') = 0 /\
    subscriptions (self s') = subscriptions (self s) /\
    sends (trace s') = sends (trace s) /\
    transport_connects (trace s') = S (transport_connects (trace s)) /\
    tasks s' !! length (tasks s) = Some (mkTask MessageHandlerTask Active) /\
    match heartbeat_interval (config (self s)) with
    | Some i =>
        if 0 <? i
        then tasks s' = tasks s ++ [mkTask MessageHandlerTask Active;
                                    mkTask HeartbeatTask Active] /\
             _heartbeat_task (self s') = Some (S (length (tasks s)))
        else tasks s' = tasks s ++ [mkTask MessageHandlerTask Active] /\
             _heartbeat_task (self s') = _heartbeat_task (self s)
    | None => tasks s' = tasks s ++ [mkTask MessageHandlerTask Active] /\
              _heartbeat_task (self s') = _heartbeat_task (self s)
    end.
Proof.
  intros Hnc Hncg Hadm Htr.
  destruct (can_attempt_admitted _ _ Hadm) as (Hno & _).
  unfold connect, create_task. mred.
  destruct (can_attempt (now_attempt env) (circuit_breaker (self s))) as [a cb1].
  simpl in Hadm, Hno. subst a. rewrite Htr.
  assert (Hrs : state (record_success cb1) = CLOSED /\
                failure_count (record_success cb1) = 0).
  { unfold record_success. simpl. destruct (state cb1); [auto|congruence|auto]. }
  destruct Hrs as [Hrs1 Hrs2].
  destruct (connection_state (self s)); try congruence; simpl;
    destruct (http_session (self s)); simpl;
    (destruct (heartbeat_interval (config (self s))) as [i|];
     [destruct (0 <? i)|]); simpl;
    eexists; (split; [reflexivity|]); simpl;
    rewrite ?length_app; simpl;
    repeat split; try assumption;
    try (rewrite !sends_snoc; simpl; rewrite ?app_nil_r; reflexivity);
    try (rewrite !transport_connects_snoc; simpl; lia);
    try (rewrite <- ?app_assoc; simpl; apply list_lookup_middle; reflexivity);
    try (rewrite <- ?app_assoc; reflexivity);
    try (f_equal; lia).
Qed.

(** X12. A [connect()] that the breaker admits and whose transport opens,
    from a state that is neither Connected nor Connecting: it returns; the
    client is Connected with the new socket; the breaker is Closed with no
    failure counted, whether it was Closed or on probation; the attempt
    counter is 0; the subscriptions are untouched; [websockets.connect]
    was called once. A read-loop task is created, and a heartbeat task
    exactly when [heartbeat_interval] is configured above 0: with the
    configuration default [None] there is no liveness monitor. *)
Theorem connect_success (env : ConnectEnv) (s : Sys) (ws : nat) :
  connection_state (self s) <> CONNECTED ->
  connection_state (self s) <> CONNECTING ->
  fst (can_attempt (now_attempt env) (circuit_breaker (self s))) = true ->
  transport env = Opened ws ->
  exists s',
    connect env s = (Return tt, s') /\
    connection_state (self s') = CONNECTED /\
    websocket (self s') = Some ws /\
    state (circuit_breaker (self s')) = CLOSED /\
    failure_count (circuit_breaker (self s')) = 0 /\
    reconnect_attempt (self s') = 0 /\
    subscriptions (self s') = subscriptions (self s) /\
    sends (trace s') = sends (trace s) /\
    transport_connects (trace s') = S (transport_connects (trace s)) /\
    tasks s' !! length (tasks s) = Some (mkTask MessageHandlerTask Active) /\
    match heartbeat_interval (config (self s)) with
    | Some i =>
        if 0 <? i
        then tasks s' = tasks s ++ [mkTask MessageHandlerTask Active;
                                    mkTask HeartbeatTask Active] /\
             _heartbeat_task (self s') = Some (S (length (tasks s)))
        else tasks s' = tasks s ++ [mkTask MessageHandlerTask Active] /\
             _heartbeat_task (self s') = _heartbeat_task (self s)
    | None => tasks s' = tasks s ++ [mkTask MessageHandlerTask Active] /\
              _heartbeat_task (self s') = _heartbeat_task (self s)
    end.
Proof. exact (connect_on_open env s ws). Qed.

(** With the default configuration only the read loop is started. *)
Lemma connect_success_witness :
  exists s',
    connect (mkConnectEnv 0 (Opened 1) 0) sample_no_heartbeat = (Return tt, s') /\
    connection_state (self s') = CONNECTED /\
    tasks s' = [mkTask MessageHandlerTask Active].
Proof.
  destruct (connect_success (mkConnectEnv 0 (Opened 1) 0) sample_no_heartbeat 1%nat)
    as (s' & Hrun & Hst & _ & _ & _ & _ & _ & _ & _ & _ & Htasks).
  - vm_compute. discriminate.
  - vm_compute. discriminate.
  - vm_compute. reflexivity.
  - reflexivity.
  - exists s'. split; [exact Hrun|]. split; [exact Hst|].
    simpl in Htasks. destruct Htasks as [Htasks _]. exact Htasks.
Defined.

(** [connect()] when the breaker admits it and the transport fails. *)
Lemma connect_on_failure (env : ConnectEnv) (s : Sys) (cause : string) :
  connection_state (self s) <> CONNECTED ->
  connection_state (self s) <> CONNECTING ->
  fst (can_attempt (now_attempt env) (circuit_breaker (self s))) = true ->
  transport env = OpenFailed cause ->
  exists s',
    connect env s =
      (Raise (mkExn AxonPulsConnectionError (MsgConnectionFailed cause)), s') /\
    connection_state (self s') = DISCONNECTED /\
    circuit_breaker (self s') =
      record_failure (now_failure env)
        (snd (can_attempt (now_attempt env) (circuit_breaker (self s)))) /\
    failure_count (circuit_breaker (self s'))
      = failure_count (circuit_breaker (self s)) + 1 /\
    last_failure_time (circuit_breaker (self s')) = Some (now_failure env) /\
    subscriptions (self s') = subscriptions (self s) /\
    websocket (self s') = websocket (self s) /\
    reconnect_attempt (self s') = reconnect_attempt (self s) /\
    http_session (self s') = true /\
    tasks s' = tasks s /\
    transport_connects (trace s') = S (transport_connects (trace s)).
Proof.
  intros Hnc Hncg Hadm Htr.
  destruct (can_attempt_admitted _ _ Hadm) as (_ & _ & _ & Hcount).
  unfold connect. mred.
  destruct (can_attempt (now_attempt env) (circuit_breaker (self s))) as [a cb1].
  simpl in Hadm, Hcount. subst a. rewrite Htr.
  destruct (connection_state (self s)); try congruence; simpl;
    destruct (http_session (self s)) eqn:Hhttp; simpl;
    eexists; (split; [reflexivity|]); simpl;
    repeat split;
    first [ assumption
          | rewrite Hcount; reflexivity
          | rewrite !transport_connects_snoc; simpl; lia ].
Qed.

(** X13. A [connect()] that the breaker admits and whose transport fails,
    from a state that is neither Connected nor Connecting: it raises
    [AxonPulsConnectionError] ("Connection failed") with the cause; the
    client is Disconnected; the failure is recorded in the breaker with
    its time; the subscriptions, the socket and the attempt counter are
    untouched; no task is created; and the HTTP session opened for the
    attempt stays open. *)
Theorem connect_transport_failure (env : ConnectEnv) (s : Sys) (cause : string) :
  connection_state (self s) <> CONNECTED ->
  connection_state (self s) <> CONNECTING ->
  fst (can_attempt (now_attempt env) (circuit_breaker (self s))) = true ->
  transport env = OpenFailed cause ->
  exists s',
    connect env s =
      (Raise (mkExn AxonPulsConnectionError (MsgConnectionFailed cause)), s') /\
    connection_state (self s') = DISCONNECTED /\
    circuit_breaker (self s') =
      record_failure (now_failure env)
        (snd (can_attempt (now_attempt env) (circuit_breaker (self s)))) /\
    failure_count (circuit_breaker (self s'))
      = failure_count (circuit_breaker (self s)) + 1 /\
    last_failure_time (circuit_breaker (self s')) = Some (now_failure env) /\
    subscriptions (self s') = subscriptions (self s) /\
    websocket (self s') = websocket (self s) /\
    reconnect_attempt (self s') = reconnect_attempt (self s) /\
    http_session (self s') = true /\
    tasks s' = tasks s /\
    transport_connects (trace s') = S (transport_connects (trace s)).
Proof. exact (connect_on_failure env s cause). Qed.

Lemma connect_transport_failure_witness :
  exists s',
    connect (refused_at 9) sample_fresh =
      (Raise (mkExn AxonPulsConnectionError (MsgConnectionFailed "refused")), s') /\
    connection_state (self s') = DISCONNECTED /\
    failure_count (circuit_breaker (self s')) = 1.
Proof.
  destruct (connect_transport_failure (refused_at 9) sample_fresh "refused")
    as (s' & Hrun & Hst & _ & Hcount & _).
  - vm_compute. discriminate.
  - vm_compute. discriminate.
  - vm_compute. reflexivity.
  - reflexivity.
  - exists s'. split; [exact Hrun|]. split; [exact Hst|].
    rewrite Hcount. vm_compute. reflexivity.
Defined.

(** Failed [connect()] calls on a Closed breaker, as long as the threshold
    is not passed. *)
Lemma run_failed_connects (envs : list ConnectEnv) (s : Sys) :
  connection_state (self s) = DISCONNECTED ->
  state (circuit_breaker (self s)) = CLOSED ->
  failure_count (circuit_breaker (self s)) + Z.of_nat (length envs)
    <= failure_threshold (circuit_breaker (self s)) ->
  Forall (fun env => exists cause, transport env = OpenFailed cause) envs ->
  let s' := run (map CallConnect envs) s in
  connection_state (self s') = DISCONNECTED /\
  circuit_breaker (self s')
    = record_failures (map now_failure envs) (circuit_breaker (self s)) /\
  subscriptions (self s') = subscriptions (self s) /\
  transport_connects (trace s')
    = (transport_connects (trace s) + length envs)%nat.
Proof.
  intros Hst Hcl Hle Hall. revert s Hst Hcl Hle.
  induction Hall as [|env rest [cause Htr] Hall IH]; intros s Hst Hcl Hle; simpl.
  - repeat split; [assumption | lia].
  - assert (Hadm : can_attempt (now_attempt env) (circuit_breaker (self s))
                   = (true, circuit_breaker (self s))).
    { unfold can_attempt. rewrite Hcl. reflexivity. }
    destruct (connect_on_failure env s cause)
      as (s1 & Hrun & Hst1 & Hcb1 & Hcount1 & _ & Hsubs1 & _ & _ & _ & _ & Htc1);
      [rewrite Hst; discriminate | rewrite Hst; discriminate
       | rewrite Hadm; reflexivity | exact Htr |].
    rewrite Hadm in Hcb1. simpl in Hcb1.
    unfold run_call. rewrite Hrun. simpl.
    destruct rest as [|env2 rest2].
    + simpl. rewrite Hcb1, Hsubs1, Htc1. repeat split; try assumption. lia.
    + simpl length in Hle.
      assert (Hcl1 : state (circuit_breaker (self s1)) = CLOSED).
      { rewrite Hcb1. unfold record_failure. simpl. rewrite Hcl.
        destruct (Z.leb_spec (failure_threshold (circuit_breaker (self s)))
                    (failure_count (circuit_breaker (self s)) + 1)); [lia|reflexivity]. }
      destruct (IH s1 Hst1 Hcl1) as (Hst' & Hcb' & Hsubs' & Htc').
      { rewrite Hcount1.
        replace (failure_threshold (circuit_breaker (self s1)))
          with (failure_threshold (circuit_breaker (self s)))
          by (rewrite Hcb1; reflexivity).
        simpl length. lia. }
      split; [exact Hst'|]. split; [rewrite Hcb', Hcb1; reflexivity|].
      split; [congruence|]. rewrite Htc', Htc1. simpl. lia.
Qed.

(** X14. Starting Disconnected with a Closed breaker that has counted no
    failure, [threshold] consecutive [connect()] calls whose transport
    fails all reach the transport, and the last one opens the breaker.
    From then until the cooldown has passed, a further [connect()] raises
    without calling the transport and without changing the session. *)
Theorem failed_connects_open_breaker
    (envs : list ConnectEnv) (last : ConnectEnv) (s : Sys) :
  connection_state (self s) = DISCONNECTED ->
  state (circuit_breaker (self s)) = CLOSED ->
  failure_count (circuit_breaker (self s)) = 0 ->
  Z.of_nat (length (envs ++ [last])) = failure_threshold (circuit_breaker (self s)) ->
  Forall (fun env => exists cause, transport env = OpenFailed cause) (envs ++ [last]) ->
  let s' := run (map CallConnect (envs ++ [last])) s in
  connection_state (self s') = DISCONNECTED /\
  state (circuit_breaker (self s')) = OPEN /\
  failure_count (circuit_breaker (self s')) = failure_threshold (circuit_breaker (self s)) /\
  last_failure_time (circuit_breaker (self s')) = Some (now_failure last) /\
  transport_connects (trace s')
    = (transport_connects (trace s) + length (envs ++ [last]))%nat /\
  forall env,
    now_attempt env - now_failure last
      <= timedelta_seconds (timeout_seconds (circuit_breaker (self s))) ->
    exists e, connect env s' = (Raise e, s') /\
              exc_class e = AxonPulsConnectionError.
Proof.
  intros Hst Hcl Hzero Hlen Hall s'.
  destruct (run_failed_connects (envs ++ [last]) s Hst Hcl) as (Hst' & Hcb' & _ & Htc');
    [lia | exact Hall |].
  fold s' in Hst', Hcb', Htc'.
  rewrite map_app in Hcb'. simpl in Hcb'. rewrite record_failures_app in Hcb'.
  change (record_failures [now_failure last] ?b)
    with (record_failure (now_failure last) b) in Hcb'.
  destruct (record_failures_config (map now_failure envs) (circuit_breaker (self s)))
    as (Hc1 & Hc2 & Hc3).
  rewrite length_map in Hc3. rewrite length_app in Hlen. simpl in Hlen.
  destruct (record_failure_reaching (now_failure last)
              (record_failures (map now_failure envs) (circuit_breaker (self s))))
    as [Hopen Hlast]; [rewrite Hc1, Hc3; lia|].
  rewrite <- Hcb' in Hopen, Hlast.
  split; [exact Hst'|]. split; [exact Hopen|].
  split; [rewrite Hcb'; simpl; rewrite Hc3; lia|].
  split; [exact Hlast|]. split; [exact Htc'|].
  intros env Hwithin. eexists. split.
  - apply connect_denied; [rewrite Hst'; discriminate | rewrite Hst'; discriminate |].
    unfold can_attempt. rewrite Hopen, Hlast.
    replace (timeout_seconds (circuit_breaker (self s')))
      with (timeout_seconds (circuit_breaker (self s)))
      by (rewrite Hcb'; simpl; rewrite Hc2; reflexivity).
    destruct (Z.ltb_spec (timedelta_seconds (timeout_seconds (circuit_breaker (self s))))
                (now_attempt env - now_failure last)); [lia|reflexivity].
  - reflexivity.
Qed.

Lemma failed_connects_open_breaker_witness :
  let s' := run (map CallConnect (map refused_at [1; 2; 3; 4] ++ [refused_at 5]))
                sample_fresh in
  state (circuit_breaker (self s')) = OPEN /\
  transport_connects (trace s') = 5%nat /\
  exists e, connect (mkConnectEnv (timedelta_seconds 65) (Opened 1) 0) s' = (Raise e, s').
Proof.
  intros s'.
  destruct (failed_connects_open_breaker (map refused_at [1; 2; 3; 4]) (refused_at 5)
              sample_fresh) as (_ & Hopen & _ & _ & Htc & Hdeny).
  - reflexivity.
  - reflexivity.
  - reflexivity.
  - reflexivity.
  - repeat constructor; eexists; reflexivity.
  - split; [exact Hopen|]. split; [exact Htc|].
    destruct (Hdeny (mkConnectEnv (timedelta_seconds 65) (Opened 1) 0))
      as (e & Hrun & _); [vm_compute; discriminate|].
    exists e. exact Hrun.
Defined.

(** ** The task pool of every session *)

(** What holds of the pool after an operation when it held before, for a
    property that the creation of a task and, where the operation cancels
    tasks, a cancellation keep. *)
Section PoolInvariant.

Variable T : list task -> Prop.
Hypothesis T_create : forall l k, T l -> T (l ++ [mkTask k Active]).
Hypothesis T_cancel : forall l id, T l -> T (alter cancel_status id l).

Ltac pool_leaf :=
  intros ? ?; cbn [tasks];
  first [ assumption | apply T_create; assumption | apply T_cancel; assumption ].

Lemma pool_validate_channels channels :
  invariant (fun s => T (tasks s)) (validate_channels channels).
Proof.
  induction channels as [|ch rest IH]; simpl; [apply invariant_ret|].
  apply invariant_bind; [|intros _; exact IH].
  unfold _validate_channel. invariant_auto pool_leaf.
Qed.

Lemma pool_send_message m r : invariant (fun s => T (tasks s)) (_send_message m r).
Proof. unfold _send_message. invariant_auto pool_leaf. Qed.

Lemma pool_connect env : invariant (fun s => T (tasks s)) (connect env).
Proof. unfold connect. invariant_auto pool_leaf. Qed.

Lemma pool_disconnect : invariant (fun s => T (tasks s)) disconnect.
Proof. unfold disconnect. invariant_auto pool_leaf. Qed.

Lemma pool_subscribe channels o r :
  invariant (fun s => T (tasks s)) (subscribe channels o r).
Proof.
  pose proof (pool_validate_channels channels).
  pose proof (pool_send_message (Subscribe channels o) r).
  unfold subscribe. invariant_auto pool_leaf.
Qed.

Lemma pool_unsubscribe channels r :
  invariant (fun s => T (tasks s)) (unsubscribe channels r).
Proof.
  pose proof (pool_validate_channels channels).
  pose proof (pool_send_message (Unsubscribe channels) r).
  unfold unsubscribe. invariant_auto pool_leaf.
Qed.

Lemma pool_publish ch ty p cid o r :
  invariant (fun s => T (tasks s)) (publish ch ty p cid o r).
Proof.
  pose proof (pool_send_message (Publish ch ty (payload_text p) cid o) r).
  unfold publish, _validate_payload_size, _validate_channel.
  invariant_auto pool_leaf.
Qed.

Lemma pool_replay ch sid k r : invariant (fun s => T (tasks s)) (replay ch sid k r).
Proof.
  pose proof (pool_send_message (Replay ch sid k) r).
  unfold replay, _validate_channel. invariant_auto pool_leaf.
Qed.

Lemma pool_message_handler inbox ending :
  invariant (fun s => T (tasks s)) (_message_handler inbox ending).
Proof.
  induction inbox as [|[[data|] now] rest IH]; simpl.
  - unfold spawn_reconnect. invariant_auto pool_leaf.
  - apply invariant_bind; [|intros _; exact IH].
    unfold _handle_message. invariant_auto pool_leaf.
  - apply invariant_bind; [invariant_auto pool_leaf | intros _; exact IH].
Qed.

Lemma pool_heartbeat_body t : invariant (fun s => T (tasks s)) (heartbeat_body t).
Proof.
  pose proof pool_disconnect.
  pose proof (pool_send_message Ping (tick_send t)).
  unfold heartbeat_body, spawn_reconnect. invariant_auto pool_leaf.
Qed.

Lemma pool_heartbeat_loop ticks :
  invariant (fun s => T (tasks s)) (_heartbeat_loop ticks).
Proof.
  induction ticks as [|t rest IH]; simpl.
  - invariant_auto pool_leaf.
  - pose proof (pool_heartbeat_body t). invariant_auto pool_leaf.
Qed.

Lemma pool_reconnect envs : invariant (fun s => T (tasks s)) (_reconnect envs).
Proof.
  unfold _reconnect. apply invariant_bind; [apply invariant_get_self | intros c].
  generalize (or_default (reconnect_attempts (config c)) 5). intros k.
  induction envs as [|env rest IH]; simpl.
  - invariant_auto pool_leaf.
  - pose proof (pool_connect (connect_env env)).
    unfold reconnect_body.
    repeat (apply pool_subscribe || invariant_step pool_leaf || invariant_case).
Qed.

End PoolInvariant.

Section PoolSettled.

Implicit Types (s : Sys) (l : list task).

Lemma bind_returns {A B} (m : M A) (k : A -> M B) s (b : B) s' :
  bind m k s = (Return b, s') ->
  exists a s1, m s = (Return a, s1) /\ k a s1 = (Return b, s').
Proof.
  unfold bind. destruct (m s) as [[a|e|x] s1]; try discriminate.
  intros H. exists a, s1. split; [reflexivity | exact H].
Qed.

(** A turn of the monitor after which it loops on has sent a ping, or has
    found the session not connected: it has not touched the pool. *)
Lemma heartbeat_body_continues t s s' :
  heartbeat_body t s = (Return Continue, s') -> tasks s' = tasks s.
Proof.
  unfold heartbeat_body, try_except.
  match goal with |- context [match ?body s with _ => _ end] =>
    destruct (body s) as [[ctl|e|x] s1] eqn:Hbody
  end; [|discriminate|discriminate].
  intros [= -> ->].
  apply bind_returns in Hbody. destruct Hbody as (c & s2 & [= <- <-] & Hbody).
  apply bind_returns in Hbody. destruct Hbody as ([] & s3 & [= <-] & Hbody).
  apply bind_returns in Hbody. destruct Hbody as (c' & s4 & [= <- <-] & Hbody).
  cbn [self] in Hbody.
  destruct (is_connected (self s)); [|injection Hbody as <-; reflexivity].
  destruct (pong_overdue _ _ _).
  - apply bind_returns in Hbody. destruct Hbody as (? & s5 & _ & Hbody).
    apply bind_returns in Hbody. destruct Hbody as (? & s6 & _ & Hbody).
    apply bind_returns in Hbody. destruct Hbody as (? & s7 & _ & Hbody).
    discriminate.
  - apply bind_returns in Hbody. destruct Hbody as ([] & s5 & Hsend & [= <-]).
    pose proof (pool_send_message (fun l => l = tasks s) Ping (tick_send t)
                  (mkSys (self s)
                         (trace s ++ [EvSleep (inject_Z (or_default
                            (heartbeat_interval (config (self s))) HEARTBEAT_INTERVAL))])
                         (tasks s)) eq_refl) as Hkeep.
    rewrite Hsend in Hkeep. exact Hkeep.
Qed.

Lemma heartbeat_loop_continues ticks s s' :
  _heartbeat_loop ticks s = (Return false, s') -> tasks s' = tasks s.
Proof.
  revert s. induction ticks as [|t rest IH]; intros s; cbn [_heartbeat_loop];
    unfold bind at 1; unfold get_self at 1.
  - destruct (is_connected (self s)); intros [= <-]; reflexivity.
  - destruct (is_connected (self s)); [|discriminate].
    unfold bind at 1.
    destruct (heartbeat_body t s) as [[[| |]|e|x] s1] eqn:Hbody; try discriminate.
    intros Hloop. rewrite (IH _ Hloop). apply (heartbeat_body_continues _ _ _ Hbody).
Qed.

Lemma others_settled_start (id : nat) l t :
  Forall settled l -> l !! id = Some t ->
  others_settled id (alter start_status id l).
Proof.
  intros Hall Hid. split.
  - rewrite length_alter. eapply lookup_lt_Some. exact Hid.
  - intros i t0 Hne. rewrite list_lookup_alter_ne by congruence.
    apply (Forall_lookup_1 _ _ _ _ Hall).
Qed.

Lemma others_settled_create (id : nat) l k :
  others_settled id l -> others_settled id (l ++ [mkTask k Active]).
Proof.
  intros [Hlt Hall]. split; [rewrite length_app; simpl; lia|].
  intros i t Hne Hi. apply lookup_app_Some in Hi.
  destruct Hi as [Hi|[_ Hi]]; [exact (Hall i t Hne Hi)|].
  destruct (i - length l)%nat; [|destruct n; discriminate].
  injection Hi as <-. split; discriminate.
Qed.

Lemma others_settled_cancel (id : nat) l (c : nat) :
  others_settled id l -> others_settled id (alter cancel_status c l).
Proof.
  intros [Hlt Hall]. split; [rewrite length_alter; exact Hlt|].
  intros i t Hne. rewrite list_lookup_alter.
  case_decide; [subst c|apply Hall; exact Hne].
  destruct (l !! i) as [t0|] eqn:Hi; simpl; intros [= <-].
  apply settled_cancel_status, (Hall i t0 Hne Hi).
Qed.

Lemma settled_finish (id : nat) l :
  others_settled id l -> Forall settled (alter finish_status id l).
Proof.
  intros [_ Hall]. apply Forall_lookup. intros i t. rewrite list_lookup_alter.
  case_decide; [subst i|apply Hall; congruence].
  destruct (l !! id) as [[k []]|]; simpl; intros [= <-]; split; discriminate.
Qed.

Lemma settled_suspend (id : nat) l k :
  others_settled id l -> l !! id = Some (mkTask k Running) ->
  Forall settled (alter suspend_status id l).
Proof.
  intros [_ Hall] Hid. apply Forall_lookup. intros i t. rewrite list_lookup_alter.
  case_decide; [subst i|apply Hall; congruence].
  rewrite Hid. simpl. intros [= <-]. split; discriminate.
Qed.

Lemma settled_cancel l (c : nat) :
  Forall settled l -> Forall settled (alter cancel_status c l).
Proof.
  intros Hall. apply Forall_lookup. intros i t. rewrite list_lookup_alter.
  case_decide; [subst c|apply (Forall_lookup_1 _ _ _ _ Hall)].
  destruct (l !! i) as [t0|] eqn:Hi; simpl; intros [= <-].
  apply settled_cancel_status, (Forall_lookup_1 _ _ _ _ Hall Hi).
Qed.

Lemma settled_create l k : Forall settled l -> Forall settled (l ++ [mkTask k Active]).
Proof.
  intros Hall. apply Forall_app. split; [exact Hall|].
  repeat constructor; discriminate.
Qed.

Lemma task_is_lookup k id s :
  task_is k id s = true -> tasks s !! id = Some (mkTask k Active).
Proof.
  unfold task_is. destruct (tasks s !! id) as [[k' []]|]; try discriminate.
  destruct k, k'; try discriminate; reflexivity.
Qed.

(** Every complete call and every turn of a task leaves the pool
    settled. *)
Lemma step_pool_settled ev s : pool_settled s -> pool_settled (step ev s).
Proof.
  intros H. unfold pool_settled in *.
  pose proof settled_create as Hc.
  pose proof settled_cancel as Hk.
  destruct ev; cbn [step]; unfold run_call.
  - apply (pool_connect _ Hc env s H).
  - apply (pool_disconnect _ Hk s H).
  - apply (pool_subscribe (Forall settled) channels options r s H).
  - apply (pool_unsubscribe (Forall settled) channels r s H).
  - apply (pool_publish (Forall settled) channel event_type payload
             correlation_id options r s H).
  - apply (pool_replay (Forall settled) channel since_id count r s H).
  - destruct (task_is _ _ _) eqn:Hid; [|exact H]. apply task_is_lookup in Hid.
    cbn [finish_task tasks]. apply settled_finish.
    apply (pool_message_handler _ (others_settled_create id) inbox ending
             (start_task id s)).
    apply (others_settled_start id _ _ H Hid).
  - destruct (task_is _ _ _) eqn:Hid; [|exact H]. apply task_is_lookup in Hid.
    pose proof (others_settled_start id _ _ H Hid) as Hturn.
    pose proof (pool_heartbeat_loop _ (others_settled_create id)
                  (fun l c => others_settled_cancel id l c) ticks
                  (start_task id s) Hturn) as Hafter.
    destruct (_heartbeat_loop ticks (start_task id s)) as [[[|]|e|x] s'] eqn:Hloop;
      cbn [snd suspend_task finish_task tasks] in *;
      try (apply settled_finish; exact Hafter).
    apply (settled_suspend id _ HeartbeatTask Hafter).
    rewrite (heartbeat_loop_continues _ _ _ Hloop). cbn [start_task tasks].
    rewrite list_lookup_alter_eq, Hid. reflexivity.
  - destruct (task_is _ _ _) eqn:Hid; [|exact H]. apply task_is_lookup in Hid.
    pose proof (others_settled_start id _ _ H Hid) as Hturn.
    pose proof (pool_reconnect _ (others_settled_create id) envs
                  (start_task id s) Hturn) as Hafter.
    assert (Hrun : tasks (start_task id s) !! id = Some (mkTask ReconnectTask Running))
      by (cbn [start_task tasks]; rewrite list_lookup_alter_eq, Hid; reflexivity).
    pose proof (pool_reconnect (fun l => l !! id = Some (mkTask ReconnectTask Running))
                  (fun l k Hl => lookup_app_l_Some _ _ _ _ Hl) envs
                  (start_task id s) Hrun) as Hsame.
    destruct (_reconnect envs (start_task id s)) as [[[u|]|e|x] s'];
      cbn [snd suspend_task finish_task tasks] in *;
      try (apply settled_finish; exact Hafter).
    apply (settled_suspend id _ ReconnectTask Hafter Hsame).
Qed.

Lemma run_pool_settled evs s : pool_settled s -> pool_settled (run evs s).
Proof.
  revert s. induction evs as [|ev rest IH]; intros s H; simpl; [exact H|].
  apply IH, step_pool_settled, H.
Qed.

End PoolSettled.

(** ** The reconnection handle of every session *)

Section ReconnectHandle.

Implicit Types (s : Sys) (l : list task).

Lemma handle_ok_alter (f : task -> task) (c : Client) tr l (id : nat) :
  (forall t, kind (f t) = kind t) ->
  reconnect_handle_ok (mkSys c tr l) ->
  reconnect_handle_ok (mkSys c tr (alter f id l)).
Proof.
  intros Hf H r Hr. destruct (H r Hr) as (t & Ht & Hk). cbn [tasks] in *.
  rewrite list_lookup_alter. case_decide; [subst id|eauto].
  rewrite Ht. simpl. eexists. split; [reflexivity|]. rewrite Hf. exact Hk.
Qed.

Lemma handle_ok_create (c : Client) tr tr' l k :
  reconnect_handle_ok (mkSys c tr l) ->
  reconnect_handle_ok (mkSys c tr' (l ++ [mkTask k Active])).
Proof.
  intros H r Hr. destruct (H r Hr) as (t & Ht & Hk). cbn [tasks] in *.
  exists t. split; [apply lookup_app_l_Some; exact Ht | exact Hk].
Qed.

Lemma kind_cancel_status t : kind (cancel_status t) = kind t.
Proof. destruct t as [k []]; reflexivity. Qed.

Lemma kind_start_status t : kind (start_status t) = kind t.
Proof. destruct t as [k []]; reflexivity. Qed.

Lemma kind_finish_status t : kind (finish_status t) = kind t.
Proof. destruct t as [k []]; reflexivity. Qed.

Lemma kind_suspend_status t : kind (suspend_status t) = kind t.
Proof. destruct t as [k []]; reflexivity. Qed.

(** What a write must keep: it does not assign the handle, and the pool
    only grows or changes the status of a task. *)
Ltac handle_leaf :=
  intros s0 H0;
  first [ exact H0
        | apply (handle_ok_alter cancel_status _ _ _ _ kind_cancel_status);
          destruct s0; exact H0
        | destruct s0; apply (handle_ok_create _ _ _ _ _ H0)
        | intros r Hr; exact (H0 r Hr) ].

Lemma handle_ok_spawn_reconnect : invariant reconnect_handle_ok spawn_reconnect.
Proof.
  intros s H r. unfold spawn_reconnect, create_task. mred. intros [= <-].
  eexists. split; [apply list_lookup_middle; reflexivity | reflexivity].
Qed.

Lemma handle_ok_validate_channels channels :
  invariant reconnect_handle_ok (validate_channels channels).
Proof.
  induction channels as [|ch rest IH]; simpl; [apply invariant_ret|].
  apply invariant_bind; [|intros _; exact IH].
  unfold _validate_channel. invariant_auto handle_leaf.
Qed.

Lemma handle_ok_send_message m r : invariant reconnect_handle_ok (_send_message m r).
Proof. unfold _send_message. invariant_auto handle_leaf. Qed.

Lemma handle_ok_connect env : invariant reconnect_handle_ok (connect env).
Proof. unfold connect. invariant_auto handle_leaf. Qed.

Lemma handle_ok_disconnect : invariant reconnect_handle_ok disconnect.
Proof. unfold disconnect. invariant_auto handle_leaf. Qed.

Lemma handle_ok_subscribe channels o r :
  invariant reconnect_handle_ok (subscribe channels o r).
Proof.
  pose proof (handle_ok_validate_channels channels).
  pose proof (handle_ok_send_message (Subscribe channels o) r).
  unfold subscribe. invariant_auto handle_leaf.
Qed.

Lemma handle_ok_unsubscribe channels r :
  invariant reconnect_handle_ok (unsubscribe channels r).
Proof.
  pose proof (handle_ok_validate_channels channels).
  pose proof (handle_ok_send_message (Unsubscribe channels) r).
  unfold unsubscribe. invariant_auto handle_leaf.
Qed.

Lemma handle_ok_publish ch ty p cid o r :
  invariant reconnect_handle_ok (publish ch ty p cid o r).
Proof.
  pose proof (handle_ok_send_message (Publish ch ty (payload_text p) cid o) r).
  unfold publish, _validate_payload_size, _validate_channel.
  invariant_auto handle_leaf.
Qed.

Lemma handle_ok_replay ch sid k r : invariant reconnect_handle_ok (replay ch sid k r).
Proof.
  pose proof (handle_ok_send_message (Replay ch sid k) r).
  unfold replay, _validate_channel. invariant_auto handle_leaf.
Qed.

Lemma handle_ok_message_handler inbox ending :
  invariant reconnect_handle_ok (_message_handler inbox ending).
Proof.
  pose proof handle_ok_spawn_reconnect.
  induction inbox as [|[[data|] now] rest IH]; simpl.
  - invariant_auto handle_leaf.
  - apply invariant_bind; [|intros _; exact IH].
    unfold _handle_message. invariant_auto handle_leaf.
  - apply invariant_bind; [invariant_auto handle_leaf | intros _; exact IH].
Qed.

Lemma handle_ok_heartbeat_loop ticks :
  invariant reconnect_handle_ok (_heartbeat_loop ticks).
Proof.
  pose proof handle_ok_spawn_reconnect.
  pose proof handle_ok_disconnect.
  induction ticks as [|t rest IH]; simpl.
  - invariant_auto handle_leaf.
  - pose proof (handle_ok_send_message Ping (tick_send t)).
    unfold heartbeat_body. invariant_auto handle_leaf.
Qed.

Lemma handle_ok_reconnect envs : invariant reconnect_handle_ok (_reconnect envs).
Proof.
  unfold _reconnect. apply invariant_bind; [apply invariant_get_self | intros c].
  generalize (or_default (reconnect_attempts (config c)) 5). intros k.
  induction envs as [|env rest IH]; simpl.
  - invariant_auto handle_leaf.
  - pose proof (handle_ok_connect (connect_env env)).
    unfold reconnect_body.
    repeat (apply handle_ok_subscribe || invariant_step handle_leaf || invariant_case).
Qed.

Lemma handle_ok_step ev s : reconnect_handle_ok s -> reconnect_handle_ok (step ev s).
Proof.
  intros H.
  assert (Hstart : forall id, reconnect_handle_ok (start_task id s)).
  { intros id. destruct s. apply handle_ok_alter; [apply kind_start_status | exact H]. }
  assert (Hfinish : forall id s1, reconnect_handle_ok s1 ->
                      reconnect_handle_ok (finish_task id s1)).
  { intros id [c tr l] H1. apply handle_ok_alter; [apply kind_finish_status | exact H1]. }
  assert (Hsuspend : forall id s1, reconnect_handle_ok s1 ->
                       reconnect_handle_ok (suspend_task id s1)).
  { intros id [c tr l] H1. apply handle_ok_alter; [apply kind_suspend_status | exact H1]. }
  destruct ev; cbn [step]; unfold run_call.
  - apply handle_ok_connect, H.
  - apply handle_ok_disconnect, H.
  - apply handle_ok_subscribe, H.
  - apply handle_ok_unsubscribe, H.
  - apply handle_ok_publish, H.
  - apply handle_ok_replay, H.
  - destruct (task_is _ _ _); [|exact H].
    apply Hfinish, handle_ok_message_handler, Hstart.
  - destruct (task_is _ _ _); [|exact H].
    pose proof (handle_ok_heartbeat_loop ticks _ (Hstart id)) as H'.
    destruct (_heartbeat_loop ticks (start_task id s)) as [[[|]|e|x] s'];
      first [apply Hfinish, H' | apply Hsuspend, H'].
  - destruct (task_is _ _ _); [|exact H].
    pose proof (handle_ok_reconnect envs _ (Hstart id)) as H'.
    destruct (_reconnect envs (start_task id s)) as [[[u|]|e|x] s'];
      first [apply Hfinish, H' | apply Hsuspend, H'].
Qed.

Lemma handle_ok_run evs s : reconnect_handle_ok s -> reconnect_handle_ok (run evs s).
Proof.
  revert s. induction evs as [|ev rest IH]; intros s H; simpl; [exact H|].
  apply IH, handle_ok_step, H.
Qed.

End ReconnectHandle.

(** ** The liveness timeout *)

(** C8, as stated, fails: no pong within 2.5 heartbeat intervals does not
    always end in a declared death. The monitor (task 1) of the connected
    sample session, interval 30 s and [auto_reconnect] on, sends a ping
    at 30 s and cannot send the next at 60 s: it logs the error and its
    loop ends. No pong is ever received, and the session is still
    Connected with its socket, no reconnection task was created, and the
    monitor is done: it takes no further turn, whatever time passes. *)
Lemma C8_liveness_timeout_counterexample :
  let s := sample_connected in
  let s' := run [RunHeartbeat 1 unsent_ticks] s in
  heartbeat_interval (config (self s)) = Some 30 /\
  auto_reconnect (config (self s)) = true /\
  connection_state (self s) = CONNECTED /\
  tasks s !! 1%nat = Some (mkTask HeartbeatTask Active) /\
  sends (trace s') =
    [EvSend Ping Sent;
     EvSend Ping (SendFailed "connection lost" (timedelta_seconds 60))] /\
  last_pong_time (self s') = last_pong_time (self s) /\
  connection_state (self s') = CONNECTED /\
  websocket (self s') = websocket (self s) /\
  reconnects_spawned (trace s') = 0%nat /\
  tasks s' !! 1%nat = Some (mkTask HeartbeatTask Finished) /\
  (forall later, step (RunHeartbeat 1 later) s' = s').
Proof.
  intros s s'.
  assert (Hdone : tasks s' !! 1%nat = Some (mkTask HeartbeatTask Finished))
    by (vm_compute; reflexivity).
  do 9 (split; [vm_compute; reflexivity|]).
  split; [exact Hdone|].
  intros later. cbn [step]. unfold task_is. rewrite Hdone. reflexivity.
Qed.

(** C8 (amended). In a session, after any sequence of complete calls and
    task turns: the session is Connected and a liveness monitor is
    pending; in its turn its pings are sent, and at some tick the time
    since the last pong exceeds 2.5 times the heartbeat interval (the
    configured one, or 30 s). At that tick the monitor disconnects the
    session (state Disconnected, socket and HTTP session closed); with
    [auto_reconnect] it creates one reconnection task, the one the client
    then holds, without it none; and its coroutine ends: the ticks that
    would follow are not taken, no further ping is sent, and the monitor,
    though it cancelled itself in [disconnect()], is finished and takes
    no further turn. *)
Theorem C8_liveness_timeout
    (jwt_decode : jwt_decoder) (now : time) (cfg : AxonPulsClientConfig)
    (c : Client) (logged : list effect) (evs : list event)
    (id : nat) (before : list Tick) (t : Tick) (rest : list Tick) :
  __init__ jwt_decode now cfg = (Return c, logged) ->
  let s := run evs (new_session c logged) in
  connection_state (self s) = CONNECTED ->
  tasks s !! id = Some (mkTask HeartbeatTask Active) ->
  Forall (fun tk => tick_send tk = Sent /\
            tick_now tk - last_pong_time (self s)
              <= 2500000 * or_default (heartbeat_interval (config (self s)))
                                      HEARTBEAT_INTERVAL) before ->
  2500000 * or_default (heartbeat_interval (config (self s))) HEARTBEAT_INTERVAL
    < tick_now t - last_pong_time (self s) ->
  let s' := step (RunHeartbeat id (before ++ t :: rest)) s in
  connection_state (self s') = DISCONNECTED /\
  websocket (self s') = None /\
  http_session (self s') = false /\
  sends (trace s') = sends (trace s) ++ repeat (EvSend Ping Sent) (length before) /\
  tasks s' !! id = Some (mkTask HeartbeatTask Finished) /\
  (forall later, step (RunHeartbeat id later) s' = s') /\
  reconnects_spawned (trace s') =
    (reconnects_spawned (trace s)
     + if auto_reconnect (config (self s)) then 1 else 0)%nat /\
  (auto_reconnect (config (self s)) = true ->
     _reconnect_task (self s') = Some (length (tasks s)) /\
     tasks s' !! length (tasks s) = Some (mkTask ReconnectTask Active) /\
     length (tasks s') = S (length (tasks s))) /\
  (auto_reconnect (config (self s)) = false ->
     length (tasks s') = length (tasks s)).
Proof.
  intros Hinit s Hconn Htask Hbefore Hover.
  assert (Hok : session_ok 5 60 s)
    by (apply session_ok_run, (session_ok_init _ _ _ _ _ Hinit)).
  destruct Hok as (_ & [_ Hsock] & _).
  destruct (Hsock Hconn) as [ws Hws].
  assert (Hpool : pool_settled s)
    by (apply run_pool_settled, List.Forall_nil).
  assert (Hhandle : reconnect_handle_ok s).
  { apply handle_ok_run. intros r Hr. revert Hinit Hr.
    unfold __init__, _extract_org_id_from_token.
    destruct (jwt_decode (token cfg)) as [payload|]; [|discriminate].
    destruct (payload !! "organizationId") as [o|]; [|discriminate].
    simpl. destruct (String.eqb o ""); simpl; [discriminate|].
    intros [= <- <-]. discriminate. }
  assert (Hrc : _reconnect_task (self s) <> Some id).
  { intros Hr. destruct (Hhandle id Hr) as (tk & Hid & Hkind).
    rewrite Htask in Hid. injection Hid as <-. discriminate. }
  exact (monitor_turn_death s id ws before t rest Hconn Hws Htask Hpool Hrc
           Hbefore Hover).
Qed.

(** Pings every 30 s without a pong: the monitor (task 1) of the sample
    session declares death at the third tick, 90 s after the last pong. *)
Lemma C8_liveness_timeout_witness :
  let s := run [CallConnect (mkConnectEnv 0 (Opened 1) 0)] sample_fresh in
  let s' := step (RunHeartbeat 1 silent_ticks) s in
  connection_state (self s) = CONNECTED /\
  connection_state (self s') = DISCONNECTED /\
  sends (trace s') = [EvSend Ping Sent; EvSend Ping Sent] /\
  tasks s' !! 1%nat = Some (mkTask HeartbeatTask Finished) /\
  reconnects_spawned (trace s') = 1%nat.
Proof.
  intros s s'.
  assert (Hc : connection_state (self s) = CONNECTED) by (vm_compute; reflexivity).
  split; [exact Hc|].
  destruct (C8_liveness_timeout sample_jwt 0 sample_config sample_client
              [EvLog (LogInitialized "acme")]
              [CallConnect (mkConnectEnv 0 (Opened 1) 0)] 1%nat
              [mkTick (timedelta_seconds 30) Sent; mkTick (timedelta_seconds 60) Sent]
              (mkTick (timedelta_seconds 90) Sent)
              [mkTick (timedelta_seconds 120) Sent])
    as (Hst & _ & _ & Hsends & Hdone & _ & Hsp & _).
  - vm_compute. reflexivity.
  - exact Hc.
  - vm_compute. reflexivity.
  - repeat constructor; vm_compute; discriminate.
  - vm_compute. reflexivity.
  - split; [exact Hst|]. split; [exact Hsends|]. split; [exact Hdone | exact Hsp].
Defined.

(** ** Disconnecting *)

Section Disconnect.

Implicit Types (s : Sys) (l : list task).

Lemma cancel_status_twice (t : task) :
  cancel_status (cancel_status t) = cancel_status t.
Proof. destruct t as [k []]; reflexivity. Qed.

Lemma cancel_status_done (t : task) : settled t -> is_done (cancel_status t).
Proof.
  destruct t as [k []]; unfold settled, is_done; simpl; intros [H1 H2]; auto;
    congruence.
Qed.

Lemma settled_cancel_handle (h : option nat) l :
  Forall settled l -> Forall settled (cancel_handle h l).
Proof.
  intros Hall. apply Forall_lookup. intros i t. rewrite lookup_cancel_handle.
  destruct (l !! i) as [t0|] eqn:Hi; case_decide; simpl; intros [= <-].
  - apply settled_cancel_status. exact (Forall_lookup_1 _ _ _ _ Hall Hi).
  - exact (Forall_lookup_1 _ _ _ _ Hall Hi).
Qed.

(** Cancelling again the tasks that were cancelled changes nothing. *)
Lemma cancel_again (a b : option nat) l :
  cancel_handle b (cancel_handle a (cancel_handle b (cancel_handle a l)))
  = cancel_handle b (cancel_handle a l).
Proof.
  apply list_eq. intros i. rewrite !lookup_cancel_handle.
  repeat case_decide; destruct (l !! i) as [t|]; simpl;
    rewrite ?cancel_status_twice; reflexivity.
Qed.

(** [disconnect()] from outside, between the turns of the tasks. *)
Lemma disconnect_settled s :
  pool_settled s ->
  exists s',
    disconnect s = (Return tt, s') /\
    tasks s' =
      cancel_handle (_reconnect_task (self s))
        (cancel_handle (_heartbeat_task (self s)) (tasks s)) /\
    connection_state (self s') = DISCONNECTED /\
    websocket (self s') = None /\
    http_session (self s') = false /\
    _heartbeat_task (self s') = _heartbeat_task (self s) /\
    _reconnect_task (self s') = _reconnect_task (self s) /\
    subscriptions (self s') = subscriptions (self s) /\
    last_stream_ids (self s') = last_stream_ids (self s) /\
    circuit_breaker (self s') = circuit_breaker (self s) /\
    (connection_state (self s) = DISCONNECTED -> websocket (self s) = None ->
     http_session (self s) = false ->
     self s' = self s /\ closes (trace s') = closes (trace s)).
Proof.
  intros Hpool.
  destruct (settled_awaitable (_heartbeat_task (self s)) (_reconnect_task (self s))
              (tasks s) Hpool) as [Hhb Hrc].
  unfold disconnect.
  unfold bind at 1. unfold modify_self at 1.
  unfold bind at 1. unfold get_self at 1. cbn [self trace tasks].
  unfold bind at 1.
  change (_heartbeat_task (set_connection_state DISCONNECTED (self s)))
    with (_heartbeat_task (self s)).
  rewrite cancel_held_returns by exact Hhb.
  unfold bind at 1.
  change (_reconnect_task (set_connection_state DISCONNECTED (self s)))
    with (_reconnect_task (self s)).
  rewrite cancel_held_returns by exact Hrc.
  cbn [self trace tasks]. mred.
  destruct (websocket (self s)) as [ws|] eqn:Hws,
           (http_session (self s)) eqn:Hhttp; simpl;
    eexists; (split; [reflexivity|]); simpl;
    (split; [reflexivity|]); rewrite ?Hws, ?Hhttp;
    do 8 (split; [reflexivity|]);
    intros Hst Hnone Hopen; try discriminate;
    (split;
     [destruct (self s); simpl in *; subst; reflexivity
     | destruct (_heartbeat_task (self s)), (_reconnect_task (self s));
       rewrite !closes_snoc; simpl; rewrite ?app_nil_r; reflexivity]).
Qed.

End Disconnect.

(** X15. [disconnect()] called from outside while the pool is settled, as
    it is after every sequence of complete calls and task turns: it
    returns, and a second [disconnect()] right after it returns too,
    changes neither the client nor the task pool and closes nothing more.
    After [disconnect()] the client is Disconnected without socket or HTTP
    session, while its subscriptions, last seen positions and breaker are
    what they were. *)
Theorem disconnect_idempotent (s : Sys) :
  pool_settled s ->
  exists s1 s2,
    disconnect s = (Return tt, s1) /\
    disconnect s1 = (Return tt, s2) /\
    self s2 = self s1 /\
    tasks s2 = tasks s1 /\
    closes (trace s2) = closes (trace s1) /\
    connection_state (self s1) = DISCONNECTED /\
    websocket (self s1) = None /\
    http_session (self s1) = false /\
    subscriptions (self s1) = subscriptions (self s) /\
    last_stream_ids (self s1) = last_stream_ids (self s) /\
    circuit_breaker (self s1) = circuit_breaker (self s).
Proof.
  intros Hpool.
  destruct (disconnect_settled s Hpool)
    as (s1 & Hrun1 & Htasks1 & Hst & Hws & Hhttp & Hhb & Hrc & Hsubs & Hids & Hcb & _).
  assert (Hpool1 : pool_settled s1).
  { unfold pool_settled. rewrite Htasks1. do 2 apply settled_cancel_handle. exact Hpool. }
  destruct (disconnect_settled s1 Hpool1)
    as (s2 & Hrun2 & Htasks2 & _ & _ & _ & _ & _ & _ & _ & _ & Hsame).
  destruct (Hsame Hst Hws Hhttp) as [Hself Hcloses].
  exists s1, s2. split; [exact Hrun1|]. split; [exact Hrun2|].
  split; [exact Hself|].
  split; [rewrite Htasks2, Hhb, Hrc, Htasks1; apply cancel_again|].
  split; [exact Hcloses|]. auto 10.
Qed.

(** The session whose monitor declared the connection dead and whose read
    loop ended: [disconnect()] twice. *)
Lemma disconnect_idempotent_witness :
  exists s1 s2,
    disconnect sample_dead_closed = (Return tt, s1) /\
    disconnect s1 = (Return tt, s2) /\
    self s2 = self s1 /\ tasks s2 = tasks s1.
Proof.
  destruct (disconnect_idempotent sample_dead_closed)
    as (s1 & s2 & Hrun1 & Hrun2 & Hself & Htasks & _).
  - unfold sample_dead_closed, sample_dead, sample_connected.
    do 3 apply run_pool_settled. apply List.Forall_nil.
  - exists s1, s2. auto.
Defined.

(** X16. [disconnect()] called from outside while the pool is settled, as
    it is after every sequence of complete calls and task turns, cancels
    exactly the tasks the client holds: the heartbeat task and the
    reconnection task it has a handle of are done afterwards, and every
    other task of the pool, the read loop among them, is left as it
    was. *)
Theorem disconnect_cancels_held_tasks (s : Sys) :
  pool_settled s ->
  exists s1,
    disconnect s = (Return tt, s1) /\
    (forall id t, held (self s) id -> tasks s1 !! id = Some t -> is_done t) /\
    (forall id, ~ held (self s) id -> tasks s1 !! id = tasks s !! id) /\
    length (tasks s1) = length (tasks s).
Proof.
  intros Hpool.
  destruct (disconnect_settled s Hpool) as (s1 & Hrun & Htasks & _).
  exists s1. split; [exact Hrun|]. rewrite Htasks. unfold held.
  split; [|split].
  - intros id t Hheld. rewrite !lookup_cancel_handle.
    destruct (tasks s !! id) as [t0|] eqn:Hid; repeat case_decide; simpl;
      intros [= <-]; rewrite ?cancel_status_twice;
      try (apply cancel_status_done; exact (Forall_lookup_1 _ _ _ _ Hpool Hid)).
    destruct Hheld; congruence.
  - intros id Hnot. rewrite !lookup_cancel_handle.
    repeat case_decide; try reflexivity; exfalso; apply Hnot; auto.
  - rewrite !length_cancel_handle. reflexivity.
Qed.

(** After the liveness monitor of the sample session declared the
    connection dead and the read loop started a second reconnection task,
    [disconnect()] cancels the task held (3) and not the other (2). *)
Lemma disconnect_cancels_held_tasks_witness :
  held (self sample_dead_closed) 3%nat /\
  ~ held (self sample_dead_closed) 2%nat /\
  exists s1,
    disconnect sample_dead_closed = (Return tt, s1) /\
    tasks s1 !! 2%nat = Some (mkTask ReconnectTask Active) /\
    tasks s1 !! 3%nat = Some (mkTask ReconnectTask Cancelled).
Proof.
  destruct (disconnect_cancels_held_tasks sample_dead_closed)
    as (s1 & Hrun & _ & Hother & _).
  { repeat constructor; vm_compute; discriminate. }
  assert (Hnot : ~ held (self sample_dead_closed) 2%nat)
    by (intros [H|H]; vm_compute in H; discriminate).
  split; [right; vm_compute; reflexivity|]. split; [exact Hnot|].
  exists s1. split; [exact Hrun|]. split.
  - rewrite (Hother 2%nat Hnot). vm_compute. reflexivity.
  - assert (Hs1 : s1 = snd (disconnect sample_dead_closed)) by (rewrite Hrun; reflexivity).
    rewrite Hs1. vm_compute. reflexivity.
Defined.

(** X26. [disconnect()] while the heartbeat task held is inside its own
    [disconnect()], where it has awaited itself: the state is set to
    Disconnected and the cancellation of that task is requested, then
    [await self._heartbeat_task] raises [RuntimeError], which is not a
    [CancelledError] and leaves [disconnect()]: the reconnection task is
    not cancelled, socket and HTTP session are not closed. *)
Theorem disconnect_await_error (s : Sys) (h : nat) :
  _heartbeat_task (self s) = Some h ->
  status <$> tasks s !! h = Some SelfAwaited ->
  exists s',
    disconnect s = (RaisePy await_error, s') /\
    py_class await_error = "RuntimeError" /\
    connection_state (self s') = DISCONNECTED /\
    websocket (self s') = websocket (self s) /\
    http_session (self s') = http_session (self s) /\
    tasks s' = tasks s /\
    trace s' = trace s ++ [EvCancelTask h].
Proof.
  intros Hhb Hst. unfold disconnect.
  unfold bind at 1. unfold modify_self at 1.
  unfold bind at 1. unfold get_self at 1. cbn [self trace tasks].
  unfold bind at 1.
  change (_heartbeat_task (set_connection_state DISCONNECTED (self s)))
    with (_heartbeat_task (self s)).
  rewrite Hhb, cancel_and_await_raises by exact Hst.
  eexists. split; [reflexivity|]. repeat split.
Qed.

(** The sample session while its monitor is inside its own
    [disconnect()]: a [disconnect()] from outside raises and leaves the
    socket and the HTTP session open. *)
Lemma disconnect_await_error_witness :
  tasks sample_monitor_suspended !! 1%nat = Some (mkTask HeartbeatTask SelfAwaited) /\
  exists s',
    disconnect sample_monitor_suspended = (RaisePy await_error, s') /\
    websocket (self s') = Some 1%nat /\
    http_session (self s') = true.
Proof.
  split; [vm_compute; reflexivity|].
  destruct (disconnect_await_error sample_monitor_suspended 1%nat)
    as (s' & Hrun & _ & _ & Hws & Hhttp & _).
  - vm_compute. reflexivity.
  - vm_compute. reflexivity.
  - exists s'. split; [exact Hrun|]. rewrite Hws, Hhttp. split; vm_compute; reflexivity.
Defined.

(** ** Inbound messages and the monitor *)

(** X17. Handling an inbound message never raises, sends nothing, and
    leaves the connection state, the subscriptions and the breaker as
    they are. An event that names a channel and a stream entry, both
    non-empty, records that entry as the last position of that channel,
    replacing an older one and leaving the positions of other channels
    alone, whether or not the channel is subscribed or even of the tenant;
    an event that lacks either records nothing. *)
Theorem inbound_message_effects (s : Sys) (now : time) (data : inbound) :
  exists s',
    _handle_message now data s = (Return tt, s') /\
    sends (trace s') = sends (trace s) /\
    tasks s' = tasks s /\
    connection_state (self s') = connection_state (self s) /\
    subscriptions (self s') = subscriptions (self s) /\
    circuit_breaker (self s') = circuit_breaker (self s) /\
    match data with
    | InEvent _ (Some ch) (Some sid) =>
        if negb (String.eqb ch "") && negb (String.eqb sid "")
        then last_stream_ids (self s') !! ch = Some sid /\
             forall other, other <> ch ->
               last_stream_ids (self s') !! other = last_stream_ids (self s) !! other
        else s' = s
    | InEvent _ _ _ => s' = s
    | InPong => last_pong_time (self s') = now /\ missed_pongs (self s') = 0 /\
                last_stream_ids (self s') = last_stream_ids (self s)
    | _ => last_stream_ids (self s') = last_stream_ids (self s) /\
           last_pong_time (self s') = last_pong_time (self s)
    end.
Proof.
  unfold _handle_message. mred.
  destruct data as [et [ch|] [sid|] | | | | ]; simpl;
    try (destruct (negb (String.eqb ch "") && negb (String.eqb sid "")) eqn:Hb;
         simpl);
    eexists; (split; [reflexivity|]); simpl;
    rewrite ?sends_snoc, ?app_nil_r; simpl; rewrite ?app_nil_r;
    repeat split.
  - apply lookup_insert_eq.
  - intros other Hne. apply lookup_insert_ne. congruence.
Qed.

(** X18. A pong keeps the monitor going: once a pong has been handled at
    time [p], the next turn of the heartbeat loop of a connected session,
    at a time no later than 2.5 intervals after [p] and with the ping
    sent, sends the ping and goes on; the session stays Connected and no
    reconnection task is created, however overdue the previous pong
    was. *)
Theorem pong_keeps_monitor_alive (s : Sys) (ws : nat) (p : time) (t : Tick) :
  connection_state (self s) = CONNECTED ->
  websocket (self s) = Some ws ->
  tick_send t = Sent ->
  tick_now t - p
    <= 2500000 * or_default (heartbeat_interval (config (self s))) HEARTBEAT_INTERVAL ->
  exists s1 s2,
    _handle_message p InPong s = (Return tt, s1) /\
    heartbeat_body t s1 = (Return Continue, s2) /\
    connection_state (self s2) = CONNECTED /\
    sends (trace s2) = sends (trace s) ++ [EvSend Ping Sent] /\
    reconnects_spawned (trace s2) = reconnects_spawned (trace s) /\
    tasks s2 = tasks s.
Proof.
  intros Hconn Hws Hsent Hin.
  set (s1 := mkSys (set_pong p (self s)) (trace s ++ [EvLog LogPong]) (tasks s)).
  assert (Hrun1 : _handle_message p InPong s = (Return tt, s1)) by reflexivity.
  pose proof (heartbeat_ping_turn s1 t ws Hconn Hws Hsent Hin) as Hrun2.
  do 2 eexists. split; [exact Hrun1|]. split; [exact Hrun2|].
  cbn [self trace tasks]. split; [exact Hconn|].
  split.
  { subst s1. cbn [trace]. rewrite !sends_snoc. simpl. rewrite !app_nil_r. reflexivity. }
  split; [|reflexivity].
  subst s1. cbn [trace]. rewrite !reconnects_spawned_snoc. simpl. lia.
Qed.

(** The third tick of the silent session, had a pong come at second 80. *)
Lemma pong_keeps_monitor_alive_witness :
  exists s1 s2,
    _handle_message (timedelta_seconds 80) InPong sample_connected = (Return tt, s1) /\
    heartbeat_body (mkTick (timedelta_seconds 90) Sent) s1 = (Return Continue, s2) /\
    connection_state (self s2) = CONNECTED.
Proof.
  destruct (pong_keeps_monitor_alive sample_connected 1%nat (timedelta_seconds 80)
              (mkTick (timedelta_seconds 90) Sent))
    as (s1 & s2 & H1 & H2 & Hst & _).
  - vm_compute. reflexivity.
  - vm_compute. reflexivity.
  - reflexivity.
  - vm_compute. discriminate.
  - exists s1, s2. auto.
Defined.

(** X19. When the send of a ping fails, the monitor logs the error and
    stops for good, whatever ticks would follow: it does not disconnect
    and does not start a reconnection. The session stays Connected with
    its socket; the failure is recorded in the breaker. *)
Theorem ping_failure_stops_monitor
    (s : Sys) (ws : nat) (t : Tick) (rest : list Tick) (cause : string) (now : time) :
  connection_state (self s) = CONNECTED ->
  websocket (self s) = Some ws ->
  tick_now t - last_pong_time (self s)
    <= 2500000 * or_default (heartbeat_interval (config (self s))) HEARTBEAT_INTERVAL ->
  tick_send t = SendFailed cause now ->
  exists s',
    heartbeat_body t s = (Return Break, s') /\
    _heartbeat_loop (t :: rest) s = (Return true, s') /\
    connection_state (self s') = CONNECTED /\
    websocket (self s') = Some ws /\
    circuit_breaker (self s') = record_failure now (circuit_breaker (self s)) /\
    reconnects_spawned (trace s') = reconnects_spawned (trace s) /\
    closes (trace s') = closes (trace s) /\
    tasks s' = tasks s.
Proof.
  intros Hconn Hws Hin Hfail.
  assert (Hover : pong_overdue (tick_now t) (last_pong_time (self s))
            (or_default (heartbeat_interval (config (self s))) HEARTBEAT_INTERVAL) = false).
  { apply not_true_is_false. rewrite pong_overdue_spec. lia. }
  assert (Hbody : exists s',
    heartbeat_body t s = (Return Break, s') /\
    connection_state (self s') = CONNECTED /\
    websocket (self s') = Some ws /\
    circuit_breaker (self s') = record_failure now (circuit_breaker (self s)) /\
    reconnects_spawned (trace s') = reconnects_spawned (trace s) /\
    closes (trace s') = closes (trace s) /\
    tasks s' = tasks s).
  { unfold heartbeat_body, _send_message, is_connected. mred.
    rewrite Hconn, Hover. simpl. rewrite Hws, Hconn. simpl.
    rewrite Hfail. simpl. eexists. split; [reflexivity|]. simpl.
    repeat split; try assumption.
    - rewrite !reconnects_spawned_snoc. simpl. lia.
    - rewrite !closes_snoc. simpl. rewrite !app_nil_r. reflexivity. }
  destruct Hbody as (s' & Hrun & Hrest). exists s'.
  split; [exact Hrun|]. split; [|exact Hrest].
  cbn [_heartbeat_loop]. unfold bind at 1. unfold get_self at 1.
  unfold is_connected. rewrite Hconn. unfold bind at 1. rewrite Hrun. reflexivity.
Qed.

Lemma ping_failure_stops_monitor_witness :
  exists s',
    _heartbeat_loop [mkTick (timedelta_seconds 30) (SendFailed "broken pipe" 30000001);
                     mkTick (timedelta_seconds 60) Sent;
                     mkTick (timedelta_seconds 90) Sent] sample_connected
      = (Return true, s') /\
    connection_state (self s') = CONNECTED /\
    reconnects_spawned (trace s') = 0%nat.
Proof.
  destruct (ping_failure_stops_monitor sample_connected 1%nat
              (mkTick (timedelta_seconds 30) (SendFailed "broken pipe" 30000001))
              [mkTick (timedelta_seconds 60) Sent; mkTick (timedelta_seconds 90) Sent]
              "broken pipe" 30000001)
    as (s' & _ & Hloop & Hst & _ & _ & Hsp & _).
  - vm_compute. reflexivity.
  - vm_compute. reflexivity.
  - vm_compute. discriminate.
  - reflexivity.
  - exists s'. split; [exact Hloop|]. split; [exact Hst|]. rewrite Hsp.
    vm_compute. reflexivity.
Defined.

(** ** Without automatic reconnection *)

Section ReconnectOff.

Variable n : nat.

(** What a write must keep for [reconnect_off]: it does not touch the
    configuration and is not the creation of a reconnection task. *)
Ltac off_leaf :=
  intros ? [? ?]; split;
  [ assumption
  | cbn [trace]; rewrite ?reconnects_spawned_snoc; simpl; lia ].

(** Back to the combinators, from the state at hand. *)
Ltac off_resume :=
  match goal with
  | Ha : auto_reconnect _ = false, Hn : reconnects_spawned _ = _
    |- reconnect_off _ (snd (?m ?s)) =>
      cut (invariant (reconnect_off n) m);
      [ intros Hinv; apply Hinv; split; assumption | ]
  end.

Lemma reconnect_off_validate_channels channels :
  invariant (reconnect_off n) (validate_channels channels).
Proof.
  induction channels as [|ch rest IH]; simpl; [apply invariant_ret|].
  apply invariant_bind; [|intros _; exact IH].
  unfold _validate_channel. invariant_auto off_leaf.
Qed.

Lemma reconnect_off_send_message m r : invariant (reconnect_off n) (_send_message m r).
Proof. unfold _send_message. invariant_auto off_leaf. Qed.

Lemma reconnect_off_connect env : invariant (reconnect_off n) (connect env).
Proof. unfold connect. invariant_auto off_leaf. Qed.

Lemma reconnect_off_disconnect : invariant (reconnect_off n) disconnect.
Proof. unfold disconnect. invariant_auto off_leaf. Qed.

Lemma reconnect_off_subscribe channels o r :
  invariant (reconnect_off n) (subscribe channels o r).
Proof.
  pose proof (reconnect_off_validate_channels channels).
  pose proof (reconnect_off_send_message (Subscribe channels o) r).
  unfold subscribe. invariant_auto off_leaf.
Qed.

Lemma reconnect_off_unsubscribe channels r :
  invariant (reconnect_off n) (unsubscribe channels r).
Proof.
  pose proof (reconnect_off_validate_channels channels).
  pose proof (reconnect_off_send_message (Unsubscribe channels) r).
  unfold unsubscribe. invariant_auto off_leaf.
Qed.

Lemma reconnect_off_publish ch ty p cid o r :
  invariant (reconnect_off n) (publish ch ty p cid o r).
Proof.
  pose proof (reconnect_off_validate_channels [ch]) as Hv.
  pose proof (reconnect_off_send_message (Publish ch ty (payload_text p) cid o) r).
  unfold publish, _validate_payload_size, _validate_channel.
  invariant_auto off_leaf.
Qed.

Lemma reconnect_off_replay ch sid k r : invariant (reconnect_off n) (replay ch sid k r).
Proof.
  pose proof (reconnect_off_send_message (Replay ch sid k) r).
  unfold replay, _validate_channel. invariant_auto off_leaf.
Qed.

Lemma reconnect_off_message_handler inbox ending :
  invariant (reconnect_off n) (_message_handler inbox ending).
Proof.
  induction inbox as [|[[data|] now] rest IH]; simpl.
  - destruct ending.
    + apply invariant_ret.
    + apply invariant_bind; [invariant_auto off_leaf | intros _].
      apply invariant_bind; [invariant_auto off_leaf | intros _].
      apply invariant_get_self_bind. intros s [Ha Hn]. rewrite Ha.
      split; assumption.
    + apply invariant_bind; [invariant_auto off_leaf | intros _].
      apply invariant_get_self_bind. intros s [Ha Hn]. rewrite Ha.
      split; assumption.
  - apply invariant_bind; [|intros _; exact IH].
    unfold _handle_message. invariant_auto off_leaf.
  - apply invariant_bind; [invariant_auto off_leaf | intros _; exact IH].
Qed.

Lemma reconnect_off_heartbeat_body t : invariant (reconnect_off n) (heartbeat_body t).
Proof.
  pose proof reconnect_off_disconnect.
  pose proof (reconnect_off_send_message Ping (tick_send t)).
  unfold heartbeat_body.
  apply invariant_try_except; [|intros e; invariant_auto off_leaf].
  apply invariant_bind; [apply invariant_get_self | intros c0].
  apply invariant_bind; [invariant_auto off_leaf | intros _].
  apply invariant_get_self_bind. intros s [Ha Hn]. rewrite Ha.
  off_resume. invariant_auto off_leaf.
Qed.

Lemma reconnect_off_heartbeat_loop ticks :
  invariant (reconnect_off n) (_heartbeat_loop ticks).
Proof.
  induction ticks as [|t rest IH]; simpl.
  - invariant_auto off_leaf.
  - pose proof (reconnect_off_heartbeat_body t). invariant_auto off_leaf.
Qed.

Lemma reconnect_off_reconnect envs : invariant (reconnect_off n) (_reconnect envs).
Proof.
  unfold _reconnect. apply invariant_bind; [apply invariant_get_self | intros c].
  generalize (or_default (reconnect_attempts (config c)) 5). intros k.
  induction envs as [|env rest IH]; simpl.
  - invariant_auto off_leaf.
  - pose proof (reconnect_off_connect (connect_env env)).
    unfold reconnect_body.
    repeat (apply reconnect_off_subscribe || invariant_step off_leaf || invariant_case).
Qed.

Lemma reconnect_off_step ev s : reconnect_off n s -> reconnect_off n (step ev s).
Proof.
  intros H. destruct ev; simpl; unfold run_call.
  - apply reconnect_off_connect, H.
  - apply reconnect_off_disconnect, H.
  - apply reconnect_off_subscribe, H.
  - apply reconnect_off_unsubscribe, H.
  - apply reconnect_off_publish, H.
  - apply reconnect_off_replay, H.
  - destruct (task_is _ _ _); [|exact H].
    exact (reconnect_off_message_handler inbox ending (start_task id s) H).
  - destruct (task_is _ _ _); [|exact H].
    pose proof (reconnect_off_heartbeat_loop ticks (start_task id s) H) as H'.
    destruct (_heartbeat_loop ticks (start_task id s)) as [[[|]|e|x] s']; exact H'.
  - destruct (task_is _ _ _); [|exact H].
    pose proof (reconnect_off_reconnect envs (start_task id s) H) as H'.
    destruct (_reconnect envs (start_task id s)) as [[[u|]|e|x] s']; exact H'.
Qed.

End ReconnectOff.

(** X20. With [auto_reconnect] off, no sequence of API calls and task
    turns ever creates a reconnection task: neither the end of the read
    loop nor the liveness monitor starts one. *)
Theorem no_reconnect_without_auto_reconnect (evs : list event) (s : Sys) :
  auto_reconnect (config (self s)) = false ->
  reconnects_spawned (trace (run evs s)) = reconnects_spawned (trace s) /\
  auto_reconnect (config (self (run evs s))) = false.
Proof.
  intros Hoff.
  assert (H : reconnect_off (reconnects_spawned (trace s)) (run evs s)).
  { assert (H0 : reconnect_off (reconnects_spawned (trace s)) s) by (split; auto).
    revert H0. generalize (reconnects_spawned (trace s)). intros n.
    revert s Hoff. induction evs as [|ev rest IH]; intros s Hoff H0; simpl; [exact H0|].
    apply IH; [|apply reconnect_off_step; exact H0].
    destruct (reconnect_off_step n ev s H0) as [Ha _]. exact Ha. }
  destruct H as [Ha Hn]. split; assumption.
Qed.

(** The connection of the manual session dies and its read loop ends: the
    session is Disconnected and nothing tries to reconnect. *)
Lemma no_reconnect_without_auto_reconnect_witness :
  let evs := [CallConnect (mkConnectEnv 0 (Opened 1) 0);
              RunHeartbeat 1 silent_ticks;
              RunMessageHandler 0 [] ConnectionClosed] in
  connection_state (self (run evs sample_manual)) = DISCONNECTED /\
  reconnects_spawned (trace (run evs sample_manual)) = 0%nat.
Proof.
  intros evs.
  destruct (no_reconnect_without_auto_reconnect evs sample_manual) as [Hsp _];
    [reflexivity|].
  split; [vm_compute; reflexivity | exact Hsp].
Defined.

(** ** Reconnection turns *)

(** X21. A turn of the reconnection loop on a Disconnected session whose
    attempt is admitted by the breaker and whose transport opens, with at
    most 100 subscriptions held, all of the tenant, and the request sent:
    the turn ends the loop; the session is Connected; one subscribe
    request carrying exactly the held channels was sent (none when no
    channel is held); the subscription set is what it was before the
    connection was lost; the attempt counter is back to 0. *)
Theorem reconnect_turn_resubscribes
    (k : Z) (env : AttemptEnv) (rest : list AttemptEnv) (s : Sys) (ws : nat) :
  connection_state (self s) = DISCONNECTED ->
  reconnect_attempt (self s) < k ->
  fst (can_attempt (now_attempt (connect_env env)) (circuit_breaker (self s))) = true ->
  transport (connect_env env) = Opened ws ->
  resubscribe_send env = Sent ->
  (forall ch, ch ∈ subscriptions (self s) ->
     String.prefix (expected_prefix (self s)) ch = true) ->
  2 * Z.of_nat (size (subscriptions (self s))) <= MAX_CHANNELS ->
  exists s',
    reconnect_body k env s = (Return true, s') /\
    reconnect_loop k (env :: rest) s = (Return (Some tt), s') /\
    connection_state (self s') = CONNECTED /\
    websocket (self s') = Some ws /\
    subscriptions (self s') = subscriptions (self s) /\
    reconnect_attempt (self s') = 0 /\
    (subscriptions (self s) <> ∅ ->
       sends (trace s') =
         sends (trace s) ++ [EvSend (Subscribe (elements (subscriptions (self s))) None) Sent] /\
       list_to_set (elements (subscriptions (self s))) = subscriptions (self s)) /\
    (subscriptions (self s) = ∅ -> sends (trace s') = sends (trace s)).
Proof.
  intros Hst Hlt Hadm Htr Hsent Hvalid Hsize.
  set (delay := reconnect_delay (reconnect_attempt (self s)) (loop_time env)).
  set (s0 := mkSys (set_reconnect_attempt (reconnect_attempt (self s) + 1) (self s))
                   ((trace s ++ [EvLog (LogReconnectAttempt
                                          (reconnect_attempt (self s) + 1) k delay)])
                      ++ [EvSleep delay])
                   (tasks s)).
  destruct (connect_on_open (connect_env env) s0 ws) as
    (s1 & Hrun1 & Hst1 & Hws1 & _ & _ & Hat1 & Hsubs1 & Hsends1 & _);
    [cbn; rewrite Hst; discriminate | cbn; rewrite Hst; discriminate
     | exact Hadm | exact Htr |].
  destruct (stable_connect (connect_env env) s0) as [Horg1 _].
  rewrite Hrun1 in Horg1. simpl in Horg1.
  assert (Hsends0 : sends (trace s0) = sends (trace s)).
  { subst s0. cbn [trace]. rewrite !sends_snoc. simpl. rewrite !app_nil_r. reflexivity. }
  assert (Hic1 : is_connected (self s1) = true)
    by (unfold is_connected; rewrite Hst1; reflexivity).
  assert (Hsubs : subscriptions (self s1) = subscriptions (self s)) by exact Hsubs1.
  assert (Hbody : exists s',
    reconnect_body k env s = (Return true, s') /\
    connection_state (self s') = CONNECTED /\
    websocket (self s') = Some ws /\
    subscriptions (self s') = subscriptions (self s) /\
    reconnect_attempt (self s') = 0 /\
    (subscriptions (self s) <> ∅ ->
       sends (trace s') =
         sends (trace s) ++ [EvSend (Subscribe (elements (subscriptions (self s))) None) Sent] /\
       list_to_set (elements (subscriptions (self s))) = subscriptions (self s)) /\
    (subscriptions (self s) = ∅ -> sends (trace s') = sends (trace s))).
  { unfold reconnect_body, try_except.
    unfold bind at 1. unfold get_self at 1.
    unfold bind at 1. unfold log at 1, emit at 1.
    unfold bind at 1. unfold emit at 1.
    unfold bind at 1. unfold modify_self at 1. cbn [self trace tasks].
    fold delay. fold s0.
    unfold bind at 1. rewrite Hrun1.
    unfold bind at 1. unfold get_self at 1.
    destruct (decide (subscriptions (self s1) = ∅)) as [Hempty|Hne].
    - rewrite bool_decide_eq_false_2 by (intros Hn; apply Hn; exact Hempty).
      unfold when. mred. eexists. split; [reflexivity|]. simpl.
      split; [exact Hst1|]. split; [exact Hws1|]. split; [exact Hsubs|].
      split; [exact Hat1|]. rewrite <- Hsubs.
      split; [intros Hn; contradiction|]. intros _.
      rewrite sends_snoc. simpl. rewrite app_nil_r, Hsends1. exact Hsends0.
    - rewrite bool_decide_eq_true_2 by exact Hne.
      unfold when. unfold bind at 1.
      rewrite subscribe_run, Hic1.
      assert (Hlen : length (elements (subscriptions (self s1)))
                     = size (subscriptions (self s1))) by reflexivity.
      rewrite Hlen.
      destruct (Z.ltb_spec MAX_CHANNELS
                  (Z.of_nat (size (subscriptions (self s1)))
                   + Z.of_nat (size (subscriptions (self s1))))) as [Hover|_];
        [rewrite Hsubs in Hover; lia|].
      rewrite first_foreign_all_valid.
      2:{ intros ch Hin. apply list_elem_of_In, elem_of_elements in Hin.
          rewrite Hsubs in Hin. unfold expected_prefix. rewrite Horg1.
          apply Hvalid, Hin. }
      rewrite send_message_run, Hws1, Hic1, Hsent. mred.
      eexists. split; [reflexivity|]. simpl.
      split; [exact Hst1|]. split; [exact Hws1|].
      rewrite list_to_set_elements_L, (idemp_L (∪)).
      split; [exact Hsubs|]. split; [exact Hat1|].
      rewrite <- Hsubs. split; [|intros Hn; contradiction]. intros _.
      split; [|apply list_to_set_elements_L].
      rewrite !sends_snoc. simpl. rewrite !app_nil_r, Hsends1, Hsends0. reflexivity. }
  destruct Hbody as (s' & Hrun & Hrest). exists s'.
  split; [exact Hrun|]. split; [|exact Hrest].
  cbn [reconnect_loop]. unfold bind at 1. unfold get_self at 1.
  apply Z.ltb_lt in Hlt. rewrite Hlt. unfold bind at 1. rewrite Hrun. reflexivity.
Qed.

Lemma reconnect_turn_resubscribes_witness :
  let env := mkAttemptEnv (1 # 2)
               (mkConnectEnv (timedelta_seconds 100) (Opened 2) (timedelta_seconds 100))
               Sent in
  exists s',
    reconnect_loop 2 [env] sample_subscribed_dropped = (Return (Some tt), s') /\
    connection_state (self s') = CONNECTED /\
    subscriptions (self s') = subscriptions (self sample_subscribed_dropped) /\
    size (subscriptions (self s')) = 2%nat.
Proof.
  intros env.
  destruct (reconnect_turn_resubscribes 2 env [] sample_subscribed_dropped 2%nat)
    as (s' & _ & Hloop & Hst & _ & Hsubs & _).
  - vm_compute. reflexivity.
  - vm_compute. reflexivity.
  - vm_compute. reflexivity.
  - reflexivity.
  - reflexivity.
  - intros ch Hin.
    assert (Hch : ch ∈ ({[ "org:acme:a"; "org:acme:b" ]} : gset string))
      by (revert Hin; vm_compute; exact id).
    apply elem_of_union in Hch. destruct Hch as [Hch|Hch];
      apply elem_of_singleton in Hch; subst ch; vm_compute; reflexivity.
  - vm_compute. discriminate.
  - exists s'. split; [exact Hloop|]. split; [exact Hst|]. split; [exact Hsubs|].
    rewrite Hsubs. vm_compute. reflexivity.
Defined.

Section ConnectedTurns.

Implicit Types (s : Sys) (env : AttemptEnv).

(** [connect()] does not start a turn of the reconnection loop. *)
Lemma connect_starts_no_turn (cenv : ConnectEnv) (n : nat) :
  invariant (fun s => reconnect_attempts_made (trace s) = n) (connect cenv).
Proof.
  unfold connect.
  invariant_auto ltac:(intros ? ?; cbn [trace];
                       rewrite ?reconnect_attempts_made_snoc; simpl; lia).
Qed.

Lemma connect_noop (cenv : ConnectEnv) s :
  connection_state (self s) = CONNECTED -> connect cenv s = (Return tt, s).
Proof. intros Hst. unfold connect. mred. rewrite Hst. reflexivity. Qed.

(** A turn of the loop on a session that is Connected: [connect()] does
    nothing, and the turn is the resubscription. *)
Lemma reconnect_body_connected (k : Z) env s :
  connection_state (self s) = CONNECTED ->
  reconnect_body k env s =
    let s0 := turn_started k env s in
    if bool_decide (subscriptions (self s) ≠ ∅) then
      match subscribe (elements (subscriptions (self s))) None (resubscribe_send env) s0 with
      | (Return _, s1) =>
          (Return true, mkSys (self s1) (trace s1 ++ [EvLog LogReconnected]) (tasks s1))
      | (Raise e, s1) =>
          (Return false,
           mkSys (self s1)
                 (trace s1 ++ [EvLog (LogReconnectAttemptFailed
                                        (reconnect_attempt (self s1)) e)])
                 (tasks s1))
      | (RaisePy x, s1) =>
          (Return false,
           mkSys (self s1)
                 (trace s1 ++ [EvLog (LogReconnectAttemptFailed
                                        (reconnect_attempt (self s1)) (Other x))])
                 (tasks s1))
      end
    else (Return true, mkSys (self s0) (trace s0 ++ [EvLog LogReconnected]) (tasks s0)).
Proof.
  intros Hst. unfold reconnect_body, try_except.
  unfold bind at 1. unfold get_self at 1.
  unfold bind at 1. unfold log at 1, emit at 1.
  unfold bind at 1. unfold emit at 1.
  unfold bind at 1. unfold modify_self at 1. cbn [self trace tasks].
  fold (turn_started k env s).
  unfold bind at 1. rewrite connect_noop by exact Hst.
  unfold bind at 1. unfold get_self at 1.
  change (subscriptions (self (turn_started k env s))) with (subscriptions (self s)).
  cbv zeta.
  destruct (bool_decide (subscriptions (self s) ≠ ∅)); unfold when.
  - unfold bind at 1.
    destruct (subscribe _ None (resubscribe_send env) (turn_started k env s))
      as [[[]|e|x] s1]; reflexivity.
  - reflexivity.
Qed.

(** A turn on a Connected session that holds more than 100 channels: the
    resubscription is refused before anything is sent. *)
Lemma reconnect_body_refused (k : Z) env s :
  connection_state (self s) = CONNECTED ->
  MAX_CHANNELS < 2 * Z.of_nat (size (subscriptions (self s))) ->
  reconnect_body k env s =
    (Return false,
     mkSys (self (turn_started k env s))
           (trace (turn_started k env s)
              ++ [EvLog (LogReconnectAttemptFailed
                           (reconnect_attempt (self s) + 1)
                           (mkExn AxonPulsValidationError (MsgMaxChannels MAX_CHANNELS)))])
           (tasks s)).
Proof.
  intros Hst Hover. rewrite reconnect_body_connected by exact Hst. cbv zeta.
  assert (Hne : subscriptions (self s) ≠ ∅).
  { intros Hempty. rewrite Hempty, size_empty in Hover. unfold MAX_CHANNELS in Hover. lia. }
  rewrite bool_decide_eq_true_2 by exact Hne.
  rewrite subscribe_run.
  assert (Hic : is_connected (self (turn_started k env s)) = true)
    by (unfold is_connected; simpl; rewrite Hst; reflexivity).
  rewrite Hic.
  change (subscriptions (self (turn_started k env s))) with (subscriptions (self s)).
  assert (Hlen : length (elements (subscriptions (self s)))
                 = size (subscriptions (self s))) by reflexivity.
  rewrite Hlen.
  destruct (Z.ltb_spec MAX_CHANNELS
              (Z.of_nat (size (subscriptions (self s)))
               + Z.of_nat (size (subscriptions (self s))))); [reflexivity|lia].
Qed.

(** The loop on such a session: every turn left is refused, then the
    exhaustion is logged. *)
Lemma reconnect_loop_refused (k : Z) (envs : list AttemptEnv) s :
  connection_state (self s) = CONNECTED ->
  MAX_CHANNELS < 2 * Z.of_nat (size (subscriptions (self s))) ->
  reconnect_attempt (self s) <= k ->
  k - reconnect_attempt (self s) <= Z.of_nat (length envs) ->
  exists s',
    reconnect_loop k envs s = (Return (Some tt), s') /\
    connection_state (self s') = CONNECTED /\
    websocket (self s') = websocket (self s) /\
    subscriptions (self s') = subscriptions (self s) /\
    sends (trace s') = sends (trace s) /\
    transport_connects (trace s') = transport_connects (trace s) /\
    reconnect_attempts_made (trace s') =
      (reconnect_attempts_made (trace s) + Z.to_nat (k - reconnect_attempt (self s)))%nat /\
    last (trace s') = Some (EvLog LogReconnectExhausted).
Proof.
  revert s. induction envs as [|env rest IH]; intros s Hst Hover Hle Hlen.
  - simpl in Hlen. assert (Hk : reconnect_attempt (self s) = k) by lia.
    eexists. split.
    { cbn [reconnect_loop]. mred. rewrite Hk, Z.ltb_irrefl. reflexivity. }
    cbn [self trace tasks]. repeat split; try assumption.
    + rewrite sends_snoc. simpl. apply app_nil_r.
    + rewrite transport_connects_snoc. simpl. lia.
    + rewrite reconnect_attempts_made_snoc, Hk, Z.sub_diag. simpl. lia.
    + apply last_snoc.
  - destruct (Z.ltb_spec (reconnect_attempt (self s)) k) as [Hlt|Hge].
    + pose proof (reconnect_body_refused k env s Hst Hover) as Hbody.
      set (s1 := mkSys (self (turn_started k env s))
                   (trace (turn_started k env s)
                      ++ [EvLog (LogReconnectAttemptFailed
                                   (reconnect_attempt (self s) + 1)
                                   (mkExn AxonPulsValidationError
                                          (MsgMaxChannels MAX_CHANNELS)))])
                   (tasks s)) in *.
      destruct (IH s1) as (s' & Hloop & Hst' & Hws' & Hsubs' & Hsends' & Htc' & Hmade' & Hlast').
      { exact Hst. }
      { exact Hover. }
      { subst s1. simpl. lia. }
      { subst s1. simpl. simpl length in Hlen. lia. }
      exists s'. split.
      { cbn [reconnect_loop]. unfold bind at 1. unfold get_self at 1.
        apply Z.ltb_lt in Hlt. rewrite Hlt.
        unfold bind at 1. rewrite Hbody. exact Hloop. }
      split; [exact Hst'|]. split; [exact Hws'|]. split; [exact Hsubs'|].
      split.
      { rewrite Hsends'. subst s1. unfold turn_started. cbn [trace].
        rewrite !sends_snoc. simpl. rewrite !app_nil_r. reflexivity. }
      split.
      { rewrite Htc'. subst s1. unfold turn_started. cbn [trace].
        rewrite !transport_connects_snoc. simpl. lia. }
      split; [|exact Hlast'].
      rewrite Hmade'. subst s1. unfold turn_started. cbn [trace self].
      rewrite !reconnect_attempts_made_snoc. simpl. lia.
    + assert (Hk : reconnect_attempt (self s) = k) by lia.
      eexists. split.
      { cbn [reconnect_loop]. mred. rewrite Hk, Z.ltb_irrefl. reflexivity. }
      cbn [self trace tasks]. repeat split; try assumption.
      * rewrite sends_snoc. simpl. apply app_nil_r.
      * rewrite transport_connects_snoc. simpl. lia.
      * rewrite reconnect_attempts_made_snoc, Hk, Z.sub_diag. simpl. lia.
      * apply last_snoc.
Qed.

End ConnectedTurns.

(** X22. A session that holds more than 100 subscriptions is never
    resubscribed by the reconnection loop: the request names every held
    channel, and the limit check of [subscribe] adds their number to the
    number held, so that twice the number is compared with 200. When
    the connection is re-established, the resubscription is refused
    with [AxonPulsValidationError] before anything is sent, the
    turn counts as failed, and the loop goes on: its remaining turns, as
    many as [max_retries] since the connection reset the counter, find the
    client Connected, open nothing and are refused alike, and the loop
    ends by logging the exhaustion. The session is then Connected, its
    subscription set is unchanged, and no subscribe request was sent. *)
Theorem resubscribe_refused_over_100
    (k : Z) (env : AttemptEnv) (rest : list AttemptEnv) (s : Sys) (ws : nat) :
  connection_state (self s) = DISCONNECTED ->
  0 <= reconnect_attempt (self s) < k ->
  fst (can_attempt (now_attempt (connect_env env)) (circuit_breaker (self s))) = true ->
  transport (connect_env env) = Opened ws ->
  MAX_CHANNELS < 2 * Z.of_nat (size (subscriptions (self s))) ->
  k <= Z.of_nat (length rest) ->
  exists s',
    reconnect_loop k (env :: rest) s = (Return (Some tt), s') /\
    connection_state (self s') = CONNECTED /\
    websocket (self s') = Some ws /\
    subscriptions (self s') = subscriptions (self s) /\
    sends (trace s') = sends (trace s) /\
    transport_connects (trace s') = S (transport_connects (trace s)) /\
    reconnect_attempts_made (trace s') =
      (reconnect_attempts_made (trace s) + 1 + Z.to_nat k)%nat /\
    last (trace s') = Some (EvLog LogReconnectExhausted).
Proof.
  intros Hst [Hge Hlt] Hadm Htr Hover Hlen.
  destruct (connect_on_open (connect_env env) (turn_started k env s) ws) as
    (s1 & Hrun1 & Hst1 & Hws1 & _ & _ & Hat1 & Hsubs1 & Hsends1 & Htc1 & _);
    [cbn; rewrite Hst; discriminate | cbn; rewrite Hst; discriminate
     | exact Hadm | exact Htr |].
  change (subscriptions (self (turn_started k env s)))
    with (subscriptions (self s)) in Hsubs1.
  assert (Hne : subscriptions (self s1) ≠ ∅).
  { rewrite Hsubs1. intros Hempty. rewrite Hempty, size_empty in Hover.
    unfold MAX_CHANNELS in Hover. lia. }
  assert (Hic1 : is_connected (self s1) = true)
    by (unfold is_connected; rewrite Hst1; reflexivity).
  set (e := mkExn AxonPulsValidationError (MsgMaxChannels MAX_CHANNELS)).
  set (s2 := mkSys (self s1)
               (trace s1 ++ [EvLog (LogReconnectAttemptFailed (reconnect_attempt (self s1)) e)])
               (tasks s1)).
  assert (Hbody : reconnect_body k env s = (Return false, s2)).
  { unfold reconnect_body, try_except.
    unfold bind at 1. unfold get_self at 1.
    unfold bind at 1. unfold log at 1, emit at 1.
    unfold bind at 1. unfold emit at 1.
    unfold bind at 1. unfold modify_self at 1. cbn [self trace tasks].
    fold (turn_started k env s).
    unfold bind at 1. rewrite Hrun1.
    unfold bind at 1. unfold get_self at 1.
    rewrite bool_decide_eq_true_2 by exact Hne.
    unfold when. unfold bind at 1. rewrite subscribe_run, Hic1.
    assert (Hl : length (elements (subscriptions (self s1)))
                 = size (subscriptions (self s1))) by reflexivity.
    rewrite Hl, Hsubs1.
    destruct (Z.ltb_spec MAX_CHANNELS
                (Z.of_nat (size (subscriptions (self s)))
                 + Z.of_nat (size (subscriptions (self s))))); [|lia].
    reflexivity. }
  destruct (reconnect_loop_refused k rest s2) as
    (s' & Hloop & Hst' & Hws' & Hsubs' & Hsends' & Htc' & Hmade' & Hlast').
  { exact Hst1. }
  { subst s2. cbn [self]. rewrite Hsubs1. exact Hover. }
  { subst s2. cbn [self]. rewrite Hat1. lia. }
  { subst s2. cbn [self]. rewrite Hat1. lia. }
  exists s'. split.
  { cbn [reconnect_loop]. unfold bind at 1. unfold get_self at 1.
    apply Z.ltb_lt in Hlt. rewrite Hlt.
    unfold bind at 1. rewrite Hbody. exact Hloop. }
  split; [exact Hst'|]. split; [rewrite Hws'; exact Hws1|].
  split; [rewrite Hsubs'; exact Hsubs1|].
  split.
  { rewrite Hsends'. subst s2. cbn [trace]. rewrite sends_snoc. simpl.
    rewrite app_nil_r, Hsends1. unfold turn_started. cbn [trace].
    rewrite !sends_snoc. simpl. rewrite !app_nil_r. reflexivity. }
  split.
  { rewrite Htc'. subst s2. cbn [trace]. rewrite transport_connects_snoc. simpl.
    rewrite Htc1. unfold turn_started. cbn [trace].
    rewrite !transport_connects_snoc. simpl. lia. }
  split; [|exact Hlast'].
  pose proof (connect_starts_no_turn (connect_env env) _ (turn_started k env s) eq_refl)
    as Hmade1.
  rewrite Hrun1 in Hmade1. simpl snd in Hmade1.
  rewrite Hmade'. subst s2. cbn [trace self]. rewrite Hat1.
  rewrite reconnect_attempts_made_snoc, Hmade1. unfold turn_started. cbn [trace].
  rewrite !reconnect_attempts_made_snoc. simpl. rewrite Z.sub_0_r. lia.
Qed.

Lemma resubscribe_refused_over_100_witness :
  let env := mkAttemptEnv (1 # 2)
               (mkConnectEnv (timedelta_seconds 100) (Opened 2) (timedelta_seconds 100))
               Sent in
  exists s',
    reconnect_loop 2 [env; env; env] sample_crowded_dropped = (Return (Some tt), s') /\
    connection_state (self s') = CONNECTED /\
    size (subscriptions (self s')) = 101%nat /\
    sends (trace s') = sends (trace sample_crowded_dropped) /\
    last (trace s') = Some (EvLog LogReconnectExhausted).
Proof.
  intros env.
  destruct (resubscribe_refused_over_100 2 env [env; env] sample_crowded_dropped 2%nat)
    as (s' & Hloop & Hst & _ & Hsubs & Hsends & _ & _ & Hlast).
  - vm_compute. reflexivity.
  - vm_compute. split; [discriminate | reflexivity].
  - vm_compute. reflexivity.
  - reflexivity.
  - vm_compute. reflexivity.
  - simpl. lia.
  - exists s'. split; [exact Hloop|]. split; [exact Hst|].
    split; [rewrite Hsubs; vm_compute; reflexivity|].
    split; [exact Hsends | exact Hlast].
Defined.

(** X23. A reconnection loop started on a session that is still marked
    Connected, as after an error of the read loop other than
    [ConnectionClosed], opens no connection: its [connect()] returns at
    once. With at most 100 subscriptions, all of the tenant, and the
    request sent, its first turn sends the subscribe request on the
    socket the client has and ends the loop; the client is as it was,
    save its attempt counter, which rose by one and was not reset. *)
Theorem reconnect_while_connected
    (k : Z) (env : AttemptEnv) (rest : list AttemptEnv) (s : Sys) (ws : nat) :
  connection_state (self s) = CONNECTED ->
  websocket (self s) = Some ws ->
  reconnect_attempt (self s) < k ->
  resubscribe_send env = Sent ->
  (forall ch, ch ∈ subscriptions (self s) ->
     String.prefix (expected_prefix (self s)) ch = true) ->
  2 * Z.of_nat (size (subscriptions (self s))) <= MAX_CHANNELS ->
  exists s',
    reconnect_loop k (env :: rest) s = (Return (Some tt), s') /\
    self s' = set_reconnect_attempt (reconnect_attempt (self s) + 1) (self s) /\
    transport_connects (trace s') = transport_connects (trace s) /\
    tasks s' = tasks s /\
    sends (trace s') =
      sends (trace s) ++
      (if bool_decide (subscriptions (self s) ≠ ∅)
       then [EvSend (Subscribe (elements (subscriptions (self s))) None) Sent]
       else []).
Proof.
  intros Hst Hws Hlt Hsent Hvalid Hsize.
  assert (Hbody : exists s',
    reconnect_body k env s = (Return true, s') /\
    self s' = set_reconnect_attempt (reconnect_attempt (self s) + 1) (self s) /\
    transport_connects (trace s') = transport_connects (trace s) /\
    tasks s' = tasks s /\
    sends (trace s') =
      sends (trace s) ++
      (if bool_decide (subscriptions (self s) ≠ ∅)
       then [EvSend (Subscribe (elements (subscriptions (self s))) None) Sent]
       else [])).
  { rewrite reconnect_body_connected by exact Hst. cbv zeta.
    destruct (bool_decide (subscriptions (self s) ≠ ∅)).
    - rewrite subscribe_run.
      assert (Hic : is_connected (self (turn_started k env s)) = true)
        by (unfold is_connected; simpl; rewrite Hst; reflexivity).
      rewrite Hic.
      change (subscriptions (self (turn_started k env s))) with (subscriptions (self s)).
      assert (Hlen : length (elements (subscriptions (self s)))
                     = size (subscriptions (self s))) by reflexivity.
      rewrite Hlen.
      destruct (Z.ltb_spec MAX_CHANNELS
                  (Z.of_nat (size (subscriptions (self s)))
                   + Z.of_nat (size (subscriptions (self s))))); [lia|].
      rewrite first_foreign_all_valid.
      2:{ intros ch Hin. apply list_elem_of_In, elem_of_elements in Hin.
          apply Hvalid, Hin. }
      rewrite send_message_run.
      change (websocket (self (turn_started k env s))) with (websocket (self s)).
      rewrite Hws, Hic, Hsent.
      eexists. split; [reflexivity|]. cbn [self trace tasks].
      split.
      { rewrite list_to_set_elements_L, (idemp_L (∪)).
        unfold turn_started. cbn [self]. destruct (self s); reflexivity. }
      split.
      { unfold turn_started. cbn [trace]. rewrite !transport_connects_snoc. simpl. lia. }
      split; [reflexivity|].
      unfold turn_started. cbn [trace]. rewrite !sends_snoc. simpl.
      rewrite !app_nil_r. reflexivity.
    - eexists. split; [reflexivity|]. cbn [self trace tasks].
      split; [reflexivity|]. split.
      { unfold turn_started. cbn [trace]. rewrite !transport_connects_snoc. simpl. lia. }
      split; [reflexivity|].
      unfold turn_started. cbn [trace]. rewrite !sends_snoc. simpl.
      rewrite !app_nil_r. reflexivity. }
  destruct Hbody as (s' & Hrun & Hrest). exists s'. split; [|exact Hrest].
  cbn [reconnect_loop]. unfold bind at 1. unfold get_self at 1.
  apply Z.ltb_lt in Hlt. rewrite Hlt. unfold bind at 1. rewrite Hrun. reflexivity.
Qed.

Lemma reconnect_while_connected_witness :
  let env := mkAttemptEnv (1 # 2)
               (mkConnectEnv (timedelta_seconds 100) (Opened 2) (timedelta_seconds 100))
               Sent in
  exists s',
    reconnect_loop 2 [env] sample_subscribed = (Return (Some tt), s') /\
    websocket (self s') = Some 1%nat /\
    reconnect_attempt (self s') = 1 /\
    transport_connects (trace s') = transport_connects (trace sample_subscribed).
Proof.
  intros env.
  destruct (reconnect_while_connected 2 env [] sample_subscribed 1%nat)
    as (s' & Hloop & Hself & Htc & _).
  - vm_compute. reflexivity.
  - vm_compute. reflexivity.
  - vm_compute. reflexivity.
  - reflexivity.
  - intros ch Hin.
    assert (Hch : ch ∈ ({[ "org:acme:a"; "org:acme:b" ]} : gset string))
      by (revert Hin; vm_compute; exact id).
    apply elem_of_union in Hch. destruct Hch as [Hch|Hch];
      apply elem_of_singleton in Hch; subst ch; vm_compute; reflexivity.
  - vm_compute. discriminate.
  - exists s'. split; [exact Hloop|]. rewrite Hself.
    split; [vm_compute; reflexivity|]. split; [reflexivity | exact Htc].
Defined.

(** ** The factory *)

Section Factory.

Variables (jwt_decode : jwt_decoder) (now : time).
Variables (org tok gateway_url : string) (kwargs : org_client_kwargs).
Variable env : ConnectEnv.

(** The constructor, by what the token carries. *)
Lemma init_by_token_org :
  match token_org jwt_decode tok with
  | Some o =>
      if String.eqb o ""
      then exists logged,
             __init__ jwt_decode now (create_org_client_config tok gateway_url kwargs)
             = (Raise (mkExn AxonPulsValidationError MsgTokenWithoutOrg), logged) /\
             transport_connects logged = 0%nat
      else __init__ jwt_decode now (create_org_client_config tok gateway_url kwargs)
           = (Return (mkClient (create_org_client_config tok gateway_url kwargs)
                               o None ∅ DISCONNECTED None None
                               default_breaker 0 now 0 ∅ false),
              [EvLog (LogInitialized o)])
  | None =>
      exists logged,
        __init__ jwt_decode now (create_org_client_config tok gateway_url kwargs)
        = (Raise (mkExn AxonPulsValidationError MsgTokenWithoutOrg), logged) /\
        transport_connects logged = 0%nat
  end.
Proof.
  unfold token_org, __init__, _extract_org_id_from_token.
  change (jwt_decode _) with (jwt_decode tok).
  destruct (jwt_decode tok) as [payload|]; simpl.
  - destruct (payload !! "organizationId") as [o|]; simpl.
    + destruct (String.eqb o ""); simpl.
      * eexists. split; reflexivity.
      * reflexivity.
    + eexists. split; reflexivity.
  - eexists. split; reflexivity.
Qed.


(** The session of a client the factory has constructed, when it calls
    [connect()]. *)
Lemma factory_connect (o : string) (ws : nat) :
  transport env = Opened ws ->
  exists s,
    connect env (new_session (mkClient (create_org_client_config tok gateway_url kwargs)
                                       o None ∅ DISCONNECTED None None
                                       default_breaker 0 now 0 ∅ false)
                             [EvLog (LogInitialized o)])
    = (Return tt, s) /\
    org_id (self s) = o /\
    config (self s) = create_org_client_config tok gateway_url kwargs /\
    connection_state (self s) = CONNECTED /\
    websocket (self s) = Some ws /\
    subscriptions (self s) = ∅ /\
    transport_connects (trace s) = 1%nat /\
    (kw_heartbeat_interval kwargs = None ->
     tasks s = [mkTask MessageHandlerTask Active; mkTask HeartbeatTask Active] /\
     _heartbeat_task (self s) = Some 1%nat).
Proof.
  intros Htr. unfold connect. mred. rewrite Htr. mred.
  unfold create_org_client_config. simpl.
  destruct (kw_heartbeat_interval kwargs) as [[i|]|]; simpl.
  - destruct (0 <? i); mred;
      (eexists; split; [reflexivity|]); repeat split; try reflexivity; discriminate.
  - eexists. split; [reflexivity|]. repeat split; try reflexivity; discriminate.
  - mred. eexists. split; [reflexivity|]. repeat split; reflexivity.
Qed.

End Factory.

(** X24. [create_org_client] returns a client exactly when the token
    carries the requested organization, not empty, and the transport
    opens. The client returned is of that organization, Connected, with
    no subscription, after one call of [websockets.connect]; when no
    [heartbeat_interval] is passed it runs the liveness monitor, on the
    factory's default of 30 s. When the token does not carry the
    requested organization the factory raises before any connection is
    attempted: the constructor's [AxonPulsValidationError] when the token
    has no organization, its own otherwise. *)
Theorem create_org_client_spec
    (jwt_decode : jwt_decoder) (now : time) (org tok gateway_url : string)
    (kwargs : org_client_kwargs) (env : ConnectEnv) :
  let result := create_org_client jwt_decode now org tok gateway_url kwargs env in
  ((exists s, result = Created s) <->
   (token_org jwt_decode tok = Some org /\ org <> "" /\
    exists ws, transport env = Opened ws)) /\
  (forall s, result = Created s ->
     org_id (self s) = org /\
     config (self s) = create_org_client_config tok gateway_url kwargs /\
     connection_state (self s) = CONNECTED /\
     (exists ws, transport env = Opened ws /\ websocket (self s) = Some ws) /\
     subscriptions (self s) = ∅ /\
     transport_connects (trace s) = 1%nat /\
     (kw_heartbeat_interval kwargs = None ->
      tasks s = [mkTask MessageHandlerTask Active; mkTask HeartbeatTask Active] /\
      _heartbeat_task (self s) = Some 1%nat)) /\
  (forall e done, result = Failed e done ->
     token_org jwt_decode tok <> Some org ->
     transport_connects done = 0%nat /\
     match token_org jwt_decode tok with
     | Some o =>
         if String.eqb o ""
         then e = ClientError (mkExn AxonPulsValidationError MsgTokenWithoutOrg)
         else e = OrgMismatch o org
     | None => e = ClientError (mkExn AxonPulsValidationError MsgTokenWithoutOrg)
     end).
Proof.
  intros result. subst result. unfold create_org_client.
  pose proof (init_by_token_org jwt_decode now tok gateway_url kwargs) as Hinit.
  destruct (token_org jwt_decode tok) as [o|] eqn:Horg.
  2:{ destruct Hinit as (logged & -> & Hnone).
      split; [|split].
      - split; [intros [s [=]] | intros [[=] _]].
      - intros s [=].
      - intros e done [= <- <-] _. split; [exact Hnone | reflexivity]. }
  destruct (String.eqb_spec o "") as [Hempty|Hfull].
  { destruct Hinit as (logged & -> & Hnone).
    split; [|split].
    - split; [intros [s [=]] | intros ([= ->] & Hne & _); contradiction].
    - intros s [=].
    - intros e done [= <- <-] _. split; [exact Hnone | reflexivity]. }
  rewrite Hinit. cbn [org_id].
  destruct (String.eqb_spec o org) as [->|Hother]; cbn [negb].
  2:{ split; [|split].
      - split; [intros [s [=]] | intros ([= ->] & _); contradiction].
      - intros s [=].
      - intros e done [= <- <-] _. split; reflexivity. }
  destruct (transport env) as [ws|cause] eqn:Htr.
  - destruct (factory_connect now tok gateway_url kwargs env org ws Htr)
      as (s & -> & Hrest).
    split; [|split].
    + split; [intros _ | intros _; exists s; reflexivity].
      split; [reflexivity|]. split; [exact Hfull|]. exists ws; reflexivity.
    + intros s0 [= <-].
      destruct Hrest as (H1 & H2 & H3 & H4 & H5 & H6 & H7).
      split; [exact H1|]. split; [exact H2|]. split; [exact H3|].
      split; [exists ws; split; [reflexivity | exact H4]|].
      split; [exact H5|]. split; [exact H6 | exact H7].
    + intros e done [=].
  - destruct (connect_on_failure env
                (new_session (mkClient (create_org_client_config tok gateway_url kwargs)
                                       org None ∅ DISCONNECTED None None
                                       default_breaker 0 now 0 ∅ false)
                             [EvLog (LogInitialized org)]) cause)
      as (s & -> & _); [discriminate | discriminate | reflexivity | exact Htr |].
    split; [|split].
    + split; [intros [s0 [=]] | intros (_ & _ & ws & [=])].
    + intros s0 [=].
    + intros e done _ Hne. contradiction.
Qed.

Lemma create_org_client_spec_witness :
  (exists s,
     create_org_client sample_jwt 0 "acme" "tok" "wss://gateway.example/ws"
                       (mkKwargs None None None None None)
                       (mkConnectEnv 0 (Opened 1) 0) = Created s) /\
  (forall e done,
     create_org_client sample_jwt 0 "other" "tok" "wss://gateway.example/ws"
                       (mkKwargs None None None None None)
                       (mkConnectEnv 0 (Opened 1) 0) = Failed e done ->
     e = OrgMismatch "acme" "other" /\ transport_connects done = 0%nat).
Proof.
  split.
  - apply (create_org_client_spec sample_jwt 0 "acme" "tok" "wss://gateway.example/ws"
             (mkKwargs None None None None None) (mkConnectEnv 0 (Opened 1) 0)).
    split; [reflexivity|]. split; [discriminate|]. exists 1%nat. reflexivity.
  - intros e done Hrun.
    destruct (create_org_client_spec sample_jwt 0 "other" "tok" "wss://gateway.example/ws"
                (mkKwargs None None None None None) (mkConnectEnv 0 (Opened 1) 0))
      as (_ & _ & Hfail).
    destruct (Hfail e done Hrun) as [Hnone He]; [vm_compute; discriminate|].
    split; [exact He | exact Hnone].
Defined.

(** ** Event handlers *)

Section Handlers.

Implicit Types (h : nat) (l : list nat) (hs : gmap string (list nat)).

Lemma list_remove_first h l1 l2 :
  h ∉ l1 -> list_remove h (l1 ++ h :: l2) = Some (l1 ++ l2).
Proof.
  induction l1 as [|y l1 IH]; intros Hnot; simpl.
  - rewrite decide_True by reflexivity. reflexivity.
  - apply not_elem_of_cons in Hnot. destruct Hnot as [Hne Hnot].
    rewrite decide_False by congruence. rewrite IH by exact Hnot. reflexivity.
Qed.

Lemma list_remove_none h l : h ∉ l -> list_remove h l = None.
Proof.
  induction l as [|y l IH]; intros Hnot; simpl; [reflexivity|].
  apply not_elem_of_cons in Hnot. destruct Hnot as [Hne Hnot].
  rewrite decide_False by congruence. rewrite IH by exact Hnot. reflexivity.
Qed.

Lemma on_called t h hs t' :
  handlers_called (Some t') (on t h hs) =
    if decide (t = t') then handlers_called (Some t) hs ++ [h]
    else handlers_called (Some t') hs.
Proof.
  unfold on, handlers_called. destruct (decide (t = t')) as [->|Hne].
  - rewrite lookup_insert_eq. reflexivity.
  - rewrite lookup_insert_ne by exact Hne. reflexivity.
Qed.

Lemma off_called t h hs t' :
  handlers_called (Some t') (off t (Some h) hs) =
    if decide (t = t')
    then default (handlers_called (Some t) hs)
                 (list_remove h (handlers_called (Some t) hs))
    else handlers_called (Some t') hs.
Proof.
  unfold off, handlers_called.
  destruct (hs !! t) as [l|] eqn:Hl; simpl.
  - destruct (list_remove h l) as [l'|] eqn:Hrm; simpl.
    + destruct (decide (t = t')) as [->|Hne].
      * rewrite lookup_insert_eq. reflexivity.
      * rewrite lookup_insert_ne by exact Hne. reflexivity.
    + destruct (decide (t = t')) as [->|Hne]; [rewrite Hl|]; reflexivity.
  - destruct (decide (t = t')) as [->|Hne]; [rewrite Hl|]; reflexivity.
Qed.

End Handlers.

(** X25. Registering a handler and unregistering it again: every event
    type has the handlers it had, as a multiset. When the handler was not
    registered for the type before, the order of the calls is as it was.
    When it was, [off] removes its earliest registration, not the one
    just made: the handler moves to the end of the order of the calls. *)
Theorem on_off_round_trip (t : string) (h : nat) (hs : gmap string (list nat)) :
  let hs' := off t (Some h) (on t h hs) in
  (forall t', handlers_called t' hs' ≡ₚ handlers_called t' hs) /\
  (h ∉ handlers_called (Some t) hs ->
   handlers_called (Some t) hs' = handlers_called (Some t) hs) /\
  (forall l1 l2,
     handlers_called (Some t) hs = l1 ++ h :: l2 -> h ∉ l1 ->
     handlers_called (Some t) hs' = l1 ++ l2 ++ [h]).
Proof.
  intros hs'. subst hs'.
  assert (Hfresh : h ∉ handlers_called (Some t) hs ->
            handlers_called (Some t) (off t (Some h) (on t h hs))
            = handlers_called (Some t) hs).
  { intros Hnot. rewrite off_called, decide_True by reflexivity.
    rewrite on_called, decide_True by reflexivity.
    rewrite <- (app_nil_r (handlers_called (Some t) hs)) at 1 2.
    rewrite <- app_assoc. simpl.
    rewrite list_remove_first by exact Hnot. simpl. apply app_nil_r. }
  assert (Hheld : forall l1 l2,
            handlers_called (Some t) hs = l1 ++ h :: l2 -> h ∉ l1 ->
            handlers_called (Some t) (off t (Some h) (on t h hs)) = l1 ++ l2 ++ [h]).
  { intros l1 l2 Hsplit Hnot. rewrite off_called, decide_True by reflexivity.
    rewrite on_called, decide_True by reflexivity. rewrite Hsplit.
    rewrite <- app_assoc. simpl.
    rewrite list_remove_first by exact Hnot. reflexivity. }
  split; [|split; assumption].
  intros [t'|]; [|reflexivity].
  destruct (decide (t = t')) as [<-|Hne].
  - destruct (decide (h ∈ handlers_called (Some t) hs)) as [Hin|Hnot].
    + apply list_elem_of_split_l in Hin. destruct Hin as (l1 & l2 & Hsplit & Hnot).
      rewrite (Hheld l1 l2 Hsplit Hnot), Hsplit.
      rewrite (Permutation_app_comm l2 [h]). reflexivity.
    + rewrite Hfresh by exact Hnot. reflexivity.
  - rewrite off_called, decide_False by exact Hne.
    rewrite on_called, decide_False by exact Hne. reflexivity.
Qed.

Lemma on_off_round_trip_witness :
  handlers_called (Some "order") sample_handlers = [7; 8; 7]%nat /\
  handlers_called (Some "order") (off "order" (Some 7%nat) (on "order" 7%nat sample_handlers))
  = [8; 7; 7]%nat.
Proof.
  split; [reflexivity|].
  destruct (on_off_round_trip "order" 7%nat sample_handlers) as (_ & _ & Hheld).
  apply (Hheld [] [8; 7]%nat); [reflexivity | apply not_elem_of_nil].
Defined.
